(** * The poker-hand extractor of [src/extract.py], embedded and verified

    The development follows the source top down:

    - text helpers standing for the Python string methods the extractor
      calls ([split], [endswith], [rsplit], [rstrip], [replace], ...);
    - the three validated records [HdbRecord], [HrosterRecord] and
      [PdbRecord] with their constructors and derived properties;
    - the synchronised merge of [_extract_single_group] (the loop over the
      hand file, the forward search in the roster file and in every player
      file), with the Python exceptions made explicit;
    - the archive handling around it (group name checks, member lookup,
      the [try]/[finally] block whose [return hands] ends every path).

    Lines are modelled as already decoded ASCII text, integers as [Z]
    (Python integers are unbounded), dictionaries as association lists in
    insertion order (the order Python dictionaries iterate in). Logging
    and the closing of file handles have no effect on the returned value
    and are left out. *)

From Stdlib Require Import String Ascii List ZArith Lia Bool Sorted DecimalString.
From Stdlib Require Import Permutation.
Import ListNotations.

Local Open Scope string_scope.
Local Open Scope list_scope.
Local Open Scope Z_scope.

(** ** Exceptions and results *)

(** The exception classes that can travel through the extractor. *)
Inductive exn : Type :=
| StopIteration
| EOFError
| ValidationError
| AssertionError
| IndexError
| KeyError
| TypeError
| UnboundLocalError
| ReadError.

(** A computation either yields a value or raises. *)
Inductive res (A : Type) : Type :=
| Ok (a : A)
| Raise (e : exn).
Arguments Ok {A} a.
Arguments Raise {A} e.

Notation "'let+' x ':=' c 'in' k" :=
  (match c with Ok x => k | Raise e => Raise e end)
  (at level 10, x pattern, c at level 100, k at level 200, only parsing).

(** ** Insertion-ordered dictionaries *)

Definition dict (V : Type) : Type := list (string * V).

Fixpoint dict_get {V : Type} (k : string) (d : dict V) : option V :=
  match d with
  | [] => None
  | (k', v) :: d' => if String.eqb k k' then Some v else dict_get k d'
  end.

(** [d[k] = v]: an existing key keeps its place, a new key goes last. *)
Fixpoint dict_set {V : Type} (k : string) (v : V) (d : dict V) : dict V :=
  match d with
  | [] => [(k, v)]
  | (k', v') :: d' =>
      if String.eqb k k' then (k, v) :: d' else (k', v') :: dict_set k v d'
  end.

Definition keys {V : Type} (d : dict V) : list string := map fst d.
Definition values {V : Type} (d : dict V) : list V := map snd d.

(** ** Text helpers *)

Fixpoint char_in (c : ascii) (set : string) : bool :=
  match set with
  | EmptyString => false
  | String c' set' => Ascii.eqb c c' || char_in c set'
  end.

Fixpoint all_chars (p : ascii -> bool) (s : string) : bool :=
  match s with
  | EmptyString => true
  | String c s' => p c && all_chars p s'
  end.

Definition nonempty (s : string) : bool :=
  match s with EmptyString => false | _ => true end.

(** Whitespace as [str.split()] sees it on ASCII text. *)
Definition is_space (c : ascii) : bool :=
  let n := nat_of_ascii c in
  (Nat.leb 9 n && Nat.leb n 13) || (Nat.leb 28 n && Nat.leb n 32).

Definition flush (cur : string) : list string :=
  match cur with EmptyString => [] | _ => [cur] end.

Fixpoint split_ws (cur : string) (s : string) : list string :=
  match s with
  | EmptyString => flush cur
  | String c s' =>
      if is_space c then flush cur ++ split_ws "" s'
      else split_ws (cur ++ String c "") s'
  end.

(** [split = lambda x: x.decode().strip().split()], followed at every call
    site by [[s for s in ... if s]], which removes nothing. *)
Definition split (line : string) : list string :=
  filter nonempty (split_ws "" line).

Fixpoint rev_string (acc s : string) : string :=
  match s with
  | EmptyString => acc
  | String c s' => rev_string (String c acc) s'
  end.

(** [s.endswith(suffix)] *)
Definition endswith (s suffix : string) : bool :=
  prefix (rev_string "" suffix) (rev_string "" s).

(** [s.replace(a, b)] for one-character [a] and [b]. *)
Fixpoint replace (a b : ascii) (s : string) : string :=
  match s with
  | EmptyString => EmptyString
  | String c s' => String (if Ascii.eqb c a then b else c) (replace a b s')
  end.

Fixpoint lstrip (set : string) (s : string) : string :=
  match s with
  | EmptyString => EmptyString
  | String c s' => if char_in c set then lstrip set s' else s
  end.

(** [s.rstrip(set)]: drops every trailing character that occurs in [set]. *)
Definition rstrip (set : string) (s : string) : string :=
  rev_string "" (lstrip set (rev_string "" s)).

(** [s.split(sep)] for a non-empty [sep]: scan from the left, cut at every
    occurrence, resume after it. [skip] counts the characters of a matched
    separator that are still to be passed over. *)
Fixpoint split_on (sep : string) (skip : nat) (cur s : string) : list string :=
  match s with
  | EmptyString => [cur]
  | String c s' =>
      match skip with
      | S k => split_on sep k cur s'
      | O =>
          if prefix sep s
          then cur :: split_on sep (Nat.pred (String.length sep)) "" s'
          else split_on sep O (cur ++ String c "") s'
      end
  end.

Definition str_split (sep s : string) : list string := split_on sep O "" s.

(** [sep in s] *)
Fixpoint contains (sep s : string) : bool :=
  prefix sep s ||
  match s with
  | EmptyString => false
  | String _ s' => contains sep s'
  end.

(** [s.split(c, 1)]: cut at the first [c] only. *)
Fixpoint split1 (c : ascii) (cur s : string) : list string :=
  match s with
  | EmptyString => [cur]
  | String c' s' =>
      if Ascii.eqb c' c then [cur; s'] else split1 c (cur ++ String c' "") s'
  end.

(** [s.rsplit(c, 1)]: cut at the last [c] only. *)
Definition rsplit1 (c : ascii) (s : string) : list string :=
  match split1 c "" (rev_string "" s) with
  | [tl_rev; hd_rev] => [rev_string "" hd_rev; rev_string "" tl_rev]
  | _ => [s]
  end.

(** [s[0]] as a one-character string (never used on an empty string). *)
Definition first_char (s : string) : string :=
  match s with
  | EmptyString => EmptyString
  | String c _ => String c EmptyString
  end.

(** *** Integers *)

Definition is_digit (c : ascii) : bool := char_in c "0123456789".

Fixpoint digits_val (acc : Z) (s : string) : Z :=
  match s with
  | EmptyString => acc
  | String c s' =>
      digits_val (10 * acc + Z.of_nat (nat_of_ascii c - 48)) s'
  end.

Definition is_digits (s : string) : bool := nonempty s && all_chars is_digit s.

(** An optional sign and decimal digits. *)
Definition signed_digits (s : string) : option Z :=
  match s with
  | String "-" s' => if is_digits s' then Some (- digits_val 0 s') else None
  | String "+" s' => if is_digits s' then Some (digits_val 0 s') else None
  | _ => if is_digits s then Some (digits_val 0 s) else None
  end.

(** **** Integer fields

    A token given for an [int] field of a record class goes through the
    validation library's reading of a string as an integer (pydantic-core,
    [str_as_int]): the text is trimmed and refused beyond 4300 characters;
    it is parsed as it stands; when that fails it is cleaned and parsed
    once more. The definitions follow that function and its helpers, name
    by name. *)

(** The ASCII characters [str::trim] takes off. *)
Definition trim_set : string :=
  String (ascii_of_nat 9) (String (ascii_of_nat 10) (String (ascii_of_nat 11)
    (String (ascii_of_nat 12) (String (ascii_of_nat 13) " ")))).

Definition trim (s : string) : string :=
  rev_string "" (lstrip trim_set (rev_string "" (lstrip trim_set s))).

Fixpoint remove_char (a : ascii) (s : string) : string :=
  match s with
  | EmptyString => EmptyString
  | String c s' => if Ascii.eqb c a then remove_char a s'
                   else String c (remove_char a s')
  end.

(** Parsing as [i64], for texts shorter than 19 characters: a sign and
    digits. *)
Definition parse_i64 (s : string) : option Z := signed_digits s.

(** Parsing as an unsigned big integer: one leading [+] is passed over,
    the first character must not be an underscore, and underscores after
    it are passed over. *)
Definition parse_biguint (s : string) : option Z :=
  let s1 := match s with
            | String "+" (String "+" _) => s
            | String "+" t => t
            | _ => s
            end in
  match s1 with
  | EmptyString => None
  | String "_" _ => None
  | _ => let d := remove_char "_" s1 in
         if all_chars is_digit d then Some (digits_val 0 d) else None
  end.

(** Parsing as a big integer: a leading [-], unless a [+] follows it, is
    the sign of what the unsigned parser reads after it. *)
Definition parse_bigint (s : string) : option Z :=
  match s with
  | String "-" (String "+" _) => parse_biguint s
  | String "-" t => option_map Z.opp (parse_biguint t)
  | _ => parse_biguint s
  end.

(** [_parse_str]: [len] is the length of the trimmed text, also on the
    second attempt. *)
Definition _parse_str (s : string) (len : nat) : option Z :=
  if Nat.ltb len 19 then parse_i64 s else parse_bigint s.

(** [strip_leading_zeros], after a first character [0]: zeros and
    underscores are passed over; a digit from 1 to 9 starts what is kept; a
    dot is kept together with the character before it; anything else is
    refused; of a text of zeros and underscores only, the last character
    is kept. *)
Fixpoint leading_zeros_loop (prev : ascii) (s : string) : option string :=
  match s with
  | EmptyString => Some (String prev EmptyString)
  | String c s' =>
      if Ascii.eqb c "0" || Ascii.eqb c "_" then leading_zeros_loop c s'
      else if char_in c "123456789" then Some s
      else if Ascii.eqb c "." then Some (String prev s)
      else None
  end.

Definition strip_leading_zeros (s : string) : option string :=
  match s with
  | EmptyString => None
  | String c s' =>
      if Ascii.eqb c "0" then leading_zeros_loop c s'
      else if char_in c "123456789" then Some s
      else None
  end.

(** [strip_decimal_zeros]: a first dot followed by zeros only (or by
    nothing) goes, with what follows it. *)
Definition strip_decimal_zeros (s : string) : string :=
  match split1 "." "" s with
  | [before; after] =>
      if all_chars (fun c => Ascii.eqb c "0") after then before else s
  | _ => s
  end.

(** [strip_underscores]: nothing to do without an underscore, or with one
    at either end or two in a row. *)
Definition strip_underscores (s : string) : option string :=
  if prefix "_" s || endswith s "_" || negb (contains "_" s)
     || contains "__" s
  then None
  else Some (remove_char "_" s).

(** [clean_int_str] *)
Definition clean_int_str (s : string) : option string :=
  let len_before := String.length s in
  let s := trim s in
  let after_plus :=
    match s with
    | String "+" (String "-" _) => None
    | String "+" t => Some t
    | _ => Some s
    end in
  match after_plus with
  | None => None
  | Some s =>
      let '(sign, s) :=
        match s with
        | String "-" t => ("-", t)
        | _ => ("", s)
        end in
      match strip_leading_zeros s with
      | None => None
      | Some s =>
          let s := strip_decimal_zeros s in
          match strip_underscores s with
          | Some stripped => Some (sign ++ stripped)%string
          | None =>
              if Nat.eqb len_before (String.length s) then None
              else Some (sign ++ s)%string
          end
      end
  end.

(** [str_as_int] *)
Definition str_as_int (s : string) : option Z :=
  let s := trim s in
  let len := String.length s in
  if Nat.ltb 4300 len then None
  else
    match _parse_str s len with
    | Some z => Some z
    | None =>
        match clean_int_str s with
        | Some cleaned => _parse_str cleaned len
        | None => None
        end
    end.

(** Reading an integer field of a record class. *)
Definition int_of_string (s : string) : option Z := str_as_int s.

(** Python's [int(s)] where the source applies it: on the two halves of a
    pot field, which the [Stage] pattern has already checked to be digit
    strings (lemma [Stage_halves_are_digits]). *)
Definition int (s : string) : Z :=
  match signed_digits s with Some z => z | None => 0 end.

(** [str(z)] / [f"{z}"] *)
Definition str (z : Z) : string := NilZero.string_of_int (Z.to_int z).

(** ** Constants and annotated types *)

Definition VALID_GAME_TYPES : list string :=
  ["holdem"; "holdem1"; "holdem2"; "holdem3"; "holdemii"; "holdempot";
   "nolimit"; "tourney"].

Definition STAGES : list string :=
  ["preflop"; "flop"; "turn"; "river"; "showdown"].

Definition mem_string (s : string) (l : list string) : bool :=
  existsb (String.eqb s) l.

(** [Timestamp = Annotated[int, Field(ge=100000000, le=999999999)]] *)
Definition Timestamp (s : string) : option Z :=
  match int_of_string s with
  | Some z => if (100000000 <=? z) && (z <=? 999999999) then Some z else None
  | None => None
  end.

(** [Stage]: pattern [^[0-9]+\/[0-9]+$] *)
Definition Stage (s : string) : bool :=
  match split1 "/" "" s with
  | [n; m] => is_digits n && is_digits m
  | _ => false
  end.

(** [Card]: pattern [^[1-9,TJQKA][schd]$] *)
Definition Card (s : string) : bool :=
  match s with
  | String r (String u EmptyString) =>
      char_in r "123456789,TJQKA" && char_in u "schd"
  | _ => false
  end.

(** [Action]: pattern [^[BfkbcrAQK-]+$] *)
Definition Action (s : string) : bool :=
  nonempty s && all_chars (fun c => char_in c "BfkbcrAQK-") s.

(** An [Optional[Card]] field fed from position [i] of the remaining
    tokens: absent stays [None], present must match the pattern. *)
Definition optional_card (rest : list string) (i : nat) : option (option string) :=
  match nth_error rest i with
  | None => Some None
  | Some c => if Card c then Some (Some c) else None
  end.

Definition present {A : Type} (l : list (option A)) : list A :=
  flat_map (fun o => match o with Some a => [a] | None => [] end) l.

(** ** The hand file record *)

Record HdbRecord : Type := {
  hdb_timestamp : Z;
  hdb_dealer : Z;
  hdb_hand_num : Z;
  hdb_num_players : Z;
  hdb_flop : string;
  hdb_turn : string;
  hdb_river : string;
  hdb_showdown : string;
  hdb_card1 : option string;
  hdb_card2 : option string;
  hdb_card3 : option string;
  hdb_card4 : option string;
  hdb_card5 : option string
}.

(** [HdbRecord.__init__] on the tokens of a line: the tokens are zipped with the field names in
    declaration order, so tokens past the thirteenth are ignored and a
    missing required field, like any field that fails its check, is a
    [ValidationError]. *)
Definition HdbRecord_init (args : list string) : res HdbRecord :=
  match args with
  | ts :: dl :: hn :: np :: fl :: tu :: rv :: sd :: rest =>
      match Timestamp ts, int_of_string dl, int_of_string hn, int_of_string np,
            optional_card rest 0, optional_card rest 1, optional_card rest 2,
            optional_card rest 3, optional_card rest 4 with
      | Some t, Some d, Some h, Some n, Some c1, Some c2, Some c3, Some c4, Some c5 =>
          if Stage fl && Stage tu && Stage rv && Stage sd
          then Ok {| hdb_timestamp := t; hdb_dealer := d; hdb_hand_num := h;
                     hdb_num_players := n; hdb_flop := fl; hdb_turn := tu;
                     hdb_river := rv; hdb_showdown := sd; hdb_card1 := c1;
                     hdb_card2 := c2; hdb_card3 := c3; hdb_card4 := c4;
                     hdb_card5 := c5 |}
          else Raise ValidationError
      | _, _, _, _, _, _, _, _, _ => Raise ValidationError
      end
  | _ => Raise ValidationError
  end.

(** [HdbRecord.cards] *)
Definition hdb_cards (r : HdbRecord) : list string :=
  present [hdb_card1 r; hdb_card2 r; hdb_card3 r; hdb_card4 r; hdb_card5 r].

Record Pot : Type := {
  pot_num_players : Z;
  pot_stage : string;
  pot_size : Z
}.

(** [getattr(self, stage)] on the stage names [HdbRecord.pots] goes through. *)
Definition hdb_getattr (r : HdbRecord) (stage : string) : string :=
  if String.eqb stage "flop" then hdb_flop r
  else if String.eqb stage "turn" then hdb_turn r
  else if String.eqb stage "river" then hdb_river r
  else hdb_showdown r.

(** [HdbRecord.pots]: one pot per stage of [STAGES[1:]]. *)
Definition hdb_pots (r : HdbRecord) : list Pot :=
  map (fun stage =>
         match split1 "/" "" (hdb_getattr r stage) with
         | n :: s :: _ =>
             {| pot_num_players := int n; pot_stage := first_char stage;
                pot_size := int s |}
         | _ => {| pot_num_players := 0; pot_stage := first_char stage;
                   pot_size := 0 |}
         end)
      (tl STAGES).

(** ** The roster file record *)

Record HrosterRecord : Type := {
  hroster_timestamp : Z;
  hroster_num_players : Z;
  hroster_players : list string
}.

(** [HrosterRecord.__init__] on the tokens of a line: [args[0]] and [args[1]] are read before any
    validation, so a line with fewer than two tokens is an [IndexError];
    [args[2:]] becomes the player list whatever its length. *)
Definition HrosterRecord_init (args : list string) : res HrosterRecord :=
  match args with
  | ts :: np :: players =>
      match Timestamp ts, int_of_string np with
      | Some t, Some n =>
          Ok {| hroster_timestamp := t; hroster_num_players := n;
                hroster_players := players |}
      | _, _ => Raise ValidationError
      end
  | _ => Raise IndexError
  end.

(** ** The player file record *)

Record PdbRecord : Type := {
  pdb_player : string;
  pdb_timestamp : Z;
  pdb_num_players : Z;
  pdb_position : Z;
  pdb_preflop : string;
  pdb_flop : string;
  pdb_turn : string;
  pdb_river : string;
  pdb_bankroll : Z;
  pdb_total_bet : Z;
  pdb_total_win : Z;
  pdb_card1 : option string;
  pdb_card2 : option string
}.

(** [PdbRecord.__init__] on the tokens of a line, zipped with the field names like [HdbRecord]. *)
Definition PdbRecord_init (args : list string) : res PdbRecord :=
  match args with
  | pl :: ts :: np :: pos :: pf :: fl :: tu :: rv :: br :: tb :: tw :: rest =>
      match Timestamp ts, int_of_string np, int_of_string pos,
            int_of_string br, int_of_string tb, int_of_string tw,
            optional_card rest 0, optional_card rest 1 with
      | Some t, Some n, Some p, Some b, Some tb', Some tw', Some c1, Some c2 =>
          if Action pf && Action fl && Action tu && Action rv
          then Ok {| pdb_player := pl; pdb_timestamp := t; pdb_num_players := n;
                     pdb_position := p; pdb_preflop := pf; pdb_flop := fl;
                     pdb_turn := tu; pdb_river := rv; pdb_bankroll := b;
                     pdb_total_bet := tb'; pdb_total_win := tw';
                     pdb_card1 := c1; pdb_card2 := c2 |}
          else Raise ValidationError
      | _, _, _, _, _, _, _, _ => Raise ValidationError
      end
  | _ => Raise ValidationError
  end.

(** [PdbRecord.cards] *)
Definition pdb_cards (r : PdbRecord) : list string :=
  present [pdb_card1 r; pdb_card2 r].

Record Bet : Type := {
  bet_actions : string;
  bet_stage : string
}.

Definition pdb_getattr (r : PdbRecord) (stage : string) : string :=
  if String.eqb stage "preflop" then pdb_preflop r
  else if String.eqb stage "flop" then pdb_flop r
  else if String.eqb stage "turn" then pdb_turn r
  else pdb_river r.

(** [PdbRecord.bets]: one entry per stage of [STAGES[:-1]]. *)
Definition pdb_bets (r : PdbRecord) : list Bet :=
  map (fun stage =>
         {| bet_actions := pdb_getattr r stage; bet_stage := first_char stage |})
      (removelast STAGES).

(** ** The emitted hand *)

Record Player : Type := {
  total_bet : Z;
  bankroll : Z;
  bets : list Bet;
  pocket_cards : list string;
  position : Z;
  total_win : Z
}.

Record Hand : Type := {
  _id : string;
  board : list string;
  dealer : Z;
  game : string;
  hand_num : Z;
  num_players : Z;
  players : dict Player;
  pots : list Pot
}.

(** ** Files and archives *)

(** An extracted member read line by line: the lines still to come, and
    the exception [next] raises once they are used up ([StopIteration] at
    the regular end of a member, [EOFError] or another error when the
    container is cut short). Iteration consumes the front of [lines]. *)
Record file : Type := {
  lines : list string;
  on_end : exn
}.

(** [next(it)] *)
Definition next (it : file) : res (string * file) :=
  match lines it with
  | [] => Raise (on_end it)
  | l :: ls => Ok (l, {| lines := ls; on_end := on_end it |})
  end.

(** A member of a tar archive: only a regular file has content that
    [extractfile] can hand out. *)
Inductive member (A : Type) : Type :=
| NotRegular
| Regular (a : A).
Arguments NotRegular {A}.
Arguments Regular {A} a.

(** An opened archive: its members in archive order. *)
Definition tar (A : Type) : Type := list (string * member A).

(** [tar.getnames()] *)
Definition getnames {A : Type} (t : tar A) : list string := map fst t.

(** [tar.getmember(name)]: the last member of that name. *)
Definition getmember {A : Type} (name : string) (t : tar A) : option (member A) :=
  option_map snd (find (fun m => String.eqb (fst m) name) (rev t)).

(** [tar.extractfile(name)]: [KeyError] for an unknown name, [None] for a
    member that is not a regular file. *)
Definition extractfile {A : Type} (name : string) (t : tar A) : res (option A) :=
  match getmember name t with
  | None => Raise KeyError
  | Some NotRegular => Ok None
  | Some (Regular a) => Ok (Some a)
  end.

Section Extractor.

(** [system] comes from the project's [utils] module (the host platform's
    name); the extractor only uses it to choose the path separator. *)
Variable system : string.

Definition SLASH : ascii :=
  if String.eqb system "Windows" then "\"%char else "/"%char.

Definition SLASH_str : string := String SLASH EmptyString.

(** ** The merge of one group *)

(** The mutable locals of the merge: the roster iterator, the player
    iterators, the current record of every player file, and the result. *)
Record state : Type := {
  iter_hroster : file;
  iter_pdb : dict file;
  pdb : dict PdbRecord;
  hands : list Hand
}.

(** The inner [while True] over the roster file: read and decode lines
    until one has a timestamp at or after [ts]. Returns what the loop ends
    with and the iterator as it leaves it. *)
Fixpoint seek_hroster (ts : Z) (ls : list string) (e : exn)
  : res HrosterRecord * file :=
  match ls with
  | [] => (Raise e, {| lines := []; on_end := e |})
  | l :: ls' =>
      match HrosterRecord_init (split l) with
      | Raise x => (Raise x, {| lines := ls'; on_end := e |})
      | Ok hroster =>
          if hroster_timestamp hroster >=? ts
          then (Ok hroster, {| lines := ls'; on_end := e |})
          else seek_hroster ts ls' e
      end
  end.

(** [while pdb[player].timestamp < hdb.timestamp: pdb[player] = PdbRecord(...)].
    Returns how the loop ends, the value of [pdb[player]] and the rest of
    the player's iterator. A line that fails to decode is consumed and
    leaves [pdb[player]] as it was. *)
Fixpoint seek_pdb (ts : Z) (cur : PdbRecord) (ls : list string) (e : exn)
  : res unit * PdbRecord * list string :=
  if pdb_timestamp cur <? ts then
    match ls with
    | [] => (Raise e, cur, [])
    | l :: ls' =>
        match PdbRecord_init (split l) with
        | Raise x => (Raise x, cur, ls')
        | Ok r => seek_pdb ts r ls' e
        end
    end
  else (Ok tt, cur, ls).

(** [iter_pdb[player]], read where the loop above calls [next] on it: a
    missing key shows as a [KeyError] at the first [next]. *)
Definition lookup_iter (player : string) (ip : dict file) : file :=
  match dict_get player ip with
  | Some it => it
  | None => {| lines := []; on_end := KeyError |}
  end.

(** The iterator object of [player] has moved on to [ls]. *)
Definition advance_iter (player : string) (ls : list string) (ip : dict file)
  : dict file :=
  map (fun kf => if String.eqb (fst kf) player
                 then (fst kf, {| lines := ls; on_end := on_end (snd kf) |})
                 else kf) ip.

(** [for player in hroster.players: ...]. The result is [Ok (Some pdb_curr)]
    when every player was found at [ts], [Ok None] when the loop was left
    with [pdb_missing = True], and [Raise] when a [next] or a decoder
    raised. *)
Fixpoint match_players (ts : Z) (roster : list string)
    (ip : dict file) (pd : dict PdbRecord) (pdb_curr : dict PdbRecord)
  : res (option (dict PdbRecord)) * dict file * dict PdbRecord :=
  match roster with
  | [] => (Ok (Some pdb_curr), ip, pd)
  | player :: roster' =>
      match dict_get player pd with
      | None => (Ok None, ip, pd)
      | Some cur =>
          let it := lookup_iter player ip in
          let '(r, cur', ls') := seek_pdb ts cur (lines it) (on_end it) in
          let ip' := advance_iter player ls' ip in
          let pd' := dict_set player cur' pd in
          match r with
          | Raise x => (Raise x, ip', pd')
          | Ok _ =>
              if pdb_timestamp cur' >? ts then (Ok None, ip', pd')
              else match_players ts roster' ip' pd' (dict_set player cur' pdb_curr)
          end
      end
  end.

Definition make_player (v : PdbRecord) : Player :=
  {| total_bet := pdb_total_bet v;
     bankroll := pdb_bankroll v;
     bets := pdb_bets v;
     pocket_cards := pdb_cards v;
     position := pdb_position v;
     total_win := pdb_total_win v |}.

(** [f"{folder_group}{SLASH}{hdb.timestamp}".replace(SLASH, "_")] *)
Definition make_id (folder_group : string) (ts : Z) : string :=
  replace SLASH "_" (folder_group ++ SLASH_str ++ str ts).

Definition make_hand (folder_group game_type : string) (hdb : HdbRecord)
    (pdb_curr : dict PdbRecord) : Hand :=
  {| _id := make_id folder_group (hdb_timestamp hdb);
     board := hdb_cards hdb;
     dealer := hdb_dealer hdb;
     game := game_type;
     hand_num := hdb_hand_num hdb;
     num_players := hdb_num_players hdb;
     players := map (fun kv => (fst kv, make_player (snd kv))) pdb_curr;
     pots := hdb_pots hdb |}.

Definition with_hroster (st : state) (it : file) : state :=
  {| iter_hroster := it; iter_pdb := iter_pdb st; pdb := pdb st;
     hands := hands st |}.

Definition with_pdb (st : state) (ip : dict file) (pd : dict PdbRecord) : state :=
  {| iter_hroster := iter_hroster st; iter_pdb := ip; pdb := pd;
     hands := hands st |}.

Definition append_hand (st : state) (hand : Hand) : state :=
  {| iter_hroster := iter_hroster st; iter_pdb := iter_pdb st; pdb := pdb st;
     hands := hands st ++ [hand] |}.

(** The body of the inner [try], from the decoded hand record on. [Ok tt]
    stands for reaching the end of the iteration or one of its
    [continue]s. The [assert] statements are executed (the interpreter
    does not run with assertions switched off). *)
Definition candidate (folder_group game_type : string) (hdb : HdbRecord)
    (st : state) : state * res unit :=
  let '(r, it) :=
    seek_hroster (hdb_timestamp hdb) (lines (iter_hroster st))
                 (on_end (iter_hroster st)) in
  let st1 := with_hroster st it in
  match r with
  | Raise x => (st1, Raise x)
  | Ok hroster =>
      if hdb_timestamp hdb <? hroster_timestamp hroster then (st1, Ok tt)
      else if negb (hdb_timestamp hdb =? hroster_timestamp hroster)
      then (st1, Raise AssertionError)
      else if negb (hdb_num_players hdb =? hroster_num_players hroster)
      then (st1, Raise AssertionError)
      else
        let '(m, ip, pd) :=
          match_players (hdb_timestamp hdb) (hroster_players hroster)
                        (iter_pdb st1) (pdb st1) [] in
        let st2 := with_pdb st1 ip pd in
        match m with
        | Raise x => (st2, Raise x)
        | Ok None => (st2, Ok tt)
        | Ok (Some pdb_curr) =>
            if negb (Nat.eqb (length (hroster_players hroster)) (length pdb_curr))
            then (st2, Raise AssertionError)
            else if negb (forallb (fun v => pdb_timestamp v =? hdb_timestamp hdb)
                                  (values pdb_curr))
            then (st2, Raise AssertionError)
            else (append_hand st2 (make_hand folder_group game_type hdb pdb_curr),
                  Ok tt)
        end
  end.

(** The inner [try] block, given the line [next(iter_hdb)] produced. *)
Definition inner_try (folder_group game_type : string) (l : string)
    (st : state) : state * res unit :=
  match HdbRecord_init (split l) with
  | Raise x => (st, Raise x)
  | Ok hdb => candidate folder_group game_type hdb st
  end.

(** One turn of the outer [while True]: the inner [try] with its
    [except ValidationError: continue]. *)
Definition iteration (folder_group game_type : string) (l : string)
    (st : state) : state * res unit :=
  let '(st', r) := inner_try folder_group game_type l st in
  match r with
  | Raise ValidationError => (st', Ok tt)
  | _ => (st', r)
  end.

(** The outer [while True]: it only ends by an exception, the one of
    [next(iter_hdb)] at the end of the hand file ([e]) or one that
    [iteration] lets through. *)
Fixpoint while_true (folder_group game_type : string)
    (ls : list string) (e : exn) (st : state) : state * exn :=
  match ls with
  | [] => (st, e)
  | l :: ls' =>
      match iteration folder_group game_type l st with
      | (st', Ok _) => while_true folder_group game_type ls' e st'
      | (st', Raise x) => (st', x)
      end
  end.

(** ** Opening the members of a group *)

(** The loop over [tar_group.getnames()] that fills [file_pdb] and
    [iter_pdb]: a name containing the delimiter is a player file, keyed by
    what follows the last delimiter; [iter(None)] on a member that is not a
    regular file is a [TypeError]. *)
Fixpoint open_pdb (delimiter : string) (tar_group : tar file)
    (names : list string) (ip : dict file) : res (dict file) :=
  match names with
  | [] => Ok ip
  | fname :: names' =>
      if contains delimiter fname then
        let player := last (str_split delimiter fname) "" in
        match extractfile fname tar_group with
        | Raise x => Raise x
        | Ok None => Raise TypeError
        | Ok (Some f) => open_pdb delimiter tar_group names' (dict_set player f ip)
        end
      else open_pdb delimiter tar_group names' ip
  end.

(** [pdb = {k: PdbRecord(...next(v)...) for k, v in iter_pdb.items()}]: the
    first line of every player file, outside the inner [try]. Returns the
    new dictionary and the iterators after their first [next]. *)
Fixpoint first_records (ip : dict file) : res (dict PdbRecord * dict file) :=
  match ip with
  | [] => Ok ([], [])
  | (k, v) :: ip' =>
      let+ (l, v') := next v in
      let+ r := PdbRecord_init (split l) in
      let+ (pd, ip'') := first_records ip' in
      Ok ((k, r) :: pd, (k, v') :: ip'')
  end.

(** How a block of statements ends. *)
Inductive completion : Type :=
| Returns (v : list Hand)
| Raises (e : exn)
| Falls_through.

(** The body of the outer [try]. The first component is the value of the
    local [hands] when the body ends. *)
Definition try_body (folder_group game_type : string) (tar_group : tar file)
  : list Hand * completion :=
  match extractfile (folder_group ++ SLASH_str ++ "hdb") tar_group with
  | Raise x => ([], Raises x)
  | Ok None => ([], Returns [])
  | Ok (Some file_hdb) =>
      match extractfile (folder_group ++ SLASH_str ++ "hroster") tar_group with
      | Raise x => ([], Raises x)
      | Ok None => ([], Returns [])
      | Ok (Some file_hroster) =>
          match open_pdb ("pdb" ++ SLASH_str ++ "pdb.") tar_group
                         (getnames tar_group) [] with
          | Raise x => ([], Raises x)
          | Ok ip =>
              match first_records ip with
              | Raise x => ([], Raises x)
              | Ok (pd, ip') =>
                  let '(st, x) :=
                    while_true folder_group game_type
                               (lines file_hdb) (on_end file_hdb)
                               {| iter_hroster := file_hroster; iter_pdb := ip';
                                  pdb := pd; hands := [] |} in
                  (hands st, Raises x)
              end
          end
      end
  end.

(** [except EOFError: ...] and [except StopIteration: pass] *)
Definition handlers (c : completion) : completion :=
  match c with
  | Raises EOFError => Falls_through
  | Raises StopIteration => Falls_through
  | _ => c
  end.

(** [finally: ...; return hands]: a [return] in a [finally] clause ends the
    function with its value, whatever was pending (a return value, an
    exception no handler took, or nothing). *)
Definition finally_return (hands : list Hand) (pending : completion)
  : res (list Hand) :=
  Ok hands.

(** The [try] statement as a whole. *)
Definition extract_and_merge (folder_group game_type : string)
    (tar_group : tar file) : res (list Hand) :=
  let '(hands, c) := try_body folder_group game_type tar_group in
  finally_return hands (handlers c).

(** ** [PokerHandsExtractor._extract_single_group]

    [tar_in] is the opened top-level archive; the content of a regular
    member is the group archive inside it, or [None] when the member is
    not an archive [TarFile.open] can read. The local [fname_group] is
    [None] while nothing is bound to it. *)
Definition _extract_single_group (name_group : string)
    (tar_in : tar (option (tar file))) : res (list Hand) :=
  if negb (endswith name_group ".tgz") then Ok []
  else
    let parts := rsplit1 SLASH name_group in
    let fname_group : option string :=
      if Nat.ltb (length parts) 2 then None else nth_error parts 1 in
    match fname_group with
    | None => Raise UnboundLocalError
    | Some fname_group =>
        let game_type := hd "" (split1 "." "" fname_group) in
        if negb (mem_string game_type VALID_GAME_TYPES) then Ok []
        else
          let folder_group := replace "." SLASH (rstrip ".tgz" fname_group) in
          match extractfile name_group tar_in with
          | Raise x => Raise x
          | Ok None => Ok []
          | Ok (Some None) => Raise ReadError
          | Ok (Some (Some tar_group)) =>
              extract_and_merge folder_group game_type tar_group
          end
    end.

(** ** [PokerHandsExtractor.__iter__], compute branch

    [pool.imap] hands back the groups' results in the order of [names];
    an exception raised by a worker is raised again in the consumer at
    that group's place. The value is what the consumer is given: the hands
    yielded, and the exception that ended the iteration if there is one. *)
Fixpoint imap_hands (names : list string) (tar_in : tar (option (tar file)))
  : list Hand * option exn :=
  match names with
  | [] => ([], None)
  | name_group :: names' =>
      match _extract_single_group name_group tar_in with
      | Raise x => ([], Some x)
      | Ok hands_group =>
          let '(rest, r) := imap_hands names' tar_in in
          (hands_group ++ rest, r)
      end
  end.

Definition iter_compute (tar_in : tar (option (tar file)))
  : list Hand * option exn :=
  imap_hands (getnames tar_in) tar_in.

End Extractor.

(** * Vocabulary of the statements *)

(** The keys after [d[k] = v]. *)
Definition keys_add (k : string) (ks : list string) : list string :=
  if mem_string k ks then ks else ks ++ [k].

Section Provenance.

Variable system : string.
Variables folder_group game_type : string.

(** The player files as [open_pdb] opened them, and the lines of the
    roster file. *)
Variable ip0 : dict file.
Variable roster_lines : list string.

(** [v] is the decoding of a line of the file opened under key [k]. *)
Definition from_file (k : string) (v : PdbRecord) : Prop :=
  exists f0 l,
    In (k, f0) ip0 /\ In l (lines f0) /\ PdbRecord_init (split l) = Ok v.

(** Every player iterator stands somewhere in the file it was opened on. *)
Definition iters_ok (ip : dict file) : Prop :=
  forall k it, In (k, it) ip ->
    exists f0, In (k, f0) ip0 /\ incl (lines it) (lines f0).

Definition currents_ok (pd : dict PdbRecord) : Prop :=
  forall k v, In (k, v) pd -> from_file k v.

Definition state_ok (st : state) : Prop :=
  incl (lines (iter_hroster st)) roster_lines
  /\ iters_ok (iter_pdb st) /\ currents_ok (pdb st).

(** [hand] is what the merge builds from the hand-file line [l]: a roster
    line of the same timestamp and player count, and for every listed
    player, in roster order, a line of that player's file of the same
    timestamp. *)
Definition emitted_by (l : string) (hand : Hand) : Prop :=
  exists hdb l_r hroster pdb_curr,
    HdbRecord_init (split l) = Ok hdb
    /\ In l_r roster_lines /\ HrosterRecord_init (split l_r) = Ok hroster
    /\ hdb_timestamp hdb = hroster_timestamp hroster
    /\ hdb_num_players hdb = hroster_num_players hroster
    /\ keys pdb_curr = hroster_players hroster
    /\ NoDup (hroster_players hroster)
    /\ (forall k v, In (k, v) pdb_curr ->
          pdb_timestamp v = hdb_timestamp hdb /\ from_file k v)
    /\ hand = make_hand system folder_group game_type hdb pdb_curr.

(** The hands emitted while the hand-file lines [ls] are read, in order:
    every line yields at most one hand. *)
Inductive emitted_seq : list string -> list Hand -> Prop :=
| emitted_done ls : emitted_seq ls []
| emitted_skip l ls hs : emitted_seq ls hs -> emitted_seq (l :: ls) hs
| emitted_hand l ls hand hs :
    emitted_by l hand -> emitted_seq ls hs -> emitted_seq (l :: ls) (hand :: hs).

End Provenance.

(** The three kinds of member the merge of a group reads. *)
Definition group_files (system folder_group : string) (tar_group : tar file)
    (file_hdb file_hroster : file) (ip0 : dict file) : Prop :=
  extractfile (folder_group ++ SLASH_str system ++ "hdb") tar_group
    = Ok (Some file_hdb)
  /\ extractfile (folder_group ++ SLASH_str system ++ "hroster") tar_group
     = Ok (Some file_hroster)
  /\ open_pdb ("pdb" ++ SLASH_str system ++ "pdb.") tar_group
              (getnames tar_group) [] = Ok ip0.

(** The timestamps of the lines of a hand file that decode, in file order. *)
Fixpoint hdb_timestamps (ls : list string) : list Z :=
  match ls with
  | [] => []
  | l :: ls' =>
      match HdbRecord_init (split l) with
      | Ok hdb => hdb_timestamp hdb :: hdb_timestamps ls'
      | Raise _ => hdb_timestamps ls'
      end
  end.

(** * Example groups

    The hand of the module's documentation (timestamp 820830094, players
    Jak and num) and variations of it, as group archives unpacked under
    [holdem/199601]. *)

Definition regular (ls : list string) : file :=
  {| lines := ls; on_end := StopIteration |}.

Definition group_of (hdb_lines hroster_lines : list string)
    (player_files : list (string * list string)) : tar file :=
  [("holdem/199601", NotRegular);
   ("holdem/199601/hdb", Regular (regular hdb_lines));
   ("holdem/199601/hroster", Regular (regular hroster_lines));
   ("holdem/199601/pdb", NotRegular)]
  ++ map (fun pf => (("holdem/199601/pdb/pdb." ++ fst pf)%string,
                     Regular (regular (snd pf)))) player_files.

Definition hdb_094 : string :=
  "820830094    20    1163    2    2/20    2/40    2/80    2/80    Qc 4s 6s 5d 4d".
Definition hroster_094 : string := "820830094    2    Jak    num".
Definition pdb_Jak_094 : string :=
  "Jak    820830094    2    1    Bc    kc    kc    k    850    40    80    7c Ac".
Definition pdb_num_094 : string :=
  "num    820830094    2    2    Bk    b     b     k    1420   40    0     9h Kh".

(** A second hand, thirty-three seconds later: num folds to the blind. *)
Definition hdb_127 : string :=
  "820830127    20    1164    2    0/0     0/0     0/0     1/15".
Definition hroster_127 : string := "820830127    2    Jak    num".
Definition pdb_Jak_127 : string :=
  "Jak    820830127    2    2    B     -     -     -    890    10    15".
Definition pdb_num_127 : string :=
  "num    820830127    2    1    Bf    -     -     -    1380   5     0".

Definition heads_up : tar file :=
  group_of [hdb_094] [hroster_094]
           [("Jak", [pdb_Jak_094]); ("num", [pdb_num_094])].

Definition two_hands : tar file :=
  group_of [hdb_094; hdb_127] [hroster_094; hroster_127]
           [("Jak", [pdb_Jak_094; pdb_Jak_127]);
            ("num", [pdb_num_094; pdb_num_127])].

(** The hand file announces three players at 820830094, the roster two. *)
Definition hdb_094_three : string :=
  "820830094    20    1163    3    2/20    2/40    2/80    2/80    Qc 4s 6s 5d 4d".
Definition count_mismatch : tar file :=
  group_of [hdb_094_three; hdb_127] [hroster_094; hroster_127]
           [("Jak", [pdb_Jak_094; pdb_Jak_127]);
            ("num", [pdb_num_094; pdb_num_127])].

(** The same disagreement on the second hand. *)
Definition hdb_127_three : string :=
  "820830127    20    1164    3    0/0     0/0     0/0     1/15".
Definition late_count_mismatch : tar file :=
  group_of [hdb_094; hdb_127_three] [hroster_094; hroster_127]
           [("Jak", [pdb_Jak_094; pdb_Jak_127]);
            ("num", [pdb_num_094; pdb_num_127])].

(** Jak's file stops before 820830094; the second hand is played by num
    and ace, whose files reach it. *)
Definition pdb_Jak_001 : string :=
  "Jak    820830001    2    1    Bf    -     -     -    855    5     0".
Definition hroster_127_ace : string := "820830127    2    ace    num".
Definition pdb_ace_127 : string :=
  "ace    820830127    2    2    B     -     -     -    500    10    15".
Definition short_player_file : tar file :=
  group_of [hdb_094; hdb_127] [hroster_094; hroster_127_ace]
           [("Jak", [pdb_Jak_001]);
            ("ace", [pdb_ace_127]);
            ("num", [pdb_num_094; pdb_num_127])].

(** Hand file and roster agree on three players, the roster names two,
    and both player lines claim seat 1. *)
Definition hroster_094_three : string := "820830094    3    Jak    num".
Definition pdb_num_094_seat1 : string :=
  "num    820830094    2    1    Bk    b     b     k    1420   40    0     9h Kh".
Definition short_roster : tar file :=
  group_of [hdb_094_three] [hroster_094_three]
           [("Jak", [pdb_Jak_094]); ("num", [pdb_num_094_seat1])].

(** The documentation's hand with integers written the other ways the
    record classes read: a fractional part of zeros, an underscore
    between digits, a sign, leading zeros. *)
Definition hdb_094_spelled : string :=
  "820830094.0    +20    1_163    2.00    2/20    2/40    2/80    2/80    Qc 4s 6s 5d 4d".
Definition hroster_094_spelled : string := "0820830094    2.    Jak    num".
Definition pdb_Jak_094_spelled : string :=
  "Jak    820_830_094    02    1.0    Bc    kc    kc    k    8_50    40.000    +80    7c Ac".
Definition other_spellings : tar file :=
  group_of [hdb_094_spelled] [hroster_094_spelled]
           [("Jak", [pdb_Jak_094_spelled]); ("num", [pdb_num_094])].

(** The documentation's hand with both player lines claiming seat 1. *)
Definition same_seat : tar file :=
  group_of [hdb_094] [hroster_094]
           [("Jak", [pdb_Jak_094]); ("num", [pdb_num_094_seat1])].

(** A roster line whose player count is not a number, ahead of the good
    line for the same hand. *)
Definition hroster_bad : string := "820830094    two    Jak    num".
Definition bad_roster_line : tar file :=
  group_of [hdb_094] [hroster_bad; hroster_094]
           [("Jak", [pdb_Jak_094]); ("num", [pdb_num_094])].

(** Jak's line shows a single card. *)
Definition pdb_Jak_094_one_card : string :=
  "Jak    820830094    2    1    Bc    kc    kc    k    850    40    80    7c".
Definition one_card : tar file :=
  group_of [hdb_094] [hroster_094]
           [("Jak", [pdb_Jak_094_one_card]); ("num", [pdb_num_094])].

(** Jak folds before the flop, and the line still carries two cards. *)
Definition pdb_Jak_094_folded : string :=
  "Jak    820830094    2    1    Bf    -     -     -    850    5     0     7c Ac".
Definition folded_with_cards : tar file :=
  group_of [hdb_094] [hroster_094]
           [("Jak", [pdb_Jak_094_folded]); ("num", [pdb_num_094])].

(** The first line of num's file does not decode. *)
Definition bad_first_line : tar file :=
  group_of [hdb_094] [hroster_094]
           [("Jak", [pdb_Jak_094]); ("num", ["num    yesterday"; pdb_num_094])].

(** The top-level archive around a group. *)
Definition top_level (tar_group : tar file) : tar (option (tar file)) :=
  [("IRCdata", NotRegular);
   ("IRCdata/holdem.199601.tgz", Regular (Some tar_group))].

(** The same group stored at the root of the archive, without a folder. *)
Definition top_level_flat (tar_group : tar file) : tar (option (tar file)) :=
  [("holdem.199601.tgz", Regular (Some tar_group))].

(** The locals of the merge as the outer loop starts, for a roster file
    and player files given by their lines. *)
Definition start (hroster_lines : list string)
    (player_files : list (string * list string)) : state :=
  match first_records (map (fun pf => (fst pf, regular (snd pf))) player_files) with
  | Ok (pd, ip) =>
      {| iter_hroster := regular hroster_lines; iter_pdb := ip; pdb := pd;
         hands := [] |}
  | Raise _ =>
      {| iter_hroster := regular hroster_lines; iter_pdb := []; pdb := [];
         hands := [] |}
  end.

(** The loop's starting locals on [two_hands] and [count_mismatch], and on
    [short_player_file]. *)
Definition start_two_hands : state :=
  start [hroster_094; hroster_127]
        [("Jak", [pdb_Jak_094; pdb_Jak_127]);
         ("num", [pdb_num_094; pdb_num_127])].

Definition start_short_player_file : state :=
  start [hroster_094; hroster_127_ace]
        [("Jak", [pdb_Jak_001]);
         ("ace", [pdb_ace_127]);
         ("num", [pdb_num_094; pdb_num_127])].

Definition start_bad_roster_line : state :=
  start [hroster_bad; hroster_094]
        [("Jak", [pdb_Jak_094]); ("num", [pdb_num_094])].

(** The hand the documentation gives for its example. *)
Definition player_Jak_094 : Player :=
  {| total_bet := 40; bankroll := 850;
     bets := [{| bet_actions := "Bc"; bet_stage := "p" |};
              {| bet_actions := "kc"; bet_stage := "f" |};
              {| bet_actions := "kc"; bet_stage := "t" |};
              {| bet_actions := "k"; bet_stage := "r" |}];
     pocket_cards := ["7c"; "Ac"]; position := 1; total_win := 80 |}.

Definition player_num_094 : Player :=
  {| total_bet := 40; bankroll := 1420;
     bets := [{| bet_actions := "Bk"; bet_stage := "p" |};
              {| bet_actions := "b"; bet_stage := "f" |};
              {| bet_actions := "b"; bet_stage := "t" |};
              {| bet_actions := "k"; bet_stage := "r" |}];
     pocket_cards := ["9h"; "Kh"]; position := 2; total_win := 0 |}.

Definition hand_094 : Hand :=
  {| _id := "holdem_199601_820830094";
     board := ["Qc"; "4s"; "6s"; "5d"; "4d"];
     dealer := 20;
     game := "holdem";
     hand_num := 1163;
     num_players := 2;
     players := [("Jak", player_Jak_094); ("num", player_num_094)];
     pots := [{| pot_num_players := 2; pot_stage := "f"; pot_size := 20 |};
              {| pot_num_players := 2; pot_stage := "t"; pot_size := 40 |};
              {| pot_num_players := 2; pot_stage := "r"; pot_size := 80 |};
              {| pot_num_players := 2; pot_stage := "s"; pot_size := 80 |}] |}.

(** The second hand of [two_hands]. *)
Definition hand_127 : Hand :=
  {| _id := "holdem_199601_820830127";
     board := [];
     dealer := 20;
     game := "holdem";
     hand_num := 1164;
     num_players := 2;
     players :=
       [("Jak",
         {| total_bet := 10; bankroll := 890;
            bets := [{| bet_actions := "B"; bet_stage := "p" |};
                     {| bet_actions := "-"; bet_stage := "f" |};
                     {| bet_actions := "-"; bet_stage := "t" |};
                     {| bet_actions := "-"; bet_stage := "r" |}];
            pocket_cards := []; position := 2; total_win := 15 |});
        ("num",
         {| total_bet := 5; bankroll := 1380;
            bets := [{| bet_actions := "Bf"; bet_stage := "p" |};
                     {| bet_actions := "-"; bet_stage := "f" |};
                     {| bet_actions := "-"; bet_stage := "t" |};
                     {| bet_actions := "-"; bet_stage := "r" |}];
            pocket_cards := []; position := 1; total_win := 0 |})];
     pots := [{| pot_num_players := 0; pot_stage := "f"; pot_size := 0 |};
              {| pot_num_players := 0; pot_stage := "t"; pot_size := 0 |};
              {| pot_num_players := 0; pot_stage := "r"; pot_size := 0 |};
              {| pot_num_players := 1; pot_stage := "s"; pot_size := 15 |}] |}.

(** * Further vocabulary *)

(** [sep.join(l)] *)
Fixpoint join (sep : string) (l : list string) : string :=
  match l with
  | [] => ""
  | [x] => x
  | x :: l' => (x ++ sep ++ join sep l')%string
  end.

(** No character of [s] is whitespace. *)
Definition no_space (s : string) : bool :=
  all_chars (fun c => negb (is_space c)) s.

(** What makes a string a token of [split]. *)
Definition is_token (s : string) : Prop :=
  nonempty s = true /\ no_space s = true.

(** The loop's starting locals on a group whose roster file lacks the line
    of the first hand, and on one whose roster file starts with a blank
    line. *)
Definition start_roster_gap : state :=
  start [hroster_127]
        [("Jak", [pdb_Jak_094; pdb_Jak_127]);
         ("num", [pdb_num_094; pdb_num_127])].

Definition start_blank_roster_line : state :=
  start [""; hroster_094; hroster_127]
        [("Jak", [pdb_Jak_094; pdb_Jak_127]);
         ("num", [pdb_num_094; pdb_num_127])].

(** The record an example player line decodes to. *)
Definition record_of_line (l : string) : PdbRecord :=
  match PdbRecord_init (split l) with
  | Ok v => v
  | Raise _ =>
      {| pdb_player := ""; pdb_timestamp := 0; pdb_num_players := 0;
         pdb_position := 0; pdb_preflop := ""; pdb_flop := ""; pdb_turn := "";
         pdb_river := ""; pdb_bankroll := 0; pdb_total_bet := 0;
         pdb_total_win := 0; pdb_card1 := None; pdb_card2 := None |}
  end.

(** The record an example hand-file line decodes to. *)
Definition hdb_record_of_line (l : string) : HdbRecord :=
  match HdbRecord_init (split l) with
  | Ok r => r
  | Raise _ =>
      {| hdb_timestamp := 0; hdb_dealer := 0; hdb_hand_num := 0;
         hdb_num_players := 0; hdb_flop := ""; hdb_turn := ""; hdb_river := "";
         hdb_showdown := ""; hdb_card1 := None; hdb_card2 := None;
         hdb_card3 := None; hdb_card4 := None; hdb_card5 := None |}
  end.

(** The records of the documentation's hand, by player. *)
Definition found_094 (player : string) : PdbRecord :=
  if String.eqb player "Jak" then record_of_line pdb_Jak_094
  else record_of_line pdb_num_094.

(** The loop's starting locals on [heads_up], and on a group that has a
    file for Jak only. *)
Definition start_heads_up : state :=
  start [hroster_094] [("Jak", [pdb_Jak_094]); ("num", [pdb_num_094])].

Definition start_Jak_only : state :=
  start [hroster_094] [("Jak", [pdb_Jak_094])].

(** [heads_up] without its roster file. *)
Definition no_roster : tar file :=
  [("holdem/199601", NotRegular);
   ("holdem/199601/hdb", Regular (regular [hdb_094]));
   ("holdem/199601/pdb", NotRegular);
   ("holdem/199601/pdb/pdb.Jak", Regular (regular [pdb_Jak_094]));
   ("holdem/199601/pdb/pdb.num", Regular (regular [pdb_num_094]))].

(** [two_hands] with a third player file, empty, of a player no roster
    line lists. *)
Definition empty_bystander_file : tar file :=
  group_of [hdb_094; hdb_127] [hroster_094; hroster_127]
           [("Jak", [pdb_Jak_094; pdb_Jak_127]);
            ("num", [pdb_num_094; pdb_num_127]);
            ("zed", [])].

(** A top-level archive with a group stored at its root between two
    groups stored in a folder. *)
Definition mixed_archive : tar (option (tar file)) :=
  [("IRCdata/holdem.199601.tgz", Regular (Some heads_up));
   ("holdem.199601.tgz", Regular (Some two_hands));
   ("IRCdata/holdem.199602.tgz", Regular (Some two_hands))].

(** * The extractor object, its output file, and the browser

    The files the two classes open are modelled by what they hold: an
    output file by the array of hands written to it ([json.dump]) and read
    back from it ([ijson.items]), an input file by the archive
    [TarFile.open] finds in it; [Other] is a file in which neither reader
    finds anything. Every path can be written to. The worker
    pool hands results back in the order of the names ([pool.imap]), so
    the number of workers does not show in what the iteration yields. *)

Inductive node : Type :=
| JsonHands (stored : list Hand)
| Archive (tar_in : tar (option (tar file)))
| Other.

(** [os.path.isfile(path)] *)
Definition isfile (path : string) (fs : dict node) : bool :=
  match dict_get path fs with Some _ => true | None => false end.

(** The exceptions of a run: those of the extraction, and three more. *)
Inductive run_exn : Type :=
| Raised (e : exn)
| AttributeError
| FileNotFoundError
| JSONError.

Inductive outcome (A : Type) : Type :=
| Done (a : A)
| Failed (e : run_exn).
Arguments Done {A} a.
Arguments Failed {A} e.

(** Truth value of an [Optional[str]]: [None] and the empty string are
    false. *)
Definition truthy (s : option string) : bool :=
  match s with
  | Some (String _ _) => true
  | _ => false
  end.

Definition text (s : option string) : string :=
  match s with Some t => t | None => "" end.

(** The attributes of a [PokerHandsExtractor]. [fname_in] is [None] when
    the attribute was never set. *)
Record PokerHandsExtractor : Type := {
  fname_in : option string;
  fname_out : option string;
  n_jobs : option Z
}.

(** [PokerHandsExtractor.__init__]; [cpu_count] is what [os.cpu_count()]
    returns. *)
Definition PokerHandsExtractor_init (cpu_count : option Z)
    (arg_fname_in arg_fname_out : option string) (arg_n_jobs : Z)
  : outcome PokerHandsExtractor :=
  if truthy arg_fname_in && negb (endswith (text arg_fname_in) ".tgz")
  then Failed (Raised AssertionError)
  else if truthy arg_fname_out && negb (endswith (text arg_fname_out) ".json")
  then Failed (Raised AssertionError)
  else Done {| fname_in := if truthy arg_fname_in then arg_fname_in else None;
               fname_out := arg_fname_out;
               n_jobs := if arg_n_jobs >? 0 then Some arg_n_jobs else cpu_count |}.

(** [PokerHandsExtractor.__iter__], drained to its end: the hands
    yielded, the exception that ended the iteration if there is one, and
    the files afterwards. *)
Definition PokerHandsExtractor_iter (system : string)
    (self : PokerHandsExtractor) (fs : dict node)
  : list Hand * option run_exn * dict node :=
  if truthy (fname_out self) && isfile (text (fname_out self)) fs then
    match dict_get (text (fname_out self)) fs with
    | Some (JsonHands stored) => (stored, None, fs)
    | _ => ([], Some JSONError, fs)
    end
  else
    match fname_in self with
    | None => ([], Some AttributeError, fs)
    | Some path =>
        match dict_get path fs with
        | None => ([], Some FileNotFoundError, fs)
        | Some (Archive tar_in) =>
            match imap_hands system (getnames tar_in) tar_in with
            | (yielded, Some e) => (yielded, Some (Raised e), fs)
            | (yielded, None) =>
                (yielded, None,
                 if truthy (fname_out self)
                 then dict_set (text (fname_out self)) (JsonHands yielded) fs
                 else fs)
            end
        | Some _ => ([], Some (Raised ReadError), fs)
        end
    end.

(** ** [PokerHandsBrowser] *)

Record PokerHandsBrowser : Type := {
  fname : string
}.

(** [PokerHandsBrowser.__init__] *)
Definition PokerHandsBrowser_init (arg_fname : string)
  : outcome PokerHandsBrowser :=
  if endswith arg_fname ".json" then Done {| fname := arg_fname |}
  else Failed (Raised AssertionError).

(** [sorted(l, key=key)]: a stable sort; inserting the elements from left
    to right, each behind those that are not greater, is one. *)
Fixpoint insert_by {A : Type} (key : A -> Z) (x : A) (l : list A) : list A :=
  match l with
  | [] => [x]
  | y :: l' => if key x <? key y then x :: l else y :: insert_by key x l'
  end.

Definition sorted {A : Type} (key : A -> Z) (l : list A) : list A :=
  fold_left (fun acc x => insert_by key x acc) l [].

(** [players[x]["position"]] *)
Definition position_of (players : dict Player) (x : string) : Z :=
  match dict_get x players with Some v => position v | None => 0 end.

(** [players[name]] as the one entry to show, when the name is a key. *)
Definition entry_of (players : dict Player) (name : string)
  : list (string * Player) :=
  match dict_get name players with
  | Some player => [(name, player)]
  | None => []
  end.

(** What one printed block shows: the values the templates of [run] are
    filled with. The players come in the order of display, the number
    after [#] being the place in that order. *)
Record block : Type := {
  shown_time : string;
  shown_counter : Z;
  shown_board : list string;
  shown_pots : list (Z * Z);
  shown_players : list (string * Player)
}.

(** The body of the [try] in [run] for one hand, up to the values to
    print. *)
Definition browse_hand (hand_counter : Z) (hand : Hand) : res block :=
  match nth_error (split1 "_" "" (_id hand)) 1 with
  | None => Raise IndexError
  | Some timestamp =>
      if negb (Z.of_nat (length (players hand)) =? num_players hand)
      then Raise AssertionError
      else
        Ok {| shown_time := timestamp;
              shown_counter := hand_counter;
              shown_board := board hand;
              shown_pots := map (fun p => (pot_num_players p, pot_size p))
                                (pots hand);
              shown_players :=
                flat_map (entry_of (players hand))
                         (sorted (position_of (players hand))
                                 (keys (players hand))) |}
  end.

(** [game_type and (not hand["_id"].startswith(game_type))] *)
Definition filtered_out (game_type : option string) (hand : Hand) : bool :=
  truthy game_type && negb (prefix (text game_type) (_id hand)).

(** The [for] loop of [run] over the hands the extractor yields: the
    blocks printed, and the exception that ended the loop if there is
    one. Nobody interrupts from the keyboard. *)
Fixpoint browse (game_type : option string) (hand_counter : Z)
    (hs : list Hand) : list block * option exn :=
  match hs with
  | [] => ([], None)
  | hand :: hs' =>
      if filtered_out game_type hand then browse game_type hand_counter hs'
      else
        match browse_hand hand_counter hand with
        | Raise e => ([], Some e)
        | Ok b =>
            let '(bs, r) := browse game_type (hand_counter + 1) hs' in
            (b :: bs, r)
        end
  end.

(** [PokerHandsBrowser.run] *)
Definition PokerHandsBrowser_run (system : string) (cpu_count : option Z)
    (self : PokerHandsBrowser) (game_type : option string) (fs : dict node)
  : list block * option run_exn :=
  if negb (negb (truthy game_type)
           || mem_string (text game_type) VALID_GAME_TYPES)
  then ([], Some (Raised AssertionError))
  else
    match PokerHandsExtractor_init cpu_count None (Some (fname self)) 1 with
    | Failed e => ([], Some e)
    | Done extractor =>
        let '(hs, r, _) := PokerHandsExtractor_iter system extractor fs in
        match browse game_type 0 hs with
        | (bs, Some e) => (bs, Some (Raised e))
        | (bs, None) => (bs, r)
        end
    end.

(** The hand [short_roster] yields: three players announced, two listed. *)
Definition hand_short_roster : Hand :=
  match extract_and_merge "Linux" "holdem/199601" "holdem" short_roster with
  | Ok (hand :: _) => hand
  | _ => hand_094
  end.

(** * Properties *)

(** ** Dictionaries *)

Lemma dict_get_In {V : Type} (k : string) (v : V) (d : dict V) :
  dict_get k d = Some v -> In (k, v) d.
Proof.
  induction d as [|[k' v'] d IH]; simpl; [discriminate|].
  destruct (String.eqb k k') eqn:E.
  - apply String.eqb_eq in E. intros [= ->]. subst. now left.
  - intros H. right. now apply IH.
Qed.

Lemma dict_set_In {V : Type} (k k0 : string) (v v0 : V) (d : dict V) :
  In (k, v) (dict_set k0 v0 d) -> (k, v) = (k0, v0) \/ In (k, v) d.
Proof.
  induction d as [|[k' v'] d IH]; simpl.
  - intros [H|[]]. now left.
  - destruct (String.eqb k0 k'); simpl; intros [H|H]; auto.
    destruct (IH H); auto.
Qed.

Lemma keys_dict_set {V : Type} (k : string) (v : V) (d : dict V) :
  keys (dict_set k v d) = keys_add k (keys d).
Proof.
  unfold keys, keys_add. induction d as [|[k' v'] d IH]; simpl; [reflexivity|].
  destruct (String.eqb k k') eqn:E; simpl.
  - apply String.eqb_eq in E. now subst.
  - rewrite IH. now destruct (mem_string k (map fst d)).
Qed.

Lemma mem_string_In (k : string) (ks : list string) :
  mem_string k ks = true <-> In k ks.
Proof.
  unfold mem_string. rewrite existsb_exists. split.
  - intros (x & Hx & E). apply String.eqb_eq in E. now subst.
  - intros H. exists k. split; [assumption|apply String.eqb_refl].
Qed.

Lemma keys_add_length (k : string) (ks : list string) :
  (length (keys_add k ks) <= S (length ks))%nat.
Proof.
  unfold keys_add. destruct (mem_string k ks); [lia|].
  rewrite length_app. simpl. lia.
Qed.

Lemma fold_keys_add_length (roster ks : list string) :
  (length (fold_left (fun acc k => keys_add k acc) roster ks)
   <= length ks + length roster)%nat.
Proof.
  revert ks. induction roster as [|p roster IH]; intros ks; simpl; [lia|].
  specialize (IH (keys_add p ks)). pose proof (keys_add_length p ks). lia.
Qed.

(** When inserting the keys of [roster] one by one makes the dictionary
    grow by the full length of [roster], none of them was there before
    and none is repeated. *)
Lemma fold_keys_add_full (roster ks : list string) :
  NoDup ks ->
  length (fold_left (fun acc k => keys_add k acc) roster ks)
  = (length ks + length roster)%nat ->
  fold_left (fun acc k => keys_add k acc) roster ks = ks ++ roster
  /\ NoDup (ks ++ roster).
Proof.
  revert ks. induction roster as [|p roster IH]; intros ks Hnd Hlen; simpl in *.
  - rewrite app_nil_r. now split.
  - unfold keys_add in Hlen at 2. unfold keys_add at 2.
    destruct (mem_string p ks) eqn:E.
    + pose proof (fold_keys_add_length roster ks). lia.
    + assert (Hp : ~ In p ks).
      { intros Hin. apply mem_string_In in Hin. congruence. }
      assert (Hnd' : NoDup (ks ++ [p])).
      { apply NoDup_app; [assumption|constructor; [intros []|constructor]|].
        intros a Ha [<-|[]]. contradiction. }
      destruct (IH (ks ++ [p]) Hnd') as [H1 H2].
      { rewrite Hlen, length_app. simpl. lia. }
      rewrite <- app_assoc in H1, H2. simpl in H1, H2. now split.
Qed.

(** ** The forward searches *)

Lemma seek_hroster_spec (ts : Z) (ls : list string) (e : exn) r it :
  seek_hroster ts ls e = (r, it) ->
  incl (lines it) ls /\ on_end it = e /\
  forall hroster, r = Ok hroster ->
    exists l, In l ls /\ HrosterRecord_init (split l) = Ok hroster
              /\ ts <= hroster_timestamp hroster.
Proof.
  revert r it. induction ls as [|l ls IH]; simpl; intros r it H.
  - injection H as <- <-. simpl.
    split; [apply incl_refl|split; [reflexivity|discriminate]].
  - destruct (HrosterRecord_init (split l)) as [hr|x] eqn:D.
    + destruct (hroster_timestamp hr >=? ts) eqn:G.
      * injection H as <- <-. simpl.
        split; [apply incl_tl, incl_refl|split; [reflexivity|]].
        intros ? [= <-]. exists l. split; [now left|split; [assumption|lia]].
      * destruct (IH _ _ H) as (I1 & I2 & I3).
        split; [now apply incl_tl|split; [assumption|]].
        intros hroster Hr. destruct (I3 _ Hr) as (l' & ? & ? & ?).
        exists l'. split; [now right|split; assumption].
    + injection H as <- <-. simpl.
      split; [apply incl_tl, incl_refl|split; [reflexivity|discriminate]].
Qed.

Lemma seek_pdb_spec (ts : Z) (cur : PdbRecord) (ls : list string) (e : exn)
    r cur' ls' :
  seek_pdb ts cur ls e = (r, cur', ls') ->
  incl ls' ls
  /\ (cur' = cur \/ exists l, In l ls /\ PdbRecord_init (split l) = Ok cur')
  /\ (r = Ok tt -> ts <= pdb_timestamp cur').
Proof.
  revert cur r cur' ls'. induction ls as [|l ls IH]; intros cur r cur' ls' H.
  - simpl in H. destruct (pdb_timestamp cur <? ts) eqn:L;
      injection H as <- <- <-;
      (split; [apply incl_refl|split; [now left|]]);
      [discriminate|intros _; lia].
  - simpl in H. destruct (pdb_timestamp cur <? ts) eqn:L.
    + destruct (PdbRecord_init (split l)) as [rec|x] eqn:D.
      * destruct (IH _ _ _ _ H) as (I1 & I2 & I3).
        split; [now apply incl_tl|split; [|assumption]].
        right. destruct I2 as [->|(l' & ? & ?)].
        -- exists l. split; [now left|assumption].
        -- exists l'. split; [now right|assumption].
      * injection H as <- <- <-.
        split; [apply incl_tl, incl_refl|split; [now left|discriminate]].
    + injection H as <- <- <-.
      split; [apply incl_refl|split; [now left|intros _; lia]].
Qed.

(** ** Where the records of an emitted hand come from *)

Section Provenance_facts.

Variable system : string.
Variables folder_group game_type : string.
Variable ip0 : dict file.
Variable roster_lines : list string.

Lemma lookup_iter_ok (player : string) (ip : dict file) :
  iters_ok ip0 ip ->
  lines (lookup_iter player ip) = []
  \/ exists f0, In (player, f0) ip0
                /\ incl (lines (lookup_iter player ip)) (lines f0).
Proof.
  intros Hok. unfold lookup_iter.
  destruct (dict_get player ip) as [it|] eqn:G; [right|now left].
  apply dict_get_In in G. exact (Hok _ _ G).
Qed.

Lemma advance_iter_ok (player : string) (ls' : list string) (ip : dict file) :
  iters_ok ip0 ip -> incl ls' (lines (lookup_iter player ip)) ->
  iters_ok ip0 (advance_iter player ls' ip).
Proof.
  intros Hok Hincl k it' Hin. unfold advance_iter in Hin.
  apply in_map_iff in Hin as ([k0 it0] & Heq & Hin0). simpl in Heq.
  destruct (String.eqb k0 player) eqn:E.
  - apply String.eqb_eq in E. subst k0. injection Heq as <- <-. simpl.
    destruct (lookup_iter_ok player ip Hok) as [Hnil|(f0 & Hf & Hi)].
    + rewrite Hnil in Hincl. destruct (Hok _ _ Hin0) as (f0 & Hf & _).
      exists f0. split; [assumption|].
      intros x Hx. destruct (Hincl x Hx).
    + exists f0. split; [assumption|]. eapply incl_tran; eassumption.
  - injection Heq as <- <-. exact (Hok _ _ Hin0).
Qed.

Lemma dict_set_currents_ok (k : string) (v : PdbRecord) (pd : dict PdbRecord) :
  currents_ok ip0 pd -> from_file ip0 k v -> currents_ok ip0 (dict_set k v pd).
Proof.
  intros Hok Hv k' v' Hin. apply dict_set_In in Hin as [[= -> ->]|Hin]; auto.
Qed.

Lemma match_players_spec (ts : Z) (roster : list string) :
  forall ip pd curr r ip' pd',
    iters_ok ip0 ip -> currents_ok ip0 pd -> currents_ok ip0 curr ->
    match_players ts roster ip pd curr = (r, ip', pd') ->
    iters_ok ip0 ip' /\ currents_ok ip0 pd'
    /\ forall c, r = Ok (Some c) ->
         currents_ok ip0 c
         /\ keys c = fold_left (fun acc k => keys_add k acc) roster (keys curr).
Proof.
  induction roster as [|player roster IH]; intros ip pd curr r ip' pd' Hi Hp Hc H;
    simpl in H.
  - injection H as <- <- <-. split; [assumption|split; [assumption|]].
    intros c [= <-]. now split.
  - destruct (dict_get player pd) as [cur|] eqn:G.
    2:{ injection H as <- <- <-. split; [assumption|split; [assumption|]].
        discriminate. }
    destruct (seek_pdb ts cur (lines (lookup_iter player ip))
                       (on_end (lookup_iter player ip)))
      as [[r1 cur'] ls'] eqn:S.
    destruct (seek_pdb_spec _ _ _ _ _ _ _ S) as (S1 & S2 & _).
    assert (Hi' : iters_ok ip0 (advance_iter player ls' ip))
      by now apply advance_iter_ok.
    assert (Hcur' : from_file ip0 player cur').
    { destruct S2 as [->|(l & Hl & Hd)].
      - apply Hp. now apply dict_get_In.
      - destruct (lookup_iter_ok player ip Hi) as [Hnil|(f0 & Hf & Hincl)].
        + rewrite Hnil in Hl. destruct Hl.
        + exists f0, l. split; [assumption|split; [now apply Hincl|assumption]]. }
    assert (Hp' : currents_ok ip0 (dict_set player cur' pd))
      by now apply dict_set_currents_ok.
    destruct r1 as [u|x].
    + destruct (pdb_timestamp cur' >? ts).
      * injection H as <- <- <-. split; [assumption|split; [assumption|]].
        discriminate.
      * apply IH in H; auto using dict_set_currents_ok.
        destruct H as (H1 & H2 & H3). split; [assumption|split; [assumption|]].
        intros c Hr. destruct (H3 c Hr) as [H4 H5]. split; [assumption|].
        rewrite H5. now rewrite keys_dict_set.
    + injection H as <- <- <-. split; [assumption|split; [assumption|]].
      discriminate.
Qed.

Lemma forallb_values (ts : Z) (c : dict PdbRecord) :
  forallb (fun v => pdb_timestamp v =? ts) (values c) = true ->
  forall k v, In (k, v) c -> pdb_timestamp v = ts.
Proof.
  intros H k v Hin. rewrite forallb_forall in H.
  apply Z.eqb_eq, H. unfold values. now apply (in_map snd c (k, v)).
Qed.

(** What one candidate does to the state: the invariant is kept, and the
    result list is left alone or gains the hand built from [hdb]. *)
Lemma candidate_spec (l : string) (hdb : HdbRecord) (st st' : state) r :
  HdbRecord_init (split l) = Ok hdb ->
  state_ok ip0 roster_lines st ->
  candidate system folder_group game_type hdb st = (st', r) ->
  state_ok ip0 roster_lines st'
  /\ (hands st' = hands st
      \/ exists hand, hands st' = hands st ++ [hand] /\ r = Ok tt
                      /\ emitted_by system folder_group game_type ip0 roster_lines l hand).
Proof.
  intros Hd (Hr & Hi & Hp) H. unfold candidate in H.
  destruct (seek_hroster (hdb_timestamp hdb) (lines (iter_hroster st))
                         (on_end (iter_hroster st))) as [r1 it] eqn:S.
  destruct (seek_hroster_spec _ _ _ _ _ S) as (S1 & _ & S3).
  assert (Hok1 : state_ok ip0 roster_lines (with_hroster st it)).
  { split; [|split; assumption]. simpl. eapply incl_tran; eassumption. }
  destruct r1 as [hroster|x].
  2:{ injection H as <- <-. split; [assumption|now left]. }
  destruct (S3 hroster eq_refl) as (l_r & Hlr & Hdr & _).
  destruct (hdb_timestamp hdb <? hroster_timestamp hroster).
  { injection H as <- <-. split; [assumption|now left]. }
  destruct (hdb_timestamp hdb =? hroster_timestamp hroster) eqn:Ets; simpl in H.
  2:{ injection H as <- <-. split; [assumption|now left]. }
  destruct (hdb_num_players hdb =? hroster_num_players hroster) eqn:Enp;
    simpl in H.
  2:{ injection H as <- <-. split; [assumption|now left]. }
  destruct (match_players (hdb_timestamp hdb) (hroster_players hroster)
                          (iter_pdb st) (pdb st) []) as [[m ip] pd] eqn:M.
  destruct (match_players_spec _ _ _ _ _ _ _ _ Hi Hp
              (fun k v (F : In (k, v) []) => match F with end) M)
    as (M1 & M2 & M3).
  assert (Hok2 : state_ok ip0 roster_lines (with_pdb (with_hroster st it) ip pd)).
  { split; [|split; assumption]. simpl. eapply incl_tran; eassumption. }
  destruct m as [[pdb_curr|]|x]; try (injection H as <- <-; split; [assumption|now left]).
  destruct (M3 pdb_curr eq_refl) as [M4 M5].
  destruct (Nat.eqb (length (hroster_players hroster)) (length pdb_curr)) eqn:Elen;
    simpl in H.
  2:{ injection H as <- <-. split; [assumption|now left]. }
  destruct (forallb (fun v => pdb_timestamp v =? hdb_timestamp hdb)
                    (values pdb_curr)) eqn:Eall; simpl in H.
  2:{ injection H as <- <-. split; [assumption|now left]. }
  injection H as <- <-. split; [exact Hok2|]. right.
  eexists. split; [reflexivity|split; [reflexivity|]].
  apply Nat.eqb_eq in Elen. apply Z.eqb_eq in Ets, Enp.
  destruct (fold_keys_add_full (hroster_players hroster) [] (NoDup_nil _))
    as [K1 K2].
  { simpl in M5. simpl. rewrite <- M5. unfold keys. rewrite length_map. lia. }
  exists hdb, l_r, hroster, pdb_curr.
  split; [exact Hd|]. split; [exact (Hr _ Hlr)|]. split; [exact Hdr|].
  split; [exact Ets|]. split; [exact Enp|].
  split; [simpl in M5; rewrite M5; exact K1|].
  split; [exact K2|].
  split; [|reflexivity].
  intros k v Hin. split; [now apply (forallb_values _ _ Eall k)|now apply M4].
Qed.

Lemma iteration_spec (l : string) (st st' : state) r :
  state_ok ip0 roster_lines st ->
  iteration system folder_group game_type l st = (st', r) ->
  state_ok ip0 roster_lines st'
  /\ (hands st' = hands st
      \/ exists hand,
           hands st' = hands st ++ [hand]
           /\ emitted_by system folder_group game_type ip0 roster_lines l hand).
Proof.
  intros Hok H. unfold iteration, inner_try in H.
  destruct (HdbRecord_init (split l)) as [hdb|x] eqn:D.
  - destruct (candidate system folder_group game_type hdb st) as [st1 r1] eqn:C.
    destruct (candidate_spec _ _ _ _ _ D Hok C) as [H1 H2].
    assert (st' = st1) as -> by (destruct r1 as [|[]]; congruence).
    split; [assumption|]. destruct H2 as [H2|(hand & H2 & _ & H3)]; eauto.
  - assert (st' = st) as -> by (destruct x; congruence).
    split; [assumption|now left].
Qed.

(** The loop as a whole appends to [hands] a sequence of hands emitted by
    lines of the hand file, in the order of these lines. *)
Lemma while_true_spec (ls : list string) (e : exn) :
  forall st st' x,
    state_ok ip0 roster_lines st ->
    while_true system folder_group game_type ls e st = (st', x) ->
    exists new,
      hands st' = hands st ++ new
      /\ emitted_seq system folder_group game_type ip0 roster_lines ls new.
Proof.
  induction ls as [|l ls IH]; intros st st' x Hok H; simpl in H.
  - injection H as <- <-. exists []. rewrite app_nil_r.
    split; [reflexivity|constructor].
  - destruct (iteration system folder_group game_type l st) as [st1 r] eqn:I.
    destruct (iteration_spec _ _ _ _ Hok I) as [Hok1 Hh].
    destruct r as [u|y].
    + destruct (IH _ _ _ Hok1 H) as (new & Hn & Hs).
      destruct Hh as [Hh|(hand & Hh & Hem)]; rewrite Hh in Hn.
      * exists new. split; [assumption|now constructor].
      * exists (hand :: new). rewrite <- app_assoc in Hn.
        split; [assumption|now constructor].
    + injection H as <- <-.
      destruct Hh as [Hh|(hand & Hh & Hem)].
      * exists []. rewrite app_nil_r. split; [assumption|constructor].
      * exists [hand]. split; [assumption|]. constructor; [assumption|constructor].
Qed.

End Provenance_facts.

Lemma first_records_spec (ip0 : dict file) :
  forall ip pd ip',
    incl ip ip0 -> first_records ip = Ok (pd, ip') ->
    iters_ok ip0 ip' /\ currents_ok ip0 pd.
Proof.
  induction ip as [|[k v] ip IH]; intros pd ip' Hincl H; simpl in H.
  - injection H as <- <-. split; intros ? ? [].
  - unfold next in H. destruct (lines v) as [|l ls] eqn:L; [discriminate|].
    destruct (PdbRecord_init (split l)) as [r|] eqn:D; [|discriminate].
    destruct (first_records ip) as [[pd1 ip1]|] eqn:F; [|discriminate].
    injection H as <- <-.
    destruct (IH _ _ (fun x Hx => Hincl x (or_intror Hx)) eq_refl) as [I1 I2].
    assert (Hk : In (k, v) ip0) by (apply Hincl; now left).
    split.
    + intros k' it [[= <- <-]|Hin]; [|now apply I1].
      exists v. split; [assumption|]. simpl. rewrite L. apply incl_tl, incl_refl.
    + intros k' v' [[= <- <-]|Hin]; [|now apply I2].
      exists v, l. split; [assumption|]. rewrite L. split; [now left|assumption].
Qed.

(** Whatever the [try] body leaves in [hands] was emitted, in order, by
    lines of the group's hand file. *)
Lemma try_body_spec (system folder_group game_type : string)
    (tar_group : tar file) hs c :
  try_body system folder_group game_type tar_group = (hs, c) ->
  hs = []
  \/ exists file_hdb file_hroster ip0,
       group_files system folder_group tar_group file_hdb file_hroster ip0
       /\ emitted_seq system folder_group game_type ip0 (lines file_hroster)
                      (lines file_hdb) hs.
Proof.
  unfold try_body. intros H.
  destruct (extractfile (folder_group ++ SLASH_str system ++ "hdb") tar_group)
    as [[file_hdb|]|] eqn:E1; try (injection H as <- <-; now left).
  destruct (extractfile (folder_group ++ SLASH_str system ++ "hroster") tar_group)
    as [[file_hroster|]|] eqn:E2; try (injection H as <- <-; now left).
  destruct (open_pdb ("pdb" ++ SLASH_str system ++ "pdb.") tar_group
                     (getnames tar_group) []) as [ip0|] eqn:E3;
    try (injection H as <- <-; now left).
  destruct (first_records ip0) as [[pd ip']|] eqn:F;
    try (injection H as <- <-; now left).
  destruct (first_records_spec ip0 _ _ _ (incl_refl _) F) as [I1 I2].
  destruct (while_true system folder_group game_type (lines file_hdb)
              (on_end file_hdb) _) as [st x] eqn:W.
  injection H as <- <-.
  assert (Hok : state_ok ip0 (lines file_hroster)
                 {| iter_hroster := file_hroster; iter_pdb := ip';
                    pdb := pd; hands := [] |}).
  { split; [apply incl_refl|split; assumption]. }
  destruct (while_true_spec system folder_group game_type ip0
              (lines file_hroster) _ _ _ _ _ Hok W) as (new & Hn & Hs).
  simpl in Hn. subst new. right.
  exists file_hdb, file_hroster, ip0. split; [|assumption].
  split; [assumption|split; assumption].
Qed.

Lemma emitted_seq_In (system folder_group game_type : string)
    (ip0 : dict file) (roster_lines ls : list string) (hs : list Hand) :
  emitted_seq system folder_group game_type ip0 roster_lines ls hs ->
  forall hand, In hand hs ->
    exists l, In l ls
              /\ emitted_by system folder_group game_type ip0 roster_lines l hand.
Proof.
  induction 1 as [ls|l ls hs _ IH|l ls hand' hs Hem _ IH]; intros hand Hin.
  - destruct Hin.
  - destruct (IH _ Hin) as (l' & ? & ?). exists l'. split; [now right|assumption].
  - destruct Hin as [<-|Hin].
    + exists l. split; [now left|assumption].
    + destruct (IH _ Hin) as (l' & ? & ?). exists l'. split; [now right|assumption].
Qed.

Lemma extract_and_merge_hands (system folder_group game_type : string)
    (tar_group : tar file) :
  extract_and_merge system folder_group game_type tar_group
  = Ok (fst (try_body system folder_group game_type tar_group)).
Proof.
  unfold extract_and_merge.
  now destruct (try_body system folder_group game_type tar_group).
Qed.

(** ** Decoders *)

Lemma PdbRecord_init_raises (args : list string) x :
  PdbRecord_init args = Raise x -> x = ValidationError.
Proof.
  unfold PdbRecord_init.
  repeat (destruct args as [|? args]; [intros [= <-]; reflexivity|]).
  repeat match goal with
         | |- context [match ?o with Some _ => _ | None => _ end] => destruct o
         | |- context [if ?b then _ else _] => destruct b
         end; now intros [= <-].
Qed.

(** The cards of a decoded player line are the tokens, at most two, that
    follow the eleven required fields; the actions are tokens five to
    eight. No field is looked at to decide about another. *)
Lemma PdbRecord_init_fields (args : list string) (v : PdbRecord) :
  PdbRecord_init args = Ok v ->
  pdb_cards v = firstn 2 (skipn 11 args)
  /\ map bet_actions (pdb_bets v) = firstn 4 (skipn 4 args).
Proof.
  unfold PdbRecord_init.
  do 11 (destruct args as [|? args]; [discriminate|]).
  destruct (Timestamp _); [|discriminate].
  do 5 (destruct (int_of_string _); [|discriminate]).
  unfold optional_card.
  destruct args as [|c1 [|c2 rest]]; simpl;
    repeat match goal with
           | |- context [if ?b then _ else _] => destruct b
           end; try discriminate; intros [= <-]; split; reflexivity.
Qed.

(** The position is the integer written as the fourth token. *)
Lemma PdbRecord_init_position (args : list string) (v : PdbRecord) :
  PdbRecord_init args = Ok v ->
  int_of_string (nth 3 args "") = Some (pdb_position v).
Proof.
  unfold PdbRecord_init.
  do 11 (destruct args as [|? args]; [discriminate|]).
  destruct (Timestamp _); [|discriminate].
  destruct (int_of_string _); [|discriminate].
  simpl. destruct (int_of_string _) as [pos|]; [|discriminate].
  do 3 (destruct (int_of_string _); [|discriminate]).
  do 2 (destruct (optional_card _ _); [|discriminate]).
  destruct (_ && _); [|discriminate]. now intros [= <-].
Qed.

Lemma pdb_cards_length (v : PdbRecord) : (length (pdb_cards v) <= 2)%nat.
Proof.
  unfold pdb_cards. destruct (pdb_card1 v), (pdb_card2 v); simpl; lia.
Qed.

Lemma HdbRecord_init_raises (args : list string) x :
  HdbRecord_init args = Raise x -> x = ValidationError.
Proof.
  unfold HdbRecord_init.
  repeat (destruct args as [|? args]; [intros [= <-]; reflexivity|]).
  repeat match goal with
         | |- context [match ?o with Some _ => _ | None => _ end] => destruct o
         | |- context [if ?b then _ else _] => destruct b
         end; now intros [= <-].
Qed.

Lemma HrosterRecord_init_raises (args : list string) x :
  HrosterRecord_init args = Raise x -> x = ValidationError \/ x = IndexError.
Proof.
  unfold HrosterRecord_init.
  destruct args as [|ts [|np players]]; try (intros [= <-]; now right).
  destruct (Timestamp ts); [destruct (int_of_string np)|];
    try discriminate; intros [= <-]; now left.
Qed.

Lemma is_digits_signed_digits (s : string) :
  is_digits s = true -> signed_digits s = Some (digits_val 0 s).
Proof.
  intros H. unfold signed_digits.
  destruct s as [|c s']; [discriminate|].
  assert (Hc : is_digit c = true).
  { unfold is_digits in H. simpl in H. now destruct (is_digit c). }
  rewrite H.
  destruct c as [[] [] [] [] [] [] [] []]; try discriminate Hc; reflexivity.
Qed.

(** The integer fields read more than plain digits, and the same hand
    comes out of a group that uses the other spellings. *)
Lemma int_of_string_spellings :
  map int_of_string
      ["820830094"; "820830094.0"; "2.0"; "1.00"; "-1.0"; "1_000"; "+5"; "007"]
  = [Some 820830094; Some 820830094; Some 2; Some 1; Some (-1); Some 1000;
     Some 5; Some 7]
  /\ map int_of_string ["1.5"; "1e3"; "two"; ""; "1__0"; "_1"; "1_"; ".0"]
     = [None; None; None; None; None; None; None; None].
Proof.
  split; vm_compute; reflexivity.
Qed.

Lemma other_spellings_hand :
  extract_and_merge "Linux" "holdem/199601" "holdem" other_spellings
  = Ok [hand_094].
Proof.
  vm_compute. reflexivity.
Qed.

(** A pot field that passed the [Stage] pattern splits at its slash in
    two digit strings, on which [int] reads the number written. *)
Lemma Stage_halves_are_digits (s : string) :
  Stage s = true ->
  exists n m,
    split1 "/" "" s = [n; m]
    /\ signed_digits n = Some (int n) /\ signed_digits m = Some (int m).
Proof.
  unfold Stage. destruct (split1 "/" "" s) as [|n [|m [|]]]; try discriminate.
  intros H. apply andb_prop in H as [Hn Hm]. exists n, m.
  unfold int. rewrite (is_digits_signed_digits _ Hn), (is_digits_signed_digits _ Hm).
  repeat split.
Qed.


(** ** How one candidate ends *)

Lemma candidate_raise_hands (system folder_group game_type : string)
    (hdb : HdbRecord) (st st' : state) x :
  candidate system folder_group game_type hdb st = (st', Raise x) ->
  hands st' = hands st.
Proof.
  unfold candidate.
  destruct (seek_hroster _ _ _) as [[hroster|] it]; [|now intros [= <- _]].
  destruct (_ <? _); [discriminate|].
  destruct (_ =? _); simpl; [|now intros [= <- _]].
  destruct (_ =? _); simpl; [|now intros [= <- _]].
  destruct (match_players _ _ _ _ _) as [[[[c|]|] ip] pd];
    try (now intros [= <- _]); try discriminate.
  destruct (Nat.eqb _ _); simpl; [|now intros [= <- _]].
  destruct (forallb _ _); simpl; [discriminate|now intros [= <- _]].
Qed.

Lemma inner_try_raise_hands (system folder_group game_type : string)
    (l : string) (st st' : state) x :
  inner_try system folder_group game_type l st = (st', Raise x) ->
  hands st' = hands st.
Proof.
  unfold inner_try. destruct (HdbRecord_init (split l)).
  - apply candidate_raise_hands.
  - now intros [= <- _].
Qed.

(** An exception other than [ValidationError] leaves the outer loop with
    the state the inner [try] was in when it was raised. *)
Lemma while_true_raise (system folder_group game_type : string)
    (l : string) (ls : list string) (e : exn) (st st' : state) x :
  inner_try system folder_group game_type l st = (st', Raise x) ->
  x <> ValidationError ->
  while_true system folder_group game_type (l :: ls) e st = (st', x).
Proof.
  intros H Hx. simpl. unfold iteration. rewrite H.
  destruct x; try reflexivity. contradiction.
Qed.

(** C1, as the code has it. When the hand record and the roster record
    that the forward search stops at have equal timestamps and unequal
    player counts, the assertion on the counts fails and the merge of the
    group ends there: the loop is left with [AssertionError], nothing is
    added to the hands emitted so far, and the remaining lines [ls] of the
    hand file are never read. *)
Theorem C1_count_mismatch_ends_group
    (system folder_group game_type : string) (l : string) (ls : list string)
    (e : exn) (st : state) (hdb : HdbRecord) (hroster : HrosterRecord)
    (it : file) :
  HdbRecord_init (split l) = Ok hdb ->
  seek_hroster (hdb_timestamp hdb) (lines (iter_hroster st))
               (on_end (iter_hroster st)) = (Ok hroster, it) ->
  hdb_timestamp hdb = hroster_timestamp hroster ->
  hdb_num_players hdb <> hroster_num_players hroster ->
  while_true system folder_group game_type (l :: ls) e st
  = (with_hroster st it, AssertionError)
  /\ hands (with_hroster st it) = hands st.
Proof.
  intros Hd Hs Hts Hnp. split; [|reflexivity].
  apply while_true_raise; [|discriminate].
  unfold inner_try. rewrite Hd. unfold candidate. rewrite Hs.
  rewrite Hts, Z.ltb_irrefl, Z.eqb_refl. simpl.
  apply Z.eqb_neq in Hnp. now rewrite Hnp.
Qed.

Lemma C1_witness :
  exists st1,
    while_true "Linux" "holdem/199601" "holdem" [hdb_094_three; hdb_127]
               StopIteration start_two_hands
    = (st1, AssertionError)
    /\ hands st1 = [].
Proof.
  eexists.
  eapply (C1_count_mismatch_ends_group "Linux" "holdem/199601" "holdem"
            hdb_094_three [hdb_127] StopIteration).
  - vm_compute. reflexivity.
  - vm_compute. reflexivity.
  - vm_compute. reflexivity.
  - vm_compute. discriminate.
Defined.

(** C1 as stated fails on [count_mismatch]: the first hand record and the
    roster record reached for it agree on the timestamp and disagree on
    the count (3 against 2); instead of going on to the second hand
    record, which the streams do match, the loop ends and the group yields
    nothing. *)
Lemma C1_counterexample :
  exists hdb hroster it st1,
    HdbRecord_init (split hdb_094_three) = Ok hdb
    /\ seek_hroster (hdb_timestamp hdb) (lines (iter_hroster start_two_hands))
                    (on_end (iter_hroster start_two_hands)) = (Ok hroster, it)
    /\ hdb_timestamp hdb = hroster_timestamp hroster
    /\ hdb_num_players hdb = 3 /\ hroster_num_players hroster = 2
    /\ while_true "Linux" "holdem/199601" "holdem" [hdb_094_three; hdb_127]
                  StopIteration start_two_hands = (st1, AssertionError)
    /\ hands st1 = []
    /\ hands (fst (while_true "Linux" "holdem/199601" "holdem" [hdb_127]
                              StopIteration st1)) = [hand_127]
    /\ extract_and_merge "Linux" "holdem/199601" "holdem" count_mismatch = Ok [].
Proof.
  do 4 eexists. repeat split; vm_compute; reflexivity.
Qed.

(** ** The search in a player file *)

Lemma seek_pdb_raises (ts : Z) (ls : list string) (e : exn) :
  forall cur x cur' ls',
    seek_pdb ts cur ls e = (Raise x, cur', ls') ->
    x = ValidationError
    \/ (x = e /\ ls' = [] /\ pdb_timestamp cur' < ts).
Proof.
  induction ls as [|l ls IH]; intros cur x cur' ls' H; simpl in H.
  - destruct (pdb_timestamp cur <? ts) eqn:L; [|discriminate].
    injection H as <- <- <-. right. repeat split. lia.
  - destruct (pdb_timestamp cur <? ts) eqn:L; [|discriminate].
    destruct (PdbRecord_init (split l)) as [r|y] eqn:D.
    + exact (IH _ _ _ _ H).
    + injection H as <- <- <-. left. exact (PdbRecord_init_raises _ _ D).
Qed.

(** A player file all of whose lines decode to timestamps before [ts] is
    read to its end, and the search ends with the exception of that end. *)
Lemma seek_pdb_exhausted (ts : Z) (ls : list string) (e : exn) :
  forall cur,
    pdb_timestamp cur < ts ->
    Forall (fun l => exists r, PdbRecord_init (split l) = Ok r
                               /\ pdb_timestamp r < ts) ls ->
    exists cur', seek_pdb ts cur ls e = (Raise e, cur', []).
Proof.
  induction ls as [|l ls IH]; intros cur Hc Hall; simpl.
  - apply Z.ltb_lt in Hc. rewrite Hc. now exists cur.
  - apply Z.ltb_lt in Hc. rewrite Hc.
    inversion Hall as [|? ? (r & Hd & Hr) Hall']; subst.
    rewrite Hd. exact (IH r Hr Hall').
Qed.

(** ** The loop over the listed players *)

Lemma match_players_app (ts : Z) (before after : list string) :
  forall ip pd c,
    match_players ts (before ++ after) ip pd c
    = match match_players ts before ip pd c with
      | (Ok (Some c'), ip', pd') => match_players ts after ip' pd' c'
      | other => other
      end.
Proof.
  induction before as [|player before IH]; intros ip pd c; simpl.
  - reflexivity.
  - destruct (dict_get player pd) as [cur|]; [|reflexivity].
    destruct (seek_pdb ts cur _ _) as [[[u|x] cur'] ls']; [|reflexivity].
    destruct (pdb_timestamp cur' >? ts); [reflexivity|apply IH].
Qed.

Lemma on_end_advance_iter (p q : string) (ls : list string) (ip : dict file) :
  on_end (lookup_iter p (advance_iter q ls ip)) = on_end (lookup_iter p ip).
Proof.
  unfold lookup_iter, advance_iter.
  induction ip as [|[k f] ip IH]; simpl; [reflexivity|].
  destruct (String.eqb k q); simpl; destruct (String.eqb p k); auto.
Qed.

Lemma lines_advance_iter_nil (p : string) (ip : dict file) :
  lines (lookup_iter p (advance_iter p [] ip)) = [].
Proof.
  unfold lookup_iter, advance_iter.
  induction ip as [|[k f] ip IH]; simpl; [reflexivity|].
  destruct (String.eqb k p) eqn:E; simpl.
  - rewrite String.eqb_sym, E. reflexivity.
  - rewrite String.eqb_sym, E. exact IH.
Qed.

(** An exception out of the loop over the players is a validation error
    or the end of the file of a listed player, met before the timestamp
    looked for was reached. *)
Lemma match_players_raises (ts : Z) (roster : list string) :
  forall ip pd c x ip' pd',
    match_players ts roster ip pd c = (Raise x, ip', pd') ->
    x = ValidationError
    \/ exists player cur',
         In player roster
         /\ x = on_end (lookup_iter player ip)
         /\ lines (lookup_iter player ip') = []
         /\ dict_get player pd' = Some cur' /\ pdb_timestamp cur' < ts.
Proof.
  induction roster as [|player roster IH]; intros ip pd c x ip' pd' H;
    simpl in H; [discriminate|].
  destruct (dict_get player pd) as [cur|] eqn:G; [|discriminate].
  destruct (seek_pdb ts cur (lines (lookup_iter player ip))
                     (on_end (lookup_iter player ip)))
    as [[r cur'] ls'] eqn:S.
  destruct r as [u|y].
  - destruct (pdb_timestamp cur' >? ts); [discriminate|].
    destruct (IH _ _ _ _ _ _ H) as [->|(p & c' & Hin & Hx & Hl & Hg & Ht)];
      [now left|right].
    exists p, c'. split; [now right|]. split; [|now split].
    now rewrite Hx, on_end_advance_iter.
  - injection H as <- <- <-.
    destruct (seek_pdb_raises _ _ _ _ _ _ _ S) as [->|(-> & -> & Ht)];
      [now left|right].
    exists player, cur'. split; [now left|]. split; [reflexivity|].
    split; [apply lines_advance_iter_nil|]. split; [|assumption].
    clear -G. induction pd as [|[k v] pd IHpd]; simpl in *; [discriminate|].
    destruct (String.eqb player k) eqn:E; simpl.
    + now rewrite String.eqb_refl.
    + rewrite E. now apply IHpd.
Qed.

(** What the code does when a listed player's file runs out. When, for a
    hand record matched by a roster record, the loop over the listed
    players ends with an exception [x] other than a validation error (by
    [match_players_raises] the end of the file of a listed player, reached
    before the timestamp was: [StopIteration] for a file read to its
    regular end), that exception leaves the outer loop as well: the merge
    of the group ends there, nothing is added to the hands emitted so far,
    and the remaining lines [ls] of the hand file are never read. *)
Theorem exhausted_player_ends_group
    (system folder_group game_type : string) (l : string) (ls : list string)
    (e : exn) (st : state) (hdb : HdbRecord) (hroster : HrosterRecord)
    (it : file) (x : exn) (ip : dict file) (pd : dict PdbRecord) :
  HdbRecord_init (split l) = Ok hdb ->
  seek_hroster (hdb_timestamp hdb) (lines (iter_hroster st))
               (on_end (iter_hroster st)) = (Ok hroster, it) ->
  hdb_timestamp hdb = hroster_timestamp hroster ->
  hdb_num_players hdb = hroster_num_players hroster ->
  match_players (hdb_timestamp hdb) (hroster_players hroster)
                (iter_pdb st) (pdb st) [] = (Raise x, ip, pd) ->
  x <> ValidationError ->
  while_true system folder_group game_type (l :: ls) e st
  = (with_pdb (with_hroster st it) ip pd, x)
  /\ hands (with_pdb (with_hroster st it) ip pd) = hands st.
Proof.
  intros Hd Hs Hts Hnp Hm Hx. split; [|reflexivity].
  apply while_true_raise; [|assumption].
  unfold inner_try. rewrite Hd. unfold candidate. rewrite Hs.
  rewrite Hts, Z.ltb_irrefl, Z.eqb_refl. simpl.
  rewrite Hts in Hm. rewrite Hnp, Z.eqb_refl. simpl.
  now rewrite Hm.
Qed.

Lemma exhausted_player_ends_group_witness :
  exists st1,
    while_true "Linux" "holdem/199601" "holdem" [hdb_094; hdb_127]
               StopIteration start_short_player_file
    = (st1, StopIteration)
    /\ hands st1 = [].
Proof.
  eexists.
  eapply (exhausted_player_ends_group "Linux" "holdem/199601" "holdem"
            hdb_094 [hdb_127] StopIteration).
  - vm_compute. reflexivity.
  - vm_compute. reflexivity.
  - vm_compute. reflexivity.
  - vm_compute. reflexivity.
  - vm_compute. reflexivity.
  - discriminate.
Defined.

(** C2 fails on [short_player_file]: Jak, listed for the first hand, has
    a file that ends before that hand's timestamp. Where the sibling
    branches of the same loop (a player without a file, a player whose
    file has passed the timestamp) give up that hand alone, the end of
    Jak's file ends the loop: the second hand, which the files of ace and
    num do match and which the loop emits when started behind the first
    hand record, is never reached, and the group yields nothing. *)
Theorem C2_short_player_file_yields_nothing :
  exists st1 hand,
    inner_try "Linux" "holdem/199601" "holdem" hdb_094 start_short_player_file
    = (st1, Raise StopIteration)
    /\ lines (lookup_iter "Jak" (iter_pdb st1)) = []
    /\ while_true "Linux" "holdem/199601" "holdem" [hdb_094; hdb_127]
                  StopIteration start_short_player_file = (st1, StopIteration)
    /\ hands st1 = []
    /\ hands (fst (while_true "Linux" "holdem/199601" "holdem" [hdb_127]
                              StopIteration st1)) = [hand]
    /\ extract_and_merge "Linux" "holdem/199601" "holdem" short_player_file
       = Ok [].
Proof.
  do 2 eexists. repeat split; vm_compute; reflexivity.
Qed.

(** ** Lines that fail to decode *)

(** The roster search consumes the lines before a malformed one as long
    as they decode to earlier timestamps, consumes the malformed line, and
    raises its error; the iterator is left on the line after it. *)
Lemma seek_hroster_bad_line (ts : Z) (skipped : list string) (bad : string)
    (rest : list string) (e x : exn) :
  Forall (fun l => exists r, HrosterRecord_init (split l) = Ok r
                             /\ hroster_timestamp r < ts) skipped ->
  HrosterRecord_init (split bad) = Raise x ->
  seek_hroster ts (skipped ++ bad :: rest) e
  = (Raise x, {| lines := rest; on_end := e |}).
Proof.
  intros Hall Hbad. induction Hall as [|l skipped (r & Hd & Hr) _ IH]; simpl.
  - now rewrite Hbad.
  - rewrite Hd. assert ((hroster_timestamp r >=? ts) = false) as -> by lia.
    exact IH.
Qed.

(** The same for a player file; [pdb[player]] stays on the last record
    read before the malformed line. *)
Lemma seek_pdb_bad_line (ts : Z) (skipped : list string) (bad : string)
    (rest : list string) (e x : exn) :
  forall cur,
    pdb_timestamp cur < ts ->
    Forall (fun l => exists r, PdbRecord_init (split l) = Ok r
                               /\ pdb_timestamp r < ts) skipped ->
    PdbRecord_init (split bad) = Raise x ->
    exists cur', seek_pdb ts cur (skipped ++ bad :: rest) e
                 = (Raise x, cur', rest).
Proof.
  intros cur Hc Hall Hbad. revert cur Hc.
  induction Hall as [|l skipped (r & Hd & Hr) _ IH]; intros cur Hc; simpl;
    apply Z.ltb_lt in Hc; rewrite Hc.
  - rewrite Hbad. now exists cur.
  - rewrite Hd. exact (IH r Hr).
Qed.

(** A malformed roster line met on the way to a hand record's timestamp
    costs that hand record: the next turn of the loop reads the next line
    of the hand file, with the roster iterator after the malformed line. *)
Lemma while_true_bad_roster_line (system folder_group game_type : string)
    (l : string) (ls : list string) (e : exn) (st : state) (hdb : HdbRecord)
    (skipped : list string) (bad : string) (rest : list string) :
  HdbRecord_init (split l) = Ok hdb ->
  lines (iter_hroster st) = skipped ++ bad :: rest ->
  Forall (fun l => exists r, HrosterRecord_init (split l) = Ok r
                             /\ hroster_timestamp r < hdb_timestamp hdb)
         skipped ->
  HrosterRecord_init (split bad) = Raise ValidationError ->
  while_true system folder_group game_type (l :: ls) e st
  = while_true system folder_group game_type ls e
      (with_hroster st {| lines := rest; on_end := on_end (iter_hroster st) |}).
Proof.
  intros Hd Hl Hall Hbad. simpl. unfold iteration, inner_try, candidate.
  rewrite Hd, Hl.
  now rewrite (seek_hroster_bad_line _ _ _ _ _ _ Hall Hbad).
Qed.

(** A malformed hand-file line is dropped alone. *)
Lemma while_true_bad_hdb_line (system folder_group game_type : string)
    (l : string) (ls : list string) (e : exn) (st : state) :
  HdbRecord_init (split l) = Raise ValidationError ->
  while_true system folder_group game_type (l :: ls) e st
  = while_true system folder_group game_type ls e st.
Proof.
  intros Hd. simpl. unfold iteration, inner_try. now rewrite Hd.
Qed.

(** A malformed line in the file of a listed player, met on the way to
    the hand record's timestamp after the players listed before were
    found, costs that hand record as well; the player's iterator is left
    after the malformed line. *)
Lemma while_true_bad_player_line (system folder_group game_type : string)
    (l : string) (ls : list string) (e : exn) (st : state) (hdb : HdbRecord)
    (hroster : HrosterRecord) (it : file)
    (before : list string) (player : string) (after : list string)
    (c : dict PdbRecord) (ip1 : dict file) (pd1 : dict PdbRecord)
    (cur : PdbRecord) (skipped : list string) (bad : string)
    (rest : list string) :
  HdbRecord_init (split l) = Ok hdb ->
  seek_hroster (hdb_timestamp hdb) (lines (iter_hroster st))
               (on_end (iter_hroster st)) = (Ok hroster, it) ->
  hdb_timestamp hdb = hroster_timestamp hroster ->
  hdb_num_players hdb = hroster_num_players hroster ->
  hroster_players hroster = before ++ player :: after ->
  match_players (hdb_timestamp hdb) before (iter_pdb st) (pdb st) []
  = (Ok (Some c), ip1, pd1) ->
  dict_get player pd1 = Some cur ->
  pdb_timestamp cur < hdb_timestamp hdb ->
  lines (lookup_iter player ip1) = skipped ++ bad :: rest ->
  Forall (fun l => exists r, PdbRecord_init (split l) = Ok r
                             /\ pdb_timestamp r < hdb_timestamp hdb) skipped ->
  PdbRecord_init (split bad) = Raise ValidationError ->
  exists cur',
    while_true system folder_group game_type (l :: ls) e st
    = while_true system folder_group game_type ls e
        (with_pdb (with_hroster st it) (advance_iter player rest ip1)
                  (dict_set player cur' pd1)).
Proof.
  intros Hd Hs Hts Hnp Hr Hm Hg Hc Hl Hall Hbad.
  destruct (seek_pdb_bad_line (hdb_timestamp hdb) skipped bad rest
              (on_end (lookup_iter player ip1)) _ cur Hc Hall Hbad)
    as (cur' & Hseek).
  exists cur'. simpl. unfold iteration, inner_try, candidate.
  rewrite Hd, Hs, Hts, Z.ltb_irrefl, Z.eqb_refl. simpl.
  rewrite Hnp, Z.eqb_refl. simpl.
  rewrite Hr, match_players_app. rewrite <- Hts. rewrite Hm.
  simpl. rewrite Hg, Hl, Hseek. reflexivity.
Qed.

(** Moving one player's iterator leaves the others where they were. *)
Lemma lookup_iter_advance_other (p q : string) (ls : list string)
    (ip : dict file) :
  p <> q -> lookup_iter p (advance_iter q ls ip) = lookup_iter p ip.
Proof.
  intros Hpq. unfold lookup_iter, advance_iter.
  induction ip as [|[k f] ip IH]; simpl; [reflexivity|].
  destruct (String.eqb k q) eqn:E; simpl.
  - apply String.eqb_eq in E. subst k.
    destruct (String.eqb p q) eqn:E'; [|exact IH].
    apply String.eqb_eq in E'. contradiction.
  - destruct (String.eqb p k); [reflexivity|exact IH].
Qed.

(** The iterator of a player that has one stands, once moved on, where it
    was moved to. *)
Lemma lines_advance_iter_same (p : string) (ls : list string) (ip : dict file) :
  lines (lookup_iter p ip) <> [] ->
  lines (lookup_iter p (advance_iter p ls ip)) = ls.
Proof.
  unfold lookup_iter, advance_iter.
  induction ip as [|[k f] ip IH]; simpl; [intros H; now contradiction H|].
  destruct (String.eqb k p) eqn:E; simpl; rewrite String.eqb_sym, E.
  - reflexivity.
  - exact IH.
Qed.

(** The inner [try] on a malformed roster line, and on a malformed line
    of a listed player's file: the state it leaves. *)
Lemma inner_try_bad_roster_line (system folder_group game_type : string)
    (l : string) (st : state) (hdb : HdbRecord)
    (skipped : list string) (bad : string) (rest : list string) :
  HdbRecord_init (split l) = Ok hdb ->
  lines (iter_hroster st) = skipped ++ bad :: rest ->
  Forall (fun l => exists r, HrosterRecord_init (split l) = Ok r
                             /\ hroster_timestamp r < hdb_timestamp hdb)
         skipped ->
  HrosterRecord_init (split bad) = Raise ValidationError ->
  inner_try system folder_group game_type l st
  = (with_hroster st {| lines := rest; on_end := on_end (iter_hroster st) |},
     Raise ValidationError).
Proof.
  intros Hd Hl Hall Hbad. unfold inner_try, candidate.
  rewrite Hd, Hl.
  now rewrite (seek_hroster_bad_line _ _ _ _ _ _ Hall Hbad).
Qed.

Lemma inner_try_bad_player_line (system folder_group game_type : string)
    (l : string) (st st' : state) (hdb : HdbRecord)
    (hroster : HrosterRecord) (it : file)
    (before : list string) (player : string) (after : list string)
    (c : dict PdbRecord) (ip1 : dict file) (pd1 : dict PdbRecord)
    (cur : PdbRecord) (skipped : list string) (bad : string)
    (rest : list string) :
  inner_try system folder_group game_type l st = (st', Raise ValidationError) ->
  HdbRecord_init (split l) = Ok hdb ->
  seek_hroster (hdb_timestamp hdb) (lines (iter_hroster st))
               (on_end (iter_hroster st)) = (Ok hroster, it) ->
  hroster_players hroster = before ++ player :: after ->
  match_players (hdb_timestamp hdb) before (iter_pdb st) (pdb st) []
  = (Ok (Some c), ip1, pd1) ->
  dict_get player pd1 = Some cur ->
  pdb_timestamp cur < hdb_timestamp hdb ->
  lines (lookup_iter player ip1) = skipped ++ bad :: rest ->
  Forall (fun l => exists r, PdbRecord_init (split l) = Ok r
                             /\ pdb_timestamp r < hdb_timestamp hdb) skipped ->
  PdbRecord_init (split bad) = Raise ValidationError ->
  exists cur',
    st' = with_pdb (with_hroster st it) (advance_iter player rest ip1)
                   (dict_set player cur' pd1).
Proof.
  intros H Hd Hs Hr Hm Hg Hc Hl Hall Hbad.
  destruct (seek_pdb_bad_line (hdb_timestamp hdb) skipped bad rest
              (on_end (lookup_iter player ip1)) _ cur Hc Hall Hbad)
    as (cur' & Hseek).
  exists cur'. unfold inner_try, candidate in H. rewrite Hd, Hs in H.
  destruct (hdb_timestamp hdb <? hroster_timestamp hroster); [discriminate|].
  destruct (hdb_timestamp hdb =? hroster_timestamp hroster);
    [|discriminate].
  destruct (hdb_num_players hdb =? hroster_num_players hroster);
    [|discriminate].
  cbn [negb] in H. rewrite Hr, match_players_app in H.
  cbn [iter_pdb pdb with_hroster] in H. rewrite Hm in H.
  cbn [match_players] in H. rewrite Hg, Hl, Hseek in H.
  now injection H as <-.
Qed.

(** C4, as the code has it. When a line fails to decode anywhere inside
    the inner [try] (the hand-file line itself, a roster line or a player
    line met by a forward search), the [ValidationError] ends the work on
    the current hand record: nothing is emitted for it, and the outer loop
    goes on with the next line of the hand file from the state [st'] the
    failure left. In that state every iterator stands after the last line
    it consumed, the malformed one included: when the hand-file line was
    the malformed one, nothing else has moved; when a roster line [bad]
    was, the roster iterator stands on the lines after [bad]; when a line
    [bad] of a listed player's file was, the roster iterator stands after
    the hand's roster line, that player's iterator on the lines after
    [bad], and the files of the players not yet looked at where they
    were. *)
Theorem C4_decode_failure_skips_candidate
    (system folder_group game_type : string) (l : string) (ls : list string)
    (e : exn) (st st' : state) :
  inner_try system folder_group game_type l st = (st', Raise ValidationError) ->
  while_true system folder_group game_type (l :: ls) e st
  = while_true system folder_group game_type ls e st'
  /\ hands st' = hands st
  /\ (HdbRecord_init (split l) = Raise ValidationError -> st' = st)
  /\ (forall hdb skipped bad rest,
        HdbRecord_init (split l) = Ok hdb ->
        lines (iter_hroster st) = skipped ++ bad :: rest ->
        Forall (fun l => exists r, HrosterRecord_init (split l) = Ok r
                                   /\ hroster_timestamp r < hdb_timestamp hdb)
               skipped ->
        HrosterRecord_init (split bad) = Raise ValidationError ->
        st' = with_hroster st {| lines := rest;
                                 on_end := on_end (iter_hroster st) |})
  /\ (forall hdb hroster it before player after c ip1 pd1 cur skipped bad rest,
        HdbRecord_init (split l) = Ok hdb ->
        seek_hroster (hdb_timestamp hdb) (lines (iter_hroster st))
                     (on_end (iter_hroster st)) = (Ok hroster, it) ->
        hroster_players hroster = before ++ player :: after ->
        match_players (hdb_timestamp hdb) before (iter_pdb st) (pdb st) []
        = (Ok (Some c), ip1, pd1) ->
        dict_get player pd1 = Some cur ->
        pdb_timestamp cur < hdb_timestamp hdb ->
        lines (lookup_iter player ip1) = skipped ++ bad :: rest ->
        Forall (fun l => exists r, PdbRecord_init (split l) = Ok r
                                   /\ pdb_timestamp r < hdb_timestamp hdb)
               skipped ->
        PdbRecord_init (split bad) = Raise ValidationError ->
        iter_hroster st' = it
        /\ iter_pdb st' = advance_iter player rest ip1
        /\ lines (lookup_iter player (iter_pdb st')) = rest
        /\ forall q, q <> player ->
             lookup_iter q (iter_pdb st') = lookup_iter q ip1).
Proof.
  intros H. split; [|split; [|split; [|split]]].
  - simpl. unfold iteration. now rewrite H.
  - exact (inner_try_raise_hands _ _ _ _ _ _ _ H).
  - intros Hd. unfold inner_try in H. rewrite Hd in H. now injection H as <-.
  - intros hdb skipped bad rest Hd Hl Hall Hbad.
    rewrite (inner_try_bad_roster_line _ _ _ _ _ _ _ _ _ Hd Hl Hall Hbad) in H.
    now injection H as <-.
  - intros hdb hroster it before player after c ip1 pd1 cur skipped bad rest
           Hd Hs Hr Hm Hg Hc Hl Hall Hbad.
    destruct (inner_try_bad_player_line
                system folder_group game_type l st st' hdb hroster it before
                player after c ip1 pd1 cur skipped bad rest
                H Hd Hs Hr Hm Hg Hc Hl Hall Hbad) as (cur' & ->).
    cbn [iter_hroster iter_pdb with_pdb with_hroster].
    split; [reflexivity|]. split; [reflexivity|]. split.
    + apply lines_advance_iter_same. rewrite Hl. now destruct skipped.
    + intros q Hq. now apply lookup_iter_advance_other.
Qed.

Lemma C4_witness :
  exists st1,
    while_true "Linux" "holdem/199601" "holdem" [hdb_094] StopIteration
               start_bad_roster_line
    = while_true "Linux" "holdem/199601" "holdem" [] StopIteration st1
    /\ hands st1 = []
    /\ st1 = with_hroster start_bad_roster_line
                          {| lines := [hroster_094]; on_end := StopIteration |}.
Proof.
  eexists.
  edestruct (C4_decode_failure_skips_candidate "Linux" "holdem/199601" "holdem"
               hdb_094 [] StopIteration start_bad_roster_line)
    as (H1 & H2 & _ & H4 & _).
  - vm_compute. reflexivity.
  - split; [exact H1|]. split; [exact H2|].
    apply (H4 (hdb_record_of_line hdb_094) [] hroster_bad [hroster_094]).
    + vm_compute. reflexivity.
    + vm_compute. reflexivity.
    + constructor.
    + vm_compute. reflexivity.
Defined.

(** C4 as stated fails on [bad_roster_line]: the malformed roster line
    stands before the roster line of the one hand of the group. It is
    dropped, but the hand record is dropped with it, although the lines
    that remain ([heads_up] is the same group without the malformed line)
    match it. *)
Lemma C4_counterexample :
  exists st1,
    HrosterRecord_init (split hroster_bad) = Raise ValidationError
    /\ inner_try "Linux" "holdem/199601" "holdem" hdb_094 start_bad_roster_line
       = (st1, Raise ValidationError)
    /\ lines (iter_hroster st1) = [hroster_094]
    /\ extract_and_merge "Linux" "holdem/199601" "holdem" bad_roster_line
       = Ok []
    /\ extract_and_merge "Linux" "holdem/199601" "holdem" heads_up
       = Ok [hand_094].
Proof.
  eexists. repeat split; vm_compute; reflexivity.
Qed.

(** ** The documented example *)

(** C5. On the group holding the four lines of the documentation's
    example, the merge returns exactly one hand, [hand_094]: board
    Qc 4s 6s 5d 4d, four pots of sizes 20, 40, 80, 80 tagged f, t, r, s
    with two players each, and the two players Jak and num with their
    amounts, seats 1 and 2, bets tagged p, f, t, r and both pocket
    cards. *)
Theorem C5_documented_hand :
  extract_and_merge "Linux" "holdem/199601" "holdem" heads_up = Ok [hand_094]
  /\ _extract_single_group "Linux" "IRCdata/holdem.199601.tgz"
                           (top_level heads_up) = Ok [hand_094]
  /\ map pot_size (pots hand_094) = [20; 40; 80; 80]
  /\ map pot_stage (pots hand_094) = ["f"; "t"; "r"; "s"]%string
  /\ map pot_num_players (pots hand_094) = [2; 2; 2; 2]
  /\ map (fun kv => (fst kv, position (snd kv), pocket_cards (snd kv)))
         (players hand_094)
     = [("Jak", 1, ["7c"; "Ac"]); ("num", 2, ["9h"; "Kh"])]%string
  /\ map (fun kv => (total_bet (snd kv), bankroll (snd kv), total_win (snd kv),
                     map bet_stage (bets (snd kv))))
         (players hand_094)
     = [(40, 850, 80, ["p"; "f"; "t"; "r"]);
        (40, 1420, 0, ["p"; "f"; "t"; "r"])]%string.
Proof.
  repeat split; vm_compute; reflexivity.
Qed.

(** ** Group names *)

(** C8 fails on a group name without a path separator: the branch for a
    name that does not split in two only logs, [fname_group] is never
    bound, and reading it raises [UnboundLocalError] out of
    [_extract_single_group], before any archive member is looked at. *)
Theorem C8_name_without_separator_raises
    (system : string) (tar_in : tar (option (tar file))) :
  _extract_single_group system "holdem.199601.tgz" tar_in
  = Raise UnboundLocalError.
Proof.
  unfold _extract_single_group, SLASH.
  destruct (String.eqb system "Windows"); reflexivity.
Qed.

(** The exception reaches the consumer of the whole run. *)
Lemma iter_compute_flat_archive :
  iter_compute "Linux" (top_level_flat heads_up) = ([], Some UnboundLocalError).
Proof. vm_compute. reflexivity. Qed.

(** A member that is not a readable archive raises too: the nested
    [TarFile.open] stands before the [try]. *)
Lemma unreadable_group_raises :
  _extract_single_group "Linux" "IRCdata/holdem.199601.tgz"
                        [("IRCdata/holdem.199601.tgz", Regular None)]
  = Raise ReadError.
Proof. vm_compute. reflexivity. Qed.

(** With a separator in the name, an unknown game type gives an empty
    result, as the other early exits do. *)
Lemma unknown_game_type_is_empty :
  _extract_single_group "Linux" "IRCdata/stud.199601.tgz" (top_level heads_up)
  = Ok [].
Proof. vm_compute. reflexivity. Qed.

(** ** The [finally] clause *)

Lemma finally_returns_hands
    (system folder_group game_type : string) (tar_group : tar file)
    (hs : list Hand) (c : completion) :
  try_body system folder_group game_type tar_group = (hs, c) ->
  extract_and_merge system folder_group game_type tar_group = Ok hs.
Proof.
  intros H. unfold extract_and_merge. now rewrite H.
Qed.

(** Past its name checks and the opening of the group archive, the
    function is its [try] statement. *)
Lemma _extract_single_group_in_phase
    (system name_group dir fname_group : string)
    (tar_in : tar (option (tar file))) (tar_group : tar file) :
  endswith name_group ".tgz" = true ->
  rsplit1 (SLASH system) name_group = [dir; fname_group] ->
  mem_string (hd "" (split1 "." "" fname_group)) VALID_GAME_TYPES = true ->
  extractfile name_group tar_in = Ok (Some (Some tar_group)) ->
  _extract_single_group system name_group tar_in
  = extract_and_merge system
      (replace "." (SLASH system) (rstrip ".tgz" fname_group))
      (hd "" (split1 "." "" fname_group)) tar_group.
Proof.
  intros He Hp Hg Hx. unfold _extract_single_group.
  rewrite He, Hp.
  cbv beta iota zeta delta [negb length Nat.ltb Nat.leb nth_error].
  rewrite Hg, Hx. reflexivity.
Qed.

(** What [_extract_single_group] returns is empty or the result of the
    [try] statement on the group archive stored under the name. *)
Lemma _extract_single_group_hands
    (system name_group : string) (tar_in : tar (option (tar file)))
    (hs : list Hand) :
  _extract_single_group system name_group tar_in = Ok hs ->
  hs = []
  \/ exists folder_group game_type tar_group,
       extractfile name_group tar_in = Ok (Some (Some tar_group))
       /\ extract_and_merge system folder_group game_type tar_group = Ok hs.
Proof.
  unfold _extract_single_group.
  destruct (negb (endswith name_group ".tgz")); [intros [= <-]; now left|].
  destruct (if Nat.ltb _ _ then _ else _) as [fname_group|]; [|discriminate].
  destruct (negb (mem_string _ _)); [intros [= <-]; now left|].
  destruct (extractfile name_group tar_in) as [[[tar_group|]|]|] eqn:E;
    try discriminate; [|intros [= <-]; now left].
  intros H. right. eauto.
Qed.

(** C10. Once [_extract_single_group] has passed its name checks and
    opened the group archive, whatever exception [e] the body of the
    [try] ends with, of any class, the function returns the hands
    accumulated up to that point: the [return hands] of the [finally]
    clause replaces the exception in flight. *)
Theorem C10_finally_returns_hands
    (system name_group dir fname_group : string)
    (tar_in : tar (option (tar file))) (tar_group : tar file)
    (hs : list Hand) (e : exn) :
  endswith name_group ".tgz" = true ->
  rsplit1 (SLASH system) name_group = [dir; fname_group] ->
  mem_string (hd "" (split1 "." "" fname_group)) VALID_GAME_TYPES = true ->
  extractfile name_group tar_in = Ok (Some (Some tar_group)) ->
  try_body system (replace "." (SLASH system) (rstrip ".tgz" fname_group))
           (hd "" (split1 "." "" fname_group)) tar_group
  = (hs, Raises e) ->
  _extract_single_group system name_group tar_in = Ok hs.
Proof.
  intros He Hp Hg Hx Ht.
  rewrite (_extract_single_group_in_phase _ _ _ _ _ _ He Hp Hg Hx).
  exact (finally_returns_hands _ _ _ _ _ _ Ht).
Qed.

Lemma C10_witness :
  _extract_single_group "Linux" "IRCdata/holdem.199601.tgz"
                        (top_level late_count_mismatch)
  = Ok [hand_094].
Proof.
  apply (C10_finally_returns_hands "Linux" "IRCdata/holdem.199601.tgz"
           "IRCdata" "holdem.199601.tgz" (top_level late_count_mismatch)
           late_count_mismatch [hand_094] AssertionError).
  - vm_compute. reflexivity.
  - vm_compute. reflexivity.
  - vm_compute. reflexivity.
  - vm_compute. reflexivity.
  - vm_compute. reflexivity.
Defined.

(** A validation error raised outside the inner [try], by the first line
    of a player file, ends the same way. *)
Lemma first_line_validation_error :
  try_body "Linux" "holdem/199601" "holdem" bad_first_line
  = ([], Raises ValidationError)
  /\ extract_and_merge "Linux" "holdem/199601" "holdem" bad_first_line = Ok [].
Proof. split; vm_compute; reflexivity. Qed.

(** In every case, the early [return []] included, the function returns
    and its value is the local [hands]. *)
Lemma extract_and_merge_never_raises
    (system folder_group game_type : string) (tar_group : tar file) :
  exists hs, extract_and_merge system folder_group game_type tar_group = Ok hs.
Proof.
  rewrite extract_and_merge_hands. eauto.
Qed.

(** ** What every emitted hand satisfies *)

Lemma extract_and_merge_spec (system folder_group game_type : string)
    (tar_group : tar file) (hs : list Hand) :
  extract_and_merge system folder_group game_type tar_group = Ok hs ->
  hs = []
  \/ exists file_hdb file_hroster ip0,
       group_files system folder_group tar_group file_hdb file_hroster ip0
       /\ emitted_seq system folder_group game_type ip0 (lines file_hroster)
                      (lines file_hdb) hs.
Proof.
  rewrite extract_and_merge_hands. intros [= <-].
  destruct (try_body system folder_group game_type tar_group) as [hs c] eqn:T.
  exact (try_body_spec _ _ _ _ _ _ T).
Qed.

Lemma keys_make_hand (system folder_group game_type : string)
    (hdb : HdbRecord) (pdb_curr : dict PdbRecord) :
  keys (players (make_hand system folder_group game_type hdb pdb_curr))
  = keys pdb_curr.
Proof.
  unfold keys. simpl. rewrite map_map. reflexivity.
Qed.

Lemma players_make_hand (system folder_group game_type : string)
    (hdb : HdbRecord) (pdb_curr : dict PdbRecord) (k : string) (p : Player) :
  In (k, p) (players (make_hand system folder_group game_type hdb pdb_curr)) ->
  exists v, In (k, v) pdb_curr /\ p = make_player v.
Proof.
  simpl. intros H. apply in_map_iff in H as ([k' v] & [= <- <-] & Hin).
  now exists v.
Qed.

(** Every entry of an emitted hand's [players] is [make_player] of the
    decoding of a line of that player's file, at the hand's timestamp. *)
Lemma emitted_player (system folder_group game_type : string)
    (tar_group : tar file) (hs : list Hand) (hand : Hand)
    (k : string) (p : Player) :
  extract_and_merge system folder_group game_type tar_group = Ok hs ->
  In hand hs -> In (k, p) (players hand) ->
  exists file_hdb file_hroster ip0 f0 l v,
    group_files system folder_group tar_group file_hdb file_hroster ip0
    /\ In (k, f0) ip0 /\ In l (lines f0)
    /\ PdbRecord_init (split l) = Ok v
    /\ _id hand = make_id system folder_group (pdb_timestamp v)
    /\ p = make_player v.
Proof.
  intros H Hin Hp.
  destruct (extract_and_merge_spec _ _ _ _ _ H)
    as [->|(file_hdb & file_hroster & ip0 & Hg & Hs)]; [destruct Hin|].
  destruct (emitted_seq_In _ _ _ _ _ _ _ Hs _ Hin) as (l_h & Hl & Hem).
  destruct Hem as (hdb & l_r & hroster & pdb_curr & _ & _ & _ & _ & _
                   & _ & _ & Hall & ->).
  apply players_make_hand in Hp as (v & Hv & ->).
  destruct (Hall _ _ Hv) as (Hts & f0 & l & Hf & Hl' & Hd).
  exists file_hdb, file_hroster, ip0, f0, l, v.
  repeat (split; [assumption|]).
  split; [|reflexivity]. simpl. now rewrite Hts.
Qed.

(** C3, as the code has it. Every hand a group returns was built from a
    line of the hand file and a line of the roster file with the same
    timestamp; its [num_players] is the player count of both lines; its
    [players] dictionary has the identifiers the roster line lists as its
    keys, in that order and none twice, hence as many entries as the
    roster line lists identifiers; and the position of each entry is the
    integer written as the fourth token of a line of that player's file,
    whatever its value. *)
Theorem C3_players_follow_roster
    (system folder_group game_type : string) (tar_group : tar file)
    (hs : list Hand) (hand : Hand) :
  extract_and_merge system folder_group game_type tar_group = Ok hs ->
  In hand hs ->
  exists file_hdb file_hroster ip0 l_h hdb l_r hroster,
    group_files system folder_group tar_group file_hdb file_hroster ip0
    /\ In l_h (lines file_hdb) /\ HdbRecord_init (split l_h) = Ok hdb
    /\ In l_r (lines file_hroster) /\ HrosterRecord_init (split l_r) = Ok hroster
    /\ hdb_timestamp hdb = hroster_timestamp hroster
    /\ num_players hand = hdb_num_players hdb
    /\ num_players hand = hroster_num_players hroster
    /\ keys (players hand) = hroster_players hroster
    /\ length (players hand) = length (hroster_players hroster)
    /\ NoDup (keys (players hand))
    /\ forall k p, In (k, p) (players hand) ->
         exists f0 l,
           In (k, f0) ip0 /\ In l (lines f0)
           /\ int_of_string (nth 3 (split l) "") = Some (position p).
Proof.
  intros H Hin.
  destruct (extract_and_merge_spec _ _ _ _ _ H)
    as [->|(file_hdb & file_hroster & ip0 & Hg & Hs)]; [destruct Hin|].
  destruct (emitted_seq_In _ _ _ _ _ _ _ Hs _ Hin) as (l_h & Hl & Hem).
  destruct Hem as (hdb & l_r & hroster & pdb_curr & Hd & Hlr & Hdr & Hts & Hnp
                   & Hk & Hnd & Hall & ->).
  exists file_hdb, file_hroster, ip0, l_h, hdb, l_r, hroster.
  rewrite keys_make_hand, Hk.
  repeat (split; [assumption|]).
  split; [reflexivity|]. split; [exact Hnp|]. split; [reflexivity|].
  split; [|split; [assumption|]].
  - rewrite <- Hk. simpl. unfold keys. now rewrite !length_map.
  - intros k p Hp. apply players_make_hand in Hp as (v & Hv & ->).
    destruct (Hall _ _ Hv) as (_ & f0 & l & Hf & Hl' & Hdv).
    exists f0, l. split; [assumption|split; [assumption|]].
    exact (PdbRecord_init_position _ _ Hdv).
Qed.

Lemma C3_witness :
  exists file_hdb file_hroster ip0 l_h hdb l_r hroster,
    group_files "Linux" "holdem/199601" heads_up file_hdb file_hroster ip0
    /\ In l_h (lines file_hdb) /\ HdbRecord_init (split l_h) = Ok hdb
    /\ In l_r (lines file_hroster) /\ HrosterRecord_init (split l_r) = Ok hroster
    /\ hdb_timestamp hdb = hroster_timestamp hroster
    /\ num_players hand_094 = hdb_num_players hdb
    /\ num_players hand_094 = hroster_num_players hroster
    /\ keys (players hand_094) = hroster_players hroster
    /\ length (players hand_094) = length (hroster_players hroster)
    /\ NoDup (keys (players hand_094))
    /\ forall k p, In (k, p) (players hand_094) ->
         exists f0 l,
           In (k, f0) ip0 /\ In l (lines f0)
           /\ int_of_string (nth 3 (split l) "") = Some (position p).
Proof.
  apply (C3_players_follow_roster "Linux" "holdem/199601" "holdem" heads_up
           [hand_094] hand_094).
  - vm_compute. reflexivity.
  - left. reflexivity.
Defined.

(** C3 as stated fails on [same_seat]: hand file and roster line say two
    players, the roster line names two, and both player lines give seat
    1. The hand is emitted with [num_players] 2, two entries in
    [players], and the seat 1 twice, the seat 2 not at all. *)
Lemma C3_counterexample :
  exists hand,
    extract_and_merge "Linux" "holdem/199601" "holdem" same_seat = Ok [hand]
    /\ num_players hand = 2
    /\ length (players hand) = 2%nat
    /\ map (fun kv => position (snd kv)) (players hand) = [1; 1].
Proof.
  eexists. repeat split; vm_compute; reflexivity.
Qed.

(** C6, as the code has it. In every hand a group returns, a player's
    pocket-card list has at most two cards: none, one or two. *)
Theorem C6_pocket_cards_at_most_two
    (system folder_group game_type : string) (tar_group : tar file)
    (hs : list Hand) (hand : Hand) (k : string) (p : Player) :
  extract_and_merge system folder_group game_type tar_group = Ok hs ->
  In hand hs -> In (k, p) (players hand) ->
  (length (pocket_cards p) <= 2)%nat.
Proof.
  intros H Hin Hp.
  destruct (emitted_player _ _ _ _ _ _ _ _ H Hin Hp)
    as (_ & _ & _ & _ & _ & v & _ & _ & _ & _ & _ & ->).
  apply pdb_cards_length.
Qed.

Lemma C6_witness :
  In ("Jak"%string, player_Jak_094) (players hand_094)
  /\ (length (pocket_cards player_Jak_094) <= 2)%nat.
Proof.
  split; [left; reflexivity|].
  apply (C6_pocket_cards_at_most_two "Linux" "holdem/199601" "holdem" heads_up
           [hand_094] hand_094 "Jak" player_Jak_094).
  - vm_compute. reflexivity.
  - left. reflexivity.
  - left. reflexivity.
Defined.

(** C6 as stated fails on [one_card]: Jak's line carries the single card
    token [7c] after the amounts, and the emitted hand shows Jak with a
    one-card list. *)
Lemma C6_counterexample :
  exists hand,
    extract_and_merge "Linux" "holdem/199601" "holdem" one_card = Ok [hand]
    /\ map (fun kv => (fst kv, pocket_cards (snd kv))) (players hand)
       = [("Jak", ["7c"]); ("num", ["9h"; "Kh"])]%string
    /\ map (fun kv => length (pocket_cards (snd kv))) (players hand)
       = [1; 2]%nat.
Proof.
  eexists. repeat split; vm_compute; reflexivity.
Qed.

(** C7, as the code has it. In every hand a group returns, a player's
    pocket cards are the card tokens (the twelfth and thirteenth, as far
    as present) of a line of that player's file with the hand's timestamp,
    and the actions of the four bets are tokens five to eight of the same
    line: the cards are copied whatever the actions say. *)
Theorem C7_pocket_cards_are_line_tokens
    (system folder_group game_type : string) (tar_group : tar file)
    (hs : list Hand) (hand : Hand) (k : string) (p : Player) :
  extract_and_merge system folder_group game_type tar_group = Ok hs ->
  In hand hs -> In (k, p) (players hand) ->
  exists file_hdb file_hroster ip0 f0 l v,
    group_files system folder_group tar_group file_hdb file_hroster ip0
    /\ In (k, f0) ip0 /\ In l (lines f0)
    /\ PdbRecord_init (split l) = Ok v
    /\ _id hand = make_id system folder_group (pdb_timestamp v)
    /\ pocket_cards p = firstn 2 (skipn 11 (split l))
    /\ map bet_actions (bets p) = firstn 4 (skipn 4 (split l)).
Proof.
  intros H Hin Hp.
  destruct (emitted_player _ _ _ _ _ _ _ _ H Hin Hp)
    as (file_hdb & file_hroster & ip0 & f0 & l & v & Hg & Hf & Hl & Hd & Hid & ->).
  exists file_hdb, file_hroster, ip0, f0, l, v.
  repeat (split; [assumption|]).
  exact (PdbRecord_init_fields _ _ Hd).
Qed.

Lemma C7_witness :
  exists file_hdb file_hroster ip0 f0 l v,
    group_files "Linux" "holdem/199601" heads_up file_hdb file_hroster ip0
    /\ In ("Jak"%string, f0) ip0 /\ In l (lines f0)
    /\ PdbRecord_init (split l) = Ok v
    /\ _id hand_094 = make_id "Linux" "holdem/199601" (pdb_timestamp v)
    /\ pocket_cards player_Jak_094 = firstn 2 (skipn 11 (split l))
    /\ map bet_actions (bets player_Jak_094) = firstn 4 (skipn 4 (split l)).
Proof.
  apply (C7_pocket_cards_are_line_tokens "Linux" "holdem/199601" "holdem"
           heads_up [hand_094] hand_094 "Jak" player_Jak_094).
  - vm_compute. reflexivity.
  - left. reflexivity.
  - left. reflexivity.
Defined.

(** C7 as stated fails on [folded_with_cards]: Jak's actions are
    [Bf - - -], a fold before the flop, the line carries the tokens
    [7c Ac] after the amounts, and the emitted hand shows Jak with both
    cards. *)
Lemma C7_counterexample :
  exists hand,
    extract_and_merge "Linux" "holdem/199601" "holdem" folded_with_cards
    = Ok [hand]
    /\ option_map (fun p => (map bet_actions (bets p), pocket_cards p))
                  (dict_get "Jak" (players hand))
       = Some (["Bf"; "-"; "-"; "-"], ["7c"; "Ac"])%string.
Proof.
  eexists. repeat split; vm_compute; reflexivity.
Qed.

(** ** Order of the emitted hands *)

(** The identifiers of the hands emitted over the lines [ls] carry
    timestamps that are in order as soon as the timestamps of [ls] are. *)
Lemma emitted_seq_sorted (system folder_group game_type : string)
    (ip0 : dict file) (roster_lines ls : list string) (hs : list Hand) :
  emitted_seq system folder_group game_type ip0 roster_lines ls hs ->
  StronglySorted Z.le (hdb_timestamps ls) ->
  exists tss,
    map _id hs = map (make_id system folder_group) tss
    /\ StronglySorted Z.le tss
    /\ Forall (fun t => In t (hdb_timestamps ls)) tss.
Proof.
  induction 1 as [ls|l ls hs _ IH|l ls hand hs Hem _ IH]; intros Hsorted.
  - exists []. repeat split; constructor.
  - simpl in Hsorted |- *.
    destruct (HdbRecord_init (split l)) as [hdb|].
    + inversion Hsorted as [|? ? Hs' _]; subst.
      destruct (IH Hs') as (tss & H1 & H2 & H3).
      exists tss. split; [assumption|split; [assumption|]].
      eapply Forall_impl; [|exact H3]. intros t Ht. now right.
    + exact (IH Hsorted).
  - destruct Hem as (hdb & l_r & hroster & pdb_curr & Hd & _ & _ & _ & _
                     & _ & _ & _ & ->).
    simpl in Hsorted |- *. rewrite Hd in Hsorted |- *.
    inversion Hsorted as [|? ? Hs' Hle]; subst.
    destruct (IH Hs') as (tss & H1 & H2 & H3).
    exists (hdb_timestamp hdb :: tss). simpl. rewrite H1.
    split; [reflexivity|]. split.
    + constructor; [assumption|].
      rewrite Forall_forall in Hle, H3 |- *. intros t Ht. apply Hle, H3, Ht.
    + constructor; [now left|].
      eapply Forall_impl; [|exact H3]. intros t Ht. now right.
Qed.

(** C9. When the timestamps of the hand file's lines (those that decode)
    are non-decreasing, the hands a group returns carry, in their
    identifiers and in the order of the list, timestamps of hand-file
    lines that are non-decreasing as well. Nothing is asked of the roster
    and player files. *)
Theorem C9_emitted_timestamps_sorted
    (system folder_group game_type : string) (tar_group : tar file)
    (file_hdb : file) (hs : list Hand) :
  extractfile (folder_group ++ SLASH_str system ++ "hdb") tar_group
  = Ok (Some file_hdb) ->
  Sorted Z.le (hdb_timestamps (lines file_hdb)) ->
  extract_and_merge system folder_group game_type tar_group = Ok hs ->
  exists tss,
    map _id hs = map (make_id system folder_group) tss
    /\ Sorted Z.le tss
    /\ Forall (fun t => In t (hdb_timestamps (lines file_hdb))) tss.
Proof.
  intros Hf Hsorted H.
  destruct (extract_and_merge_spec _ _ _ _ _ H)
    as [->|(file_hdb' & file_hroster & ip0 & (Hg & _) & Hs)].
  - exists []. repeat split; constructor.
  - rewrite Hf in Hg. injection Hg as <-.
    apply Sorted_StronglySorted in Hsorted; [|exact Z.le_trans].
    destruct (emitted_seq_sorted _ _ _ _ _ _ _ Hs Hsorted) as (tss & H1 & H2 & H3).
    exists tss. split; [assumption|split; [|assumption]].
    now apply StronglySorted_Sorted.
Qed.

Lemma two_hands_timestamps :
  hdb_timestamps [hdb_094; hdb_127] = [820830094; 820830127].
Proof. vm_compute. reflexivity. Qed.

Lemma C9_witness :
  exists tss,
    map _id [hand_094; hand_127] = map (make_id "Linux" "holdem/199601") tss
    /\ Sorted Z.le tss
    /\ Forall (fun t => In t (hdb_timestamps [hdb_094; hdb_127])) tss.
Proof.
  apply (C9_emitted_timestamps_sorted "Linux" "holdem/199601" "holdem" two_hands
           (regular [hdb_094; hdb_127]) [hand_094; hand_127]).
  - vm_compute. reflexivity.
  - simpl lines. rewrite two_hands_timestamps.
    repeat constructor; apply Z.leb_le; reflexivity.
  - vm_compute. reflexivity.
Defined.

(** * Further properties of the code *)

(** ** The tokenizer *)

Lemma all_chars_app (p : ascii -> bool) (a b : string) :
  all_chars p (a ++ b) = all_chars p a && all_chars p b.
Proof.
  induction a as [|c a IH]; simpl; [reflexivity|].
  rewrite IH. now rewrite andb_assoc.
Qed.

Lemma string_app_nil_r (a : string) : (a ++ "")%string = a.
Proof. induction a; simpl; congruence. Qed.

Lemma string_app_assoc (a b c : string) :
  ((a ++ b) ++ c)%string = (a ++ (b ++ c))%string.
Proof. induction a; simpl; congruence. Qed.

Lemma flush_clean (cur tok : string) :
  no_space cur = true -> In tok (flush cur) -> is_token tok.
Proof.
  destruct cur; simpl; [intros _ []|]. intros H [<-|[]]. now split.
Qed.

Lemma split_ws_clean (s : string) :
  forall cur tok,
    no_space cur = true -> In tok (split_ws cur s) -> is_token tok.
Proof.
  induction s as [|c s IH]; intros cur tok Hc Hin; simpl in Hin.
  - now apply (flush_clean cur).
  - destruct (is_space c) eqn:E.
    + apply in_app_or in Hin as [Hin|Hin]; [now apply (flush_clean cur)|].
      now apply (IH "").
    + apply (IH (cur ++ String c "")%string); [|assumption].
      unfold no_space. rewrite all_chars_app. fold (no_space cur).
      rewrite Hc. simpl. now rewrite E.
Qed.

(** X1. What the [split] lambda cuts out of a line, before the [if s]
    filter of its call sites is applied, are tokens that are non-empty
    and free of whitespace, whatever the line; the filter therefore
    removes nothing. *)
Theorem split_tokens_clean (line : string) :
  Forall is_token (split_ws "" line)
  /\ split line = split_ws "" line.
Proof.
  assert (H : Forall is_token (split_ws "" line)).
  { apply Forall_forall. intros tok. now apply (split_ws_clean line ""). }
  split; [exact H|]. unfold split.
  induction H as [|tok toks [Hne _] _ IH]; simpl; [reflexivity|].
  now rewrite Hne, IH.
Qed.

Lemma split_ws_token (tok : string) :
  forall cur rest,
    no_space tok = true ->
    split_ws cur (tok ++ rest) = split_ws (cur ++ tok) rest.
Proof.
  induction tok as [|c tok IH]; intros cur rest H; simpl.
  - now rewrite string_app_nil_r.
  - simpl in H. apply andb_prop in H as [Hc Ht].
    apply negb_true_iff in Hc. rewrite Hc.
    rewrite IH by assumption. now rewrite string_app_assoc.
Qed.

Lemma split_ws_join (toks : list string) :
  Forall is_token toks -> split_ws "" (join " " toks) = toks.
Proof.
  induction 1 as [|t toks [Hn Hs] Hall IH]; [reflexivity|].
  destruct toks as [|t' toks].
  - simpl. rewrite <- (string_app_nil_r t) at 1.
    rewrite split_ws_token by assumption. simpl. now destruct t.
  - change (join " " (t :: t' :: toks))
      with (t ++ " " ++ join " " (t' :: toks))%string.
    rewrite split_ws_token by assumption.
    change (" " ++ join " " (t' :: toks))%string
      with (String " " (join " " (t' :: toks))).
    change (split_ws ("" ++ t) (String " " (join " " (t' :: toks))))
      with (flush t ++ split_ws "" (join " " (t' :: toks))).
    rewrite IH. now destruct t.
Qed.

(** X2. Tokens written on a line with single spaces between them are read
    back by [split] as they were, provided each is non-empty and free of
    whitespace. *)
Theorem split_join_round_trip (toks : list string) :
  Forall is_token toks -> split (join " " toks) = toks.
Proof.
  intros H. unfold split. rewrite split_ws_join by assumption.
  apply forallb_filter_id. apply forallb_forall. intros t Ht.
  rewrite Forall_forall in H. now apply H.
Qed.

Lemma split_join_round_trip_witness :
  split (join " " ["820830094"; "2"; "Jak"; "num"])
  = ["820830094"; "2"; "Jak"; "num"].
Proof.
  apply split_join_round_trip.
  repeat constructor.
Defined.

(** ** The decoders *)

(** X3. The decoders of the hand file and of the player files read
    thirteen tokens at most: what follows the thirteenth token changes
    neither the record nor the failure. *)
Theorem decoders_ignore_extra_tokens (args : list string) :
  HdbRecord_init (firstn 13 args) = HdbRecord_init args
  /\ PdbRecord_init (firstn 13 args) = PdbRecord_init args.
Proof.
  split; do 13 (destruct args as [|? args]; [reflexivity|]); reflexivity.
Qed.

Lemma Timestamp_range (s : string) (t : Z) :
  Timestamp s = Some t -> 100000000 <= t <= 999999999.
Proof.
  unfold Timestamp. destruct (int_of_string s) as [z|]; [|discriminate].
  destruct (_ && _) eqn:E; [|discriminate]. intros [= <-]. lia.
Qed.

Lemma optional_card_valid (rest : list string) (i : nat) (o : option string) :
  optional_card rest i = Some o ->
  o = nth_error rest i /\ match o with Some c => Card c = true | None => True end.
Proof.
  unfold optional_card. destruct (nth_error rest i) as [c|].
  - destruct (Card c) eqn:E; [|discriminate]. intros [= <-]. now split.
  - intros [= <-]. now split.
Qed.

Lemma split1_app (c : ascii) (s : string) :
  forall cur a b,
    split1 c cur s = [a; b] -> (cur ++ s)%string = (a ++ String c b)%string.
Proof.
  induction s as [|c' s IH]; intros cur a b H; simpl in H; [discriminate|].
  destruct (Ascii.eqb c' c) eqn:E.
  - apply Ascii.eqb_eq in E. subst c'. now injection H as <- <-.
  - apply IH in H. rewrite <- H. now rewrite string_app_assoc.
Qed.

Lemma digits_val_nonneg (s : string) : forall acc, 0 <= acc -> 0 <= digits_val acc s.
Proof.
  induction s as [|c s IH]; intros acc H; [assumption|].
  cbn [digits_val]. apply IH.
  pose proof (Nat2Z.is_nonneg (nat_of_ascii c - 48)). lia.
Qed.

Lemma int_nonneg_digits (s : string) :
  is_digits s = true -> int s = digits_val 0 s /\ 0 <= int s.
Proof.
  intros H. unfold int. rewrite (is_digits_signed_digits _ H).
  split; [reflexivity|]. now apply digits_val_nonneg.
Qed.

(** The pot built from one ratio token. *)
Lemma Stage_pot (s : string) :
  Stage s = true ->
  exists n m,
    s = (n ++ "/" ++ m)%string /\ is_digits n = true /\ is_digits m = true
    /\ split1 "/" "" s = [n; m].
Proof.
  unfold Stage. destruct (split1 "/" "" s) as [|n [|m [|]]] eqn:E;
    try discriminate.
  intros H. apply andb_prop in H as [Hn Hm]. exists n, m.
  split; [exact (split1_app _ _ _ _ _ E)|]. now repeat split.
Qed.

(** A hand-file line that decodes has its timestamp within the nine digit
    range, and its board is made of the tokens after the eighth, five at
    most, each of them matching the card pattern. *)
Lemma HdbRecord_init_tokens (args : list string) (r : HdbRecord) :
  HdbRecord_init args = Ok r ->
  100000000 <= hdb_timestamp r <= 999999999
  /\ hdb_cards r = firstn 5 (skipn 8 args)
  /\ Forall (fun c => Card c = true) (hdb_cards r).
Proof.
  unfold HdbRecord_init.
  do 8 (destruct args as [|? args]; [discriminate|]).
  destruct (Timestamp _) as [t|] eqn:T; [|discriminate].
  do 3 (destruct (int_of_string _); [|discriminate]).
  destruct (optional_card args 0) as [c1|] eqn:E1; [|discriminate].
  destruct (optional_card args 1) as [c2|] eqn:E2; [|discriminate].
  destruct (optional_card args 2) as [c3|] eqn:E3; [|discriminate].
  destruct (optional_card args 3) as [c4|] eqn:E4; [|discriminate].
  destruct (optional_card args 4) as [c5|] eqn:E5; [|discriminate].
  destruct (_ && _); [|discriminate]. intros [= <-].
  apply optional_card_valid in E1 as [-> V1], E2 as [-> V2], E3 as [-> V3],
    E4 as [-> V4], E5 as [-> V5].
  split; [exact (Timestamp_range _ _ T)|].
  unfold hdb_cards. cbn [hdb_card1 hdb_card2 hdb_card3 hdb_card4 hdb_card5 skipn].
  destruct args as [|a1 [|a2 [|a3 [|a4 [|a5 rest]]]]]; simpl in *;
    (split; [reflexivity|]); repeat constructor; assumption.
Qed.

(** A hand-file line that decodes yields exactly four pots, tagged f, t,
    r and s in this order; each is read from one of the tokens five to
    eight, written [n/s] with two digit strings, and holds the numbers
    [n] and [s], which are never negative. *)
Lemma HdbRecord_init_pots (args : list string) (r : HdbRecord) :
  HdbRecord_init args = Ok r ->
  map pot_stage (hdb_pots r) = ["f"; "t"; "r"; "s"]%string
  /\ Forall2 (fun tok pot =>
                exists n s,
                  tok = (n ++ "/" ++ s)%string
                  /\ is_digits n = true /\ is_digits s = true
                  /\ pot_num_players pot = digits_val 0 n
                  /\ pot_size pot = digits_val 0 s)
             (firstn 4 (skipn 4 args)) (hdb_pots r)
  /\ Forall (fun pot => 0 <= pot_num_players pot /\ 0 <= pot_size pot)
            (hdb_pots r).
Proof.
  unfold HdbRecord_init.
  destruct args as [|ts [|dl [|hn [|np [|fl [|tu [|rv [|sd rest]]]]]]]];
    try discriminate.
  destruct (Timestamp _); [|discriminate].
  do 3 (destruct (int_of_string _); [|discriminate]).
  do 5 (destruct (optional_card _ _); [|discriminate]).
  destruct (Stage fl) eqn:S1; [|discriminate].
  destruct (Stage tu) eqn:S2; [|discriminate].
  destruct (Stage rv) eqn:S3; [|discriminate].
  destruct (Stage sd) eqn:S4; [|discriminate].
  intros [= <-].
  apply Stage_pot in S1 as (n1 & m1 & -> & D1 & D1' & P1).
  apply Stage_pot in S2 as (n2 & m2 & -> & D2 & D2' & P2).
  apply Stage_pot in S3 as (n3 & m3 & -> & D3 & D3' & P3).
  apply Stage_pot in S4 as (n4 & m4 & -> & D4 & D4' & P4).
  unfold hdb_pots. cbn [STAGES tl map].
  unfold hdb_getattr. cbn [String.eqb Ascii.eqb Bool.eqb hdb_flop hdb_turn
                            hdb_river hdb_showdown first_char].
  rewrite P1, P2, P3, P4.
  destruct (int_nonneg_digits _ D1) as [-> ?], (int_nonneg_digits _ D1') as [-> ?],
    (int_nonneg_digits _ D2) as [-> ?], (int_nonneg_digits _ D2') as [-> ?],
    (int_nonneg_digits _ D3) as [-> ?], (int_nonneg_digits _ D3') as [-> ?],
    (int_nonneg_digits _ D4) as [-> ?], (int_nonneg_digits _ D4') as [-> ?].
  split; [reflexivity|]. split.
  - cbn [skipn firstn].
    repeat (constructor; [eexists _, _; repeat split; assumption|]).
    constructor.
  - repeat (constructor; [split; apply digits_val_nonneg; lia|]). constructor.
Qed.

Lemma HrosterRecord_init_short (args : list string) :
  HrosterRecord_init args = Raise IndexError <-> (length args < 2)%nat.
Proof.
  unfold HrosterRecord_init. destruct args as [|ts [|np players]]; simpl.
  - split; [lia|reflexivity].
  - split; [lia|reflexivity].
  - destruct (Timestamp ts); [destruct (int_of_string np)|];
      (split; [discriminate|lia]).
Qed.

(** X4. A roster line that decodes has at least two tokens, a timestamp
    within the nine digit range as the first and an integer as the
    second; its players are all the tokens that follow, however many the
    count announces. *)
Theorem hroster_record_reads_its_tokens
    (args : list string) (r : HrosterRecord) :
  HrosterRecord_init args = Ok r ->
  (2 <= length args)%nat
  /\ 100000000 <= hroster_timestamp r <= 999999999
  /\ int_of_string (nth 1 args "") = Some (hroster_num_players r)
  /\ hroster_players r = skipn 2 args.
Proof.
  unfold HrosterRecord_init. destruct args as [|ts [|np players]];
    try discriminate.
  destruct (Timestamp ts) as [t|] eqn:T; [|discriminate].
  destruct (int_of_string np) as [n|] eqn:N; [|discriminate].
  intros [= <-]. simpl. rewrite N.
  split; [lia|]. split; [exact (Timestamp_range _ _ T)|]. now split.
Qed.

Lemma hroster_record_reads_its_tokens_witness :
  exists r,
    HrosterRecord_init (split hroster_094_three) = Ok r
    /\ int_of_string (nth 1 (split hroster_094_three) "")
       = Some (hroster_num_players r)
    /\ hroster_players r = skipn 2 (split hroster_094_three).
Proof.
  destruct (HrosterRecord_init (split hroster_094_three)) as [r|] eqn:E;
    [|vm_compute in E; discriminate].
  exists r. split; [reflexivity|].
  destruct (hroster_record_reads_its_tokens _ r E) as (_ & _ & H3 & H4).
  split; assumption.
Defined.

(** A player-file line that decodes has its timestamp within the nine
    digit range; its four bets are tagged p, f, t and r and carry tokens
    five to eight, each matching the action pattern; its cards are tokens
    twelve and thirteen as far as present, each matching the card
    pattern. *)
Lemma PdbRecord_init_tokens (args : list string) (v : PdbRecord) :
  PdbRecord_init args = Ok v ->
  100000000 <= pdb_timestamp v <= 999999999
  /\ map bet_stage (pdb_bets v) = ["p"; "f"; "t"; "r"]%string
  /\ map bet_actions (pdb_bets v) = firstn 4 (skipn 4 args)
  /\ Forall (fun a => Action a = true) (map bet_actions (pdb_bets v))
  /\ pdb_cards v = firstn 2 (skipn 11 args)
  /\ Forall (fun c => Card c = true) (pdb_cards v).
Proof.
  unfold PdbRecord_init.
  destruct args
    as [|pl [|ts [|np [|pos [|pf [|fl [|tu [|rv [|br [|tb [|tw rest]]]]]]]]]]];
    try discriminate.
  destruct (Timestamp _) as [t|] eqn:T; [|discriminate].
  do 5 (destruct (int_of_string _); [|discriminate]).
  destruct (optional_card rest 0) as [c1|] eqn:E1; [|discriminate].
  destruct (optional_card rest 1) as [c2|] eqn:E2; [|discriminate].
  destruct (Action pf) eqn:A1; [|discriminate].
  destruct (Action fl) eqn:A2; [|discriminate].
  destruct (Action tu) eqn:A3; [|discriminate].
  destruct (Action rv) eqn:A4; [|discriminate].
  intros [= <-].
  apply optional_card_valid in E1 as [-> V1], E2 as [-> V2].
  split; [exact (Timestamp_range _ _ T)|].
  split; [reflexivity|]. split; [reflexivity|].
  split; [repeat constructor; assumption|].
  unfold pdb_cards. cbn [pdb_card1 pdb_card2 skipn].
  destruct rest as [|a1 [|a2 rest]]; simpl in *;
    (split; [reflexivity|]); repeat constructor; assumption.
Qed.

(** ** The roster search *)

(** The search stops at the first line that decodes to a timestamp at or
    after the one looked for, and leaves the iterator behind that line. *)
Lemma seek_hroster_found (ts : Z) (skipped : list string) (l_r : string)
    (rest : list string) (e : exn) (hroster : HrosterRecord) :
  Forall (fun l => exists r, HrosterRecord_init (split l) = Ok r
                             /\ hroster_timestamp r < ts) skipped ->
  HrosterRecord_init (split l_r) = Ok hroster ->
  ts <= hroster_timestamp hroster ->
  seek_hroster ts (skipped ++ l_r :: rest) e
  = (Ok hroster, {| lines := rest; on_end := e |}).
Proof.
  intros Hall Hd Hts. induction Hall as [|l skipped (r & Hr & Hlt) _ IH]; simpl.
  - rewrite Hd. assert ((hroster_timestamp hroster >=? ts) = true) as -> by lia.
    reflexivity.
  - rewrite Hr. assert ((hroster_timestamp r >=? ts) = false) as -> by lia.
    exact IH.
Qed.

(** X5. A roster record whose timestamp lies after the hand record's is
    used up by that hand record: the hand record is given up, and the
    loop goes on with the next line of the hand file and the roster
    iterator behind the roster record, which no later hand record can be
    matched against. *)
Theorem roster_overshoot_consumes_record
    (system folder_group game_type : string) (l : string) (ls : list string)
    (e : exn) (st : state) (hdb : HdbRecord) (skipped : list string)
    (l_r : string) (rest : list string) (hroster : HrosterRecord) :
  HdbRecord_init (split l) = Ok hdb ->
  lines (iter_hroster st) = skipped ++ l_r :: rest ->
  Forall (fun l => exists r, HrosterRecord_init (split l) = Ok r
                             /\ hroster_timestamp r < hdb_timestamp hdb)
         skipped ->
  HrosterRecord_init (split l_r) = Ok hroster ->
  hdb_timestamp hdb < hroster_timestamp hroster ->
  while_true system folder_group game_type (l :: ls) e st
  = while_true system folder_group game_type ls e
      (with_hroster st {| lines := rest; on_end := on_end (iter_hroster st) |}).
Proof.
  intros Hd Hl Hall Hr Hlt. simpl. unfold iteration, inner_try, candidate.
  rewrite Hd, Hl.
  rewrite (seek_hroster_found _ _ _ _ _ _ Hall Hr) by lia.
  apply Z.ltb_lt in Hlt. now rewrite Hlt.
Qed.

(** On a roster file that lacks the line of the first hand, the line of
    the second hand is used up by the first, and both hands are lost. *)
Lemma roster_overshoot_consumes_record_witness :
  while_true "Linux" "holdem/199601" "holdem" [hdb_094; hdb_127] StopIteration
             start_roster_gap
  = while_true "Linux" "holdem/199601" "holdem" [hdb_127] StopIteration
      (with_hroster start_roster_gap
         {| lines := []; on_end := on_end (iter_hroster start_roster_gap) |})
  /\ hands (fst (while_true "Linux" "holdem/199601" "holdem"
                            [hdb_094; hdb_127] StopIteration start_roster_gap))
     = [].
Proof.
  split; [|vm_compute; reflexivity].
  eapply (roster_overshoot_consumes_record "Linux" "holdem/199601" "holdem"
            hdb_094 [hdb_127] StopIteration start_roster_gap _ []
            hroster_127 []).
  - vm_compute. reflexivity.
  - vm_compute. reflexivity.
  - constructor.
  - vm_compute. reflexivity.
  - vm_compute. reflexivity.
Defined.

(** X6. A roster line with fewer than two tokens (a blank line, say) met
    by the search ends the merge of the group with [IndexError]: nothing
    is emitted for the hand record at hand, and the remaining lines [ls]
    of the hand file are never read. *)
Theorem short_roster_line_ends_group
    (system folder_group game_type : string) (l : string) (ls : list string)
    (e : exn) (st : state) (hdb : HdbRecord) (skipped : list string)
    (bad : string) (rest : list string) :
  HdbRecord_init (split l) = Ok hdb ->
  lines (iter_hroster st) = skipped ++ bad :: rest ->
  Forall (fun l => exists r, HrosterRecord_init (split l) = Ok r
                             /\ hroster_timestamp r < hdb_timestamp hdb)
         skipped ->
  (length (split bad) < 2)%nat ->
  while_true system folder_group game_type (l :: ls) e st
  = (with_hroster st {| lines := rest; on_end := on_end (iter_hroster st) |},
     IndexError).
Proof.
  intros Hd Hl Hall Hbad. apply HrosterRecord_init_short in Hbad.
  apply while_true_raise; [|discriminate].
  unfold inner_try, candidate. rewrite Hd, Hl.
  now rewrite (seek_hroster_bad_line _ _ _ _ _ _ Hall Hbad).
Qed.

Lemma short_roster_line_ends_group_witness :
  while_true "Linux" "holdem/199601" "holdem" [hdb_094; hdb_127]
             StopIteration start_blank_roster_line
  = (with_hroster start_blank_roster_line
       {| lines := [hroster_094; hroster_127];
          on_end := on_end (iter_hroster start_blank_roster_line) |},
     IndexError).
Proof.
  eapply (short_roster_line_ends_group "Linux" "holdem/199601" "holdem"
            hdb_094 [hdb_127] StopIteration start_blank_roster_line _ [] ""
            [hroster_094; hroster_127]).
  - vm_compute. reflexivity.
  - vm_compute. reflexivity.
  - constructor.
  - vm_compute. lia.
Defined.

(** ** The loop over the listed players, once more *)

Lemma dict_get_set_other {V : Type} (p q : string) (v : V) (d : dict V) :
  p <> q -> dict_get p (dict_set q v d) = dict_get p d.
Proof.
  intros Hpq. induction d as [|[k w] d IH]; simpl.
  - destruct (String.eqb p q) eqn:E; [|reflexivity].
    apply String.eqb_eq in E. contradiction.
  - destruct (String.eqb q k) eqn:E; simpl.
    + apply String.eqb_eq in E. subst k.
      destruct (String.eqb p q) eqn:E'; [|reflexivity].
      apply String.eqb_eq in E'. contradiction.
    + now rewrite IH.
Qed.

Lemma dict_get_Some_neq {V : Type} (p q : string) (d : dict V) (v : V) :
  dict_get p d = None -> dict_get q d = Some v -> p <> q.
Proof. intros Hp Hq ->. congruence. Qed.

(** A listed player without a current record (no file was opened under
    that name) keeps the loop over the players from completing. *)
Lemma match_players_unknown (ts : Z) (player : string) (roster : list string) :
  forall ip pd c r ip' pd',
    In player roster -> dict_get player pd = None ->
    match_players ts roster ip pd c = (r, ip', pd') ->
    forall c', r <> Ok (Some c').
Proof.
  induction roster as [|q roster IH]; intros ip pd c r ip' pd' Hin Hp H c';
    [destruct Hin|].
  simpl in H. destruct (dict_get q pd) as [cur|] eqn:G.
  2:{ injection H as <- _ _. discriminate. }
  destruct Hin as [->|Hin]; [congruence|].
  destruct (seek_pdb ts cur _ _) as [[[u|x] cur'] ls'].
  - destruct (pdb_timestamp cur' >? ts).
    + injection H as <- _ _. discriminate.
    + refine (IH _ _ _ _ _ _ Hin _ H c').
      rewrite dict_get_set_other; [assumption|].
      exact (dict_get_Some_neq _ _ _ _ Hp G).
  - injection H as <- _ _. discriminate.
Qed.

(** X7. A hand record whose roster record lists a player for whom the
    group holds no player file is never emitted: whatever the turn of the
    loop does with the other players, the result list is the same after
    it as before. *)
Theorem unknown_player_never_emitted
    (system folder_group game_type : string) (l : string) (st st' : state)
    (r : res unit) (hdb : HdbRecord) (hroster : HrosterRecord) (it : file)
    (player : string) :
  HdbRecord_init (split l) = Ok hdb ->
  seek_hroster (hdb_timestamp hdb) (lines (iter_hroster st))
               (on_end (iter_hroster st)) = (Ok hroster, it) ->
  In player (hroster_players hroster) ->
  dict_get player (pdb st) = None ->
  iteration system folder_group game_type l st = (st', r) ->
  hands st' = hands st.
Proof.
  intros Hd Hs Hin Hp. unfold iteration, inner_try, candidate.
  rewrite Hd, Hs.
  destruct (_ <? _); [now intros [= <- _]|].
  destruct (_ =? _); simpl; [|now intros [= <- _]].
  destruct (_ =? _); simpl; [|now intros [= <- _]].
  destruct (match_players _ _ _ _ _) as [[m ip] pd] eqn:M.
  pose proof (match_players_unknown _ _ _ _ _ _ _ _ _ Hin Hp M) as Hm.
  destruct m as [[c|]|x].
  - now destruct (Hm c).
  - now intros [= <- _].
  - destruct x; now intros [= <- _].
Qed.

Lemma unknown_player_never_emitted_witness :
  hands (fst (iteration "Linux" "holdem/199601" "holdem" hdb_094
                        start_Jak_only))
  = hands start_Jak_only.
Proof.
  destruct (iteration "Linux" "holdem/199601" "holdem" hdb_094 start_Jak_only)
    as [st' r] eqn:E.
  eapply (unknown_player_never_emitted "Linux" "holdem/199601" "holdem"
            hdb_094 start_Jak_only st' r _ _ _ "num").
  - vm_compute. reflexivity.
  - vm_compute. reflexivity.
  - vm_compute. right. left. reflexivity.
  - vm_compute. reflexivity.
  - exact E.
Defined.

Lemma dict_set_new {V : Type} (k : string) (v : V) (d : dict V) :
  ~ In k (keys d) -> dict_set k v d = d ++ [(k, v)].
Proof.
  unfold keys. induction d as [|[k' v'] d IH]; simpl; intros H; [reflexivity|].
  destruct (String.eqb k k') eqn:E.
  - apply String.eqb_eq in E. subst. destruct H. now left.
  - rewrite IH; [reflexivity|]. intros Hin. apply H. now right.
Qed.

(** When every listed player's file, from where it stands, reaches a
    record of the timestamp looked for, the loop over the players
    completes and collects these records in roster order. *)
Lemma match_players_aligned (ts : Z) (found : string -> PdbRecord)
    (roster : list string) :
  forall ip pd curr,
    NoDup roster ->
    (forall p, In p roster -> ~ In p (keys curr)) ->
    (forall p, In p roster ->
       exists cur ls',
         dict_get p pd = Some cur
         /\ seek_pdb ts cur (lines (lookup_iter p ip)) (on_end (lookup_iter p ip))
            = (Ok tt, found p, ls')
         /\ pdb_timestamp (found p) = ts) ->
    exists ip' pd',
      match_players ts roster ip pd curr
      = (Ok (Some (curr ++ map (fun p => (p, found p)) roster)), ip', pd').
Proof.
  induction roster as [|p roster IH]; intros ip pd curr Hnd Hnew Hall; simpl.
  - rewrite app_nil_r. eauto.
  - destruct (Hall p (or_introl eq_refl)) as (cur & ls' & Hg & Hs & Hts).
    rewrite Hg, Hs.
    assert ((pdb_timestamp (found p) >? ts) = false) as -> by lia.
    rewrite (dict_set_new p (found p) curr) by (apply Hnew; now left).
    inversion Hnd as [|? ? Hp Hnd']; subst.
    destruct (IH (advance_iter p ls' ip) (dict_set p (found p) pd)
                 (curr ++ [(p, found p)]) Hnd') as (ip' & pd' & Hm).
    + intros q Hq Hin. unfold keys in Hin. rewrite map_app in Hin.
      apply in_app_or in Hin as [Hin|[<-|[]]].
      * apply (Hnew q); [now right|assumption].
      * contradiction.
    + intros q Hq. assert (Hqp : q <> p) by (intros ->; contradiction).
      destruct (Hall q (or_intror Hq)) as (cur_q & ls_q & Hgq & Hsq & Htq).
      exists cur_q, ls_q.
      rewrite dict_get_set_other, lookup_iter_advance_other by assumption.
      now repeat split.
    + exists ip', pd'. rewrite Hm, <- app_assoc. reflexivity.
Qed.

(** X8. When the roster search stops at a record with the hand record's
    timestamp and player count that lists no player twice, and every
    listed player's file, from where it stands, reaches a record of that
    timestamp, the turn of the loop emits exactly one hand: the hand built
    from the hand record and these players' records, in roster order. *)
Theorem aligned_hand_is_emitted
    (system folder_group game_type : string) (l : string) (st : state)
    (hdb : HdbRecord) (hroster : HrosterRecord) (it : file)
    (found : string -> PdbRecord) :
  HdbRecord_init (split l) = Ok hdb ->
  seek_hroster (hdb_timestamp hdb) (lines (iter_hroster st))
               (on_end (iter_hroster st)) = (Ok hroster, it) ->
  hdb_timestamp hdb = hroster_timestamp hroster ->
  hdb_num_players hdb = hroster_num_players hroster ->
  NoDup (hroster_players hroster) ->
  (forall p, In p (hroster_players hroster) ->
     exists cur ls',
       dict_get p (pdb st) = Some cur
       /\ seek_pdb (hdb_timestamp hdb) cur
                   (lines (lookup_iter p (iter_pdb st)))
                   (on_end (lookup_iter p (iter_pdb st)))
          = (Ok tt, found p, ls')
       /\ pdb_timestamp (found p) = hdb_timestamp hdb) ->
  exists st',
    iteration system folder_group game_type l st = (st', Ok tt)
    /\ hands st'
       = hands st
         ++ [make_hand system folder_group game_type hdb
                       (map (fun p => (p, found p)) (hroster_players hroster))].
Proof.
  intros Hd Hs Hts Hnp Hnd Hall.
  destruct (match_players_aligned (hdb_timestamp hdb) found
              (hroster_players hroster) (iter_pdb st) (pdb st) [] Hnd
              (fun _ _ F => F) Hall) as (ip' & pd' & Hm).
  unfold iteration, inner_try, candidate. rewrite Hd, Hs.
  rewrite Hts, Z.ltb_irrefl, Z.eqb_refl. simpl.
  rewrite Hnp, Z.eqb_refl. simpl.
  rewrite <- Hts. simpl in Hm. rewrite Hm.
  rewrite length_map, Nat.eqb_refl. simpl.
  assert (forallb (fun v => pdb_timestamp v =? hdb_timestamp hdb)
                  (values (map (fun p => (p, found p)) (hroster_players hroster)))
          = true) as ->.
  { apply forallb_forall. intros v Hv. unfold values in Hv.
    rewrite map_map in Hv. apply in_map_iff in Hv as (p & <- & Hp). simpl.
    destruct (Hall p Hp) as (_ & _ & _ & _ & ->). apply Z.eqb_refl. }
  simpl. eexists. split; reflexivity.
Qed.

Lemma aligned_hand_is_emitted_witness :
  exists st',
    iteration "Linux" "holdem/199601" "holdem" hdb_094 start_heads_up
    = (st', Ok tt)
    /\ hands st' = [hand_094].
Proof.
  destruct (aligned_hand_is_emitted "Linux" "holdem/199601" "holdem" hdb_094
              start_heads_up (hdb_record_of_line hdb_094)
              {| hroster_timestamp := 820830094; hroster_num_players := 2;
                 hroster_players := ["Jak"; "num"] |}
              {| lines := []; on_end := StopIteration |}
              found_094) as (st' & H1 & H2).
  - vm_compute. reflexivity.
  - vm_compute. reflexivity.
  - vm_compute. reflexivity.
  - vm_compute. reflexivity.
  - repeat constructor; simpl; intuition discriminate.
  - intros p [<-|[<-|[]]]; eexists _, _; repeat split; vm_compute; reflexivity.
  - exists st'. split; [exact H1|]. rewrite H2. vm_compute. reflexivity.
Defined.

(** ** What the emitted hands are made of *)

(** X9. Every hand a group returns reads one line of the hand file that
    decodes: the hand carries the group's game type and the identifier
    made from the line's timestamp; its board is made of the tokens after
    the eighth, five at most, each matching the card pattern; its pots
    are four, tagged f, t, r and s, each holding the two numbers, never
    negative, of one of the tokens five to eight. *)
Theorem emitted_hand_reads_one_hdb_line
    (system folder_group game_type : string) (tar_group : tar file)
    (hs : list Hand) (hand : Hand) :
  extract_and_merge system folder_group game_type tar_group = Ok hs ->
  In hand hs ->
  exists file_hdb l_h hdb,
    extractfile (folder_group ++ SLASH_str system ++ "hdb") tar_group
    = Ok (Some file_hdb)
    /\ In l_h (lines file_hdb) /\ HdbRecord_init (split l_h) = Ok hdb
    /\ game hand = game_type
    /\ _id hand = make_id system folder_group (hdb_timestamp hdb)
    /\ 100000000 <= hdb_timestamp hdb <= 999999999
    /\ board hand = firstn 5 (skipn 8 (split l_h))
    /\ Forall (fun c => Card c = true) (board hand)
    /\ map pot_stage (pots hand) = ["f"; "t"; "r"; "s"]%string
    /\ Forall2 (fun tok pot =>
                  exists n s,
                    tok = (n ++ "/" ++ s)%string
                    /\ is_digits n = true /\ is_digits s = true
                    /\ pot_num_players pot = digits_val 0 n
                    /\ pot_size pot = digits_val 0 s)
               (firstn 4 (skipn 4 (split l_h))) (pots hand)
    /\ Forall (fun pot => 0 <= pot_num_players pot /\ 0 <= pot_size pot)
              (pots hand).
Proof.
  intros H Hin.
  destruct (extract_and_merge_spec _ _ _ _ _ H)
    as [->|(file_hdb & file_hroster & ip0 & (Hg & _) & Hs)]; [destruct Hin|].
  destruct (emitted_seq_In _ _ _ _ _ _ _ Hs _ Hin) as (l_h & Hl & Hem).
  destruct Hem as (hdb & _ & _ & pdb_curr & Hd & _ & _ & _ & _ & _ & _ & _ & ->).
  destruct (HdbRecord_init_tokens _ _ Hd) as (T1 & T2 & T3).
  destruct (HdbRecord_init_pots _ _ Hd) as (P1 & P2 & P3).
  exists file_hdb, l_h, hdb. cbn [game _id board pots make_hand].
  rewrite <- T2.
  repeat (split; [first [assumption | reflexivity | lia]|]). assumption.
Qed.

Lemma emitted_hand_reads_one_hdb_line_witness :
  exists file_hdb l_h hdb,
    extractfile ("holdem/199601" ++ SLASH_str "Linux" ++ "hdb") heads_up
    = Ok (Some file_hdb)
    /\ In l_h (lines file_hdb) /\ HdbRecord_init (split l_h) = Ok hdb
    /\ game hand_094 = "holdem"%string
    /\ _id hand_094 = make_id "Linux" "holdem/199601" (hdb_timestamp hdb)
    /\ board hand_094 = firstn 5 (skipn 8 (split l_h))
    /\ map pot_stage (pots hand_094) = ["f"; "t"; "r"; "s"]%string.
Proof.
  destruct (emitted_hand_reads_one_hdb_line "Linux" "holdem/199601" "holdem"
              heads_up [hand_094] hand_094)
    as (file_hdb & l_h & hdb & H1 & H2 & H3 & H4 & H5 & _ & H7 & _ & H9 & _).
  - vm_compute. reflexivity.
  - left. reflexivity.
  - exists file_hdb, l_h, hdb. repeat (split; [assumption|]). assumption.
Defined.

(** X10. In every hand a group returns, each player's entry is built from
    one line of that player's own file, and that line bears the timestamp
    of the hand-file line the hand is built from; the entry has four
    bets, tagged p, f, t and r, whose actions match the action pattern,
    and its pocket cards match the card pattern. *)
Theorem emitted_players_read_aligned_lines
    (system folder_group game_type : string) (tar_group : tar file)
    (hs : list Hand) (hand : Hand) :
  extract_and_merge system folder_group game_type tar_group = Ok hs ->
  In hand hs ->
  exists file_hdb file_hroster ip0 l_h hdb,
    group_files system folder_group tar_group file_hdb file_hroster ip0
    /\ In l_h (lines file_hdb) /\ HdbRecord_init (split l_h) = Ok hdb
    /\ _id hand = make_id system folder_group (hdb_timestamp hdb)
    /\ forall k p, In (k, p) (players hand) ->
         exists f0 l v,
           In (k, f0) ip0 /\ In l (lines f0)
           /\ PdbRecord_init (split l) = Ok v
           /\ pdb_timestamp v = hdb_timestamp hdb
           /\ p = make_player v
           /\ map bet_stage (bets p) = ["p"; "f"; "t"; "r"]%string
           /\ Forall (fun a => Action a = true) (map bet_actions (bets p))
           /\ Forall (fun c => Card c = true) (pocket_cards p).
Proof.
  intros H Hin.
  destruct (extract_and_merge_spec _ _ _ _ _ H)
    as [->|(file_hdb & file_hroster & ip0 & Hg & Hs)]; [destruct Hin|].
  destruct (emitted_seq_In _ _ _ _ _ _ _ Hs _ Hin) as (l_h & Hl & Hem).
  destruct Hem as (hdb & _ & _ & pdb_curr & Hd & _ & _ & _ & _ & _ & _
                   & Hall & ->).
  exists file_hdb, file_hroster, ip0, l_h, hdb.
  repeat (split; [first [assumption | reflexivity]|]).
  intros k p Hp. apply players_make_hand in Hp as (v & Hv & ->).
  destruct (Hall _ _ Hv) as (Hts & f0 & l & Hf & Hl' & Hdv).
  destruct (PdbRecord_init_tokens _ _ Hdv) as (_ & B1 & _ & B3 & _ & B5).
  exists f0, l, v. simpl.
  repeat (split; [first [assumption | reflexivity]|]). assumption.
Qed.

Lemma emitted_players_read_aligned_lines_witness :
  exists file_hdb file_hroster ip0 l_h hdb,
    group_files "Linux" "holdem/199601" two_hands file_hdb file_hroster ip0
    /\ In l_h (lines file_hdb) /\ HdbRecord_init (split l_h) = Ok hdb
    /\ _id hand_127 = make_id "Linux" "holdem/199601" (hdb_timestamp hdb)
    /\ forall k p, In (k, p) (players hand_127) ->
         exists f0 l v,
           In (k, f0) ip0 /\ In l (lines f0)
           /\ PdbRecord_init (split l) = Ok v
           /\ pdb_timestamp v = hdb_timestamp hdb
           /\ p = make_player v.
Proof.
  destruct (emitted_players_read_aligned_lines "Linux" "holdem/199601" "holdem"
              two_hands [hand_094; hand_127] hand_127)
    as (file_hdb & file_hroster & ip0 & l_h & hdb & H1 & H2 & H3 & H4 & H5).
  - vm_compute. reflexivity.
  - right. left. reflexivity.
  - exists file_hdb, file_hroster, ip0, l_h, hdb.
    repeat (split; [assumption|]).
    intros k p Hp. destruct (H5 k p Hp) as (f0 & l & v & ? & ? & ? & ? & ? & _).
    exists f0, l, v. repeat (split; [assumption|]). assumption.
Defined.

Lemma emitted_seq_length (system folder_group game_type : string)
    (ip0 : dict file) (roster_lines ls : list string) (hs : list Hand) :
  emitted_seq system folder_group game_type ip0 roster_lines ls hs ->
  (length hs <= length (hdb_timestamps ls))%nat.
Proof.
  induction 1 as [ls|l ls hs _ IH|l ls hand hs Hem _ IH]; simpl.
  - lia.
  - destruct (HdbRecord_init (split l)); simpl; lia.
  - destruct Hem as (hdb & _ & _ & _ & Hd & _). rewrite Hd. simpl. lia.
Qed.

(** X11. A group returns at most as many hands as its hand file has lines
    that decode. *)
Theorem at_most_one_hand_per_hdb_line
    (system folder_group game_type : string) (tar_group : tar file)
    (file_hdb : file) (hs : list Hand) :
  extractfile (folder_group ++ SLASH_str system ++ "hdb") tar_group
  = Ok (Some file_hdb) ->
  extract_and_merge system folder_group game_type tar_group = Ok hs ->
  (length hs <= length (hdb_timestamps (lines file_hdb)))%nat.
Proof.
  intros Hf H.
  destruct (extract_and_merge_spec _ _ _ _ _ H)
    as [->|(file_hdb' & file_hroster & ip0 & (Hg & _) & Hs)]; [simpl; lia|].
  rewrite Hf in Hg. injection Hg as <-.
  exact (emitted_seq_length _ _ _ _ _ _ _ Hs).
Qed.

Lemma at_most_one_hand_per_hdb_line_witness :
  (length [hand_094; hand_127]
   <= length (hdb_timestamps [hdb_094; hdb_127]))%nat.
Proof.
  apply (at_most_one_hand_per_hdb_line "Linux" "holdem/199601" "holdem"
           two_hands (regular [hdb_094; hdb_127]) [hand_094; hand_127]).
  - vm_compute. reflexivity.
  - vm_compute. reflexivity.
Defined.

(** ** Groups that yield nothing *)

Lemma first_records_raises (k : string) (f : file) (ip : dict file) :
  In (k, f) ip ->
  match lines f with
  | [] => True
  | l :: _ => exists x, PdbRecord_init (split l) = Raise x
  end ->
  exists x, first_records ip = Raise x.
Proof.
  intros Hin Hbad. induction ip as [|[k' f'] ip IH]; [destruct Hin|].
  simpl. unfold next.
  destruct Hin as [[= -> ->]|Hin].
  - destruct (lines f) as [|l ls]; [eauto|].
    destruct Hbad as (x & ->). eauto.
  - destruct (lines f') as [|l ls]; [eauto|].
    destruct (PdbRecord_init (split l)); [|eauto].
    destruct (IH Hin) as (x & ->). eauto.
Qed.

(** X12. When one player file of a group, whoever the player, is empty or
    starts with a line that does not decode, the group returns no hand at
    all: the first line of every player file is read and decoded before
    the merge starts, outside the handler that skips malformed lines. *)
Theorem unreadable_first_player_line_empties_group
    (system folder_group game_type : string) (tar_group : tar file)
    (ip0 : dict file) (k : string) (f : file) :
  open_pdb ("pdb" ++ SLASH_str system ++ "pdb.") tar_group
           (getnames tar_group) [] = Ok ip0 ->
  In (k, f) ip0 ->
  match lines f with
  | [] => True
  | l :: _ => exists x, PdbRecord_init (split l) = Raise x
  end ->
  extract_and_merge system folder_group game_type tar_group = Ok [].
Proof.
  intros Ho Hin Hbad. rewrite extract_and_merge_hands. f_equal.
  unfold try_body.
  destruct (extractfile (folder_group ++ SLASH_str system ++ "hdb") tar_group)
    as [[file_hdb|]|]; try reflexivity.
  destruct (extractfile (folder_group ++ SLASH_str system ++ "hroster") tar_group)
    as [[file_hroster|]|]; try reflexivity.
  rewrite Ho. destruct (first_records_raises _ _ _ Hin Hbad) as (x & ->).
  reflexivity.
Qed.

Lemma unreadable_first_player_line_empties_group_witness :
  extract_and_merge "Linux" "holdem/199601" "holdem" empty_bystander_file
  = Ok [].
Proof.
  eapply (unreadable_first_player_line_empties_group "Linux" "holdem/199601"
            "holdem" empty_bystander_file _ "zed" (regular [])).
  - vm_compute. reflexivity.
  - right. right. left. reflexivity.
  - exact I.
Defined.

Lemma find_none_all {A : Type} (p : A -> bool) (l : list A) :
  (forall x, In x l -> p x = false) -> find p l = None.
Proof.
  induction l as [|a l IH]; intros H; simpl; [reflexivity|].
  rewrite (H a (or_introl eq_refl)). apply IH. intros x Hx. apply H. now right.
Qed.

Lemma extractfile_absent {A : Type} (name : string) (t : tar A) :
  ~ In name (getnames t) -> extractfile name t = Raise KeyError.
Proof.
  intros H. unfold extractfile, getmember.
  rewrite find_none_all; [reflexivity|].
  intros [n m] Hin. apply in_rev in Hin. simpl.
  destruct (String.eqb n name) eqn:E; [|reflexivity].
  apply String.eqb_eq in E. subst n. destruct H.
  unfold getnames. now apply (in_map fst t (name, m)).
Qed.

(** X13. A group archive that has no member for the hand file, or none
    for the roster file, returns no hand, and does not raise. *)
Theorem missing_member_empties_group
    (system folder_group game_type : string) (tar_group : tar file) :
  ~ In (folder_group ++ SLASH_str system ++ "hdb")%string (getnames tar_group)
  \/ ~ In (folder_group ++ SLASH_str system ++ "hroster")%string
          (getnames tar_group) ->
  extract_and_merge system folder_group game_type tar_group = Ok [].
Proof.
  intros H. rewrite extract_and_merge_hands. f_equal. unfold try_body.
  destruct H as [H|H].
  - now rewrite (extractfile_absent _ _ H).
  - destruct (extractfile (folder_group ++ SLASH_str system ++ "hdb") tar_group)
      as [[file_hdb|]|]; try reflexivity.
    now rewrite (extractfile_absent _ _ H).
Qed.

Lemma missing_member_empties_group_witness :
  extract_and_merge "Linux" "holdem/199601" "holdem" no_roster = Ok [].
Proof.
  apply (missing_member_empties_group "Linux" "holdem/199601" "holdem" no_roster).
  right. vm_compute. intuition discriminate.
Defined.

(** ** Group names and identifiers *)

Lemma rev_string_acc (s : string) :
  forall acc, rev_string acc s = (rev_string "" s ++ acc)%string.
Proof.
  induction s as [|c s IH]; intros acc; simpl; [reflexivity|].
  rewrite IH, (IH (String c "")), string_app_assoc. reflexivity.
Qed.

Lemma rev_string_cons (c : ascii) (s : string) :
  rev_string "" (String c s) = (rev_string "" s ++ String c "")%string.
Proof. simpl. apply rev_string_acc. Qed.

Lemma rev_string_app (a b : string) :
  rev_string "" (a ++ b) = (rev_string "" b ++ rev_string "" a)%string.
Proof.
  induction a as [|c a IH]; simpl.
  - now rewrite string_app_nil_r.
  - rewrite (rev_string_acc (a ++ b) (String c "")), IH.
    rewrite (rev_string_acc a (String c "")).
    now rewrite string_app_assoc.
Qed.

Lemma rev_string_involutive (s : string) :
  rev_string "" (rev_string "" s) = s.
Proof.
  induction s as [|c s IH]; simpl; [reflexivity|].
  rewrite (rev_string_acc s (String c "")), rev_string_app, IH. reflexivity.
Qed.

Lemma prefix_app (p s : string) : prefix p (p ++ s) = true.
Proof.
  induction p as [|c p IH]; simpl; [now destruct s|].
  destruct (ascii_dec c c); [exact IH|contradiction].
Qed.

Lemma endswith_app (s suffix : string) : endswith (s ++ suffix) suffix = true.
Proof. unfold endswith. rewrite rev_string_app. apply prefix_app. Qed.

Lemma char_in_app (c : ascii) (a b : string) :
  char_in c (a ++ b) = char_in c a || char_in c b.
Proof.
  induction a as [|c' a IH]; simpl; [reflexivity|].
  rewrite IH. now rewrite orb_assoc.
Qed.

Lemma char_in_rev (c : ascii) (s : string) :
  char_in c (rev_string "" s) = char_in c s.
Proof.
  induction s as [|c' s IH]; simpl; [reflexivity|].
  rewrite (rev_string_acc s (String c' "")), char_in_app, IH. simpl.
  rewrite orb_false_r. apply orb_comm.
Qed.

Lemma split1_first (c : ascii) (a : string) :
  forall cur b,
    char_in c a = false -> split1 c cur (a ++ String c b) = [(cur ++ a)%string; b].
Proof.
  induction a as [|c' a IH]; intros cur b H; simpl.
  - rewrite Ascii.eqb_refl. now rewrite string_app_nil_r.
  - simpl in H. apply orb_false_elim in H as [Hc Ha].
    rewrite Ascii.eqb_sym, Hc. rewrite IH by assumption.
    now rewrite string_app_assoc.
Qed.

Lemma rsplit1_last (c : ascii) (dir rest : string) :
  char_in c rest = false ->
  rsplit1 c (dir ++ String c rest) = [dir; rest].
Proof.
  intros H. unfold rsplit1.
  rewrite rev_string_app, rev_string_cons, string_app_assoc.
  change (String c "" ++ rev_string "" dir)%string
    with (String c (rev_string "" dir)).
  rewrite split1_first by now rewrite char_in_rev.
  cbn [append]. now rewrite !rev_string_involutive.
Qed.

Lemma replace_app (a b : ascii) (s t : string) :
  replace a b (s ++ t) = (replace a b s ++ replace a b t)%string.
Proof. induction s as [|c s IH]; simpl; [reflexivity|]. now rewrite IH. Qed.

Lemma replace_absent (a b : ascii) (s : string) :
  char_in a s = false -> replace a b s = s.
Proof.
  induction s as [|c s IH]; simpl; [reflexivity|].
  intros H. apply orb_false_elim in H as [Hc Hs].
  rewrite Ascii.eqb_sym, Hc, IH by assumption. reflexivity.
Qed.

Lemma replace_removes (a b : ascii) (s : string) :
  a <> b -> char_in a (replace a b s) = false.
Proof.
  intros Hab. induction s as [|c s IH]; simpl; [reflexivity|].
  rewrite IH, orb_false_r.
  destruct (Ascii.eqb c a) eqn:E.
  - now apply Ascii.eqb_neq.
  - now rewrite Ascii.eqb_sym.
Qed.

Lemma rstrip_suffix (set stem suffix : string) (c : ascii) :
  char_in c set = false ->
  all_chars (fun x => char_in x set) suffix = true ->
  rstrip set ((stem ++ String c "") ++ suffix) = (stem ++ String c "")%string.
Proof.
  intros Hc Hs. unfold rstrip. rewrite rev_string_app.
  assert (Hl : forall t, all_chars (fun x => char_in x set) t = true ->
               forall u, lstrip set (t ++ u) = lstrip set u).
  { induction t as [|x t IH]; intros Ht u; simpl; [reflexivity|].
    simpl in Ht. apply andb_prop in Ht as [Hx Ht]. rewrite Hx. now apply IH. }
  rewrite Hl.
  - rewrite rev_string_app. cbn [rev_string append lstrip]. rewrite Hc.
    change (String c (rev_string "" stem))
      with (rev_string "" (String c "") ++ rev_string "" stem)%string.
    rewrite <- (rev_string_app stem (String c "")).
    apply rev_string_involutive.
  - clear -Hs. induction suffix as [|x s IH]; simpl in *; [reflexivity|].
    apply andb_prop in Hs as [Hx Hs].
    rewrite (rev_string_acc s (String x "")).
    rewrite all_chars_app, IH by assumption. simpl. now rewrite Hx.
Qed.

Lemma SLASH_cases (system : string) :
  SLASH system = "\"%char \/ SLASH system = "/"%char.
Proof. unfold SLASH. destruct (String.eqb system "Windows"); auto. Qed.

(** The parts [_extract_single_group] cuts a name of the usual shape in:
    [dir], separator, [game], dot, [period], [.tgz]. *)
Lemma standard_name_parts (system dir game period' : string) (c : ascii) :
  char_in (SLASH system) game = false ->
  char_in "." game = false ->
  char_in (SLASH system) (period' ++ String c "") = false ->
  char_in c ".tgz" = false ->
  let fname := (game ++ "." ++ (period' ++ String c "") ++ ".tgz")%string in
  let name := (dir ++ SLASH_str system ++ fname)%string in
  endswith name ".tgz" = true
  /\ rsplit1 (SLASH system) name = [dir; fname]
  /\ hd "" (split1 "." "" fname) = game
  /\ replace "." (SLASH system) (rstrip ".tgz" fname)
     = (game ++ SLASH_str system
        ++ replace "." (SLASH system) (period' ++ String c ""))%string.
Proof.
  intros Hg Hd Hp Hc fname name. subst fname name.
  assert (Hs : char_in (SLASH system) ".tgz" = false
               /\ char_in (SLASH system) "." = false).
  { destruct (SLASH_cases system) as [-> | ->]; now split. }
  destruct Hs as [Hs1 Hs2].
  split; [|split; [|split]].
  - replace (dir ++ SLASH_str system ++ game ++ "." ++ (period' ++ String c "")
             ++ ".tgz")%string
      with ((dir ++ SLASH_str system ++ game ++ "." ++ (period' ++ String c ""))
            ++ ".tgz")%string by now rewrite !string_app_assoc.
    apply endswith_app.
  - apply rsplit1_last.
    rewrite char_in_app, Hg. cbn [append char_in orb].
    rewrite (char_in_app (SLASH system) (period' ++ String c "") ".tgz").
    rewrite Hp, Hs1. cbn [char_in] in Hs2.
    apply orb_false_elim in Hs2 as [-> _]. reflexivity.
  - change ("." ++ (period' ++ String c "") ++ ".tgz")%string
      with (String "." ((period' ++ String c "") ++ ".tgz")).
    rewrite split1_first by assumption. reflexivity.
  - replace (game ++ "." ++ (period' ++ String c "") ++ ".tgz")%string
      with (((game ++ "." ++ period') ++ String c "") ++ ".tgz")%string
      by now rewrite !string_app_assoc.
    rewrite rstrip_suffix by (assumption || reflexivity).
    rewrite !string_app_assoc, !replace_app.
    rewrite (replace_absent _ _ game) by assumption. reflexivity.
Qed.

(** X14. For a member named [dir/game.period.tgz], where [game] holds
    neither separator nor dot, [period] holds no separator and does not
    end in one of the characters of [.tgz], and [game] is a known game
    type, the function runs the merge on the group archive stored under
    that name, with the game type [game] and the folder [game/period]
    (dots of [period] turned into separators). *)
Theorem standard_name_runs_the_group
    (system dir game period' : string) (c : ascii)
    (tar_in : tar (option (tar file))) (tar_group : tar file) :
  char_in (SLASH system) game = false ->
  char_in "." game = false ->
  char_in (SLASH system) (period' ++ String c "") = false ->
  char_in c ".tgz" = false ->
  mem_string game VALID_GAME_TYPES = true ->
  extractfile (dir ++ SLASH_str system ++ game ++ "."
               ++ (period' ++ String c "") ++ ".tgz") tar_in
  = Ok (Some (Some tar_group)) ->
  _extract_single_group system
    (dir ++ SLASH_str system ++ game ++ "." ++ (period' ++ String c "")
     ++ ".tgz") tar_in
  = extract_and_merge system
      (game ++ SLASH_str system
       ++ replace "." (SLASH system) (period' ++ String c ""))
      game tar_group.
Proof.
  intros Hg Hd Hp Hc Hv Hx.
  destruct (standard_name_parts system dir game period' c Hg Hd Hp Hc)
    as (P1 & P2 & P3 & P4).
  rewrite (_extract_single_group_in_phase system _ dir _ tar_in tar_group
             P1 P2); [|now rewrite P3|assumption].
  now rewrite P3, P4.
Qed.

Lemma standard_name_runs_the_group_witness :
  _extract_single_group "Linux" "IRCdata/holdem.199601.tgz"
                        (top_level two_hands)
  = extract_and_merge "Linux" "holdem/199601" "holdem" two_hands.
Proof.
  apply (standard_name_runs_the_group "Linux" "IRCdata" "holdem" "19960" "1"
           (top_level two_hands) two_hands); reflexivity.
Defined.

(** X15. For a member named [dir/game.period.tgz] of the same shape whose
    [game] is not a known game type, the function returns no hand without
    looking into the archive. *)
Theorem unknown_game_type_yields_nothing
    (system dir game period' : string) (c : ascii)
    (tar_in : tar (option (tar file))) :
  char_in (SLASH system) game = false ->
  char_in "." game = false ->
  char_in (SLASH system) (period' ++ String c "") = false ->
  char_in c ".tgz" = false ->
  mem_string game VALID_GAME_TYPES = false ->
  _extract_single_group system
    (dir ++ SLASH_str system ++ game ++ "." ++ (period' ++ String c "")
     ++ ".tgz") tar_in
  = Ok [].
Proof.
  intros Hg Hd Hp Hc Hv.
  destruct (standard_name_parts system dir game period' c Hg Hd Hp Hc)
    as (P1 & P2 & P3 & _).
  unfold _extract_single_group. rewrite P1, P2.
  cbv beta iota zeta delta [negb length Nat.ltb Nat.leb nth_error].
  now rewrite P3, Hv.
Qed.

Lemma unknown_game_type_yields_nothing_witness :
  _extract_single_group "Linux" "IRCdata/stud.199601.tgz" [] = Ok [].
Proof.
  apply (unknown_game_type_yields_nothing "Linux" "IRCdata" "stud" "19960" "1"
           []); reflexivity.
Defined.

Lemma string_of_uint_digits (d : Decimal.uint) :
  all_chars is_digit (NilEmpty.string_of_uint d) = true.
Proof. induction d; simpl; auto. Qed.

Lemma str_chars (z : Z) :
  all_chars (fun x => char_in x "-0123456789") (str z) = true.
Proof.
  assert (H : forall s, all_chars is_digit s = true ->
              all_chars (fun x => char_in x "-0123456789") s = true).
  { induction s as [|x s IH]; [reflexivity|]. cbn [all_chars].
    intros Hx. apply andb_prop in Hx as [Hx Hs]. rewrite (IH Hs), andb_true_r.
    change (char_in x "-0123456789")
      with (Ascii.eqb x "-" || char_in x "0123456789").
    unfold is_digit in Hx. rewrite Hx. apply orb_true_r. }
  unfold str, NilZero.string_of_int.
  destruct (Z.to_int z) as [d|d]; unfold NilZero.string_of_uint.
  - destruct d; try reflexivity; apply H, string_of_uint_digits.
  - simpl. destruct d; try reflexivity; apply H, string_of_uint_digits.
Qed.

Lemma str_no_separator (system : string) (z : Z) :
  char_in (SLASH system) (str z) = false.
Proof.
  pose proof (str_chars z) as H.
  induction (str z) as [|x s IH]; simpl in *; [reflexivity|].
  apply andb_prop in H as [Hx Hs]. rewrite (IH Hs), orb_false_r.
  destruct (SLASH_cases system) as [-> | ->];
    destruct (Ascii.eqb _ x) eqn:E; try reflexivity;
    apply Ascii.eqb_eq in E; subst x; discriminate.
Qed.

(** X16. For a folder [game/period] whose two parts hold no separator,
    the identifier of a hand is [game_period_timestamp], the timestamp in
    decimal, on every platform. *)
Theorem id_of_standard_folder (system game period : string) (ts : Z) :
  char_in (SLASH system) game = false ->
  char_in (SLASH system) period = false ->
  make_id system (game ++ SLASH_str system ++ period) ts
  = (game ++ "_" ++ period ++ "_" ++ str ts)%string.
Proof.
  intros Hg Hp. unfold make_id.
  rewrite !string_app_assoc, !replace_app.
  rewrite (replace_absent _ _ game), (replace_absent _ _ period),
    (replace_absent _ _ (str ts)) by (assumption || apply str_no_separator).
  unfold SLASH_str. simpl. rewrite Ascii.eqb_refl. reflexivity.
Qed.

Lemma id_of_standard_folder_witness :
  make_id "Windows" ("holdem" ++ SLASH_str "Windows" ++ "199601") 820830094
  = "holdem_199601_820830094"%string.
Proof.
  apply (id_of_standard_folder "Windows" "holdem" "199601" 820830094);
    reflexivity.
Defined.

(** X17. No hand a group returns has a path separator in its identifier,
    whatever the folder. *)
Theorem emitted_ids_hold_no_separator
    (system folder_group game_type : string) (tar_group : tar file)
    (hs : list Hand) (hand : Hand) :
  extract_and_merge system folder_group game_type tar_group = Ok hs ->
  In hand hs ->
  char_in (SLASH system) (_id hand) = false.
Proof.
  intros H Hin.
  destruct (extract_and_merge_spec _ _ _ _ _ H)
    as [->|(file_hdb & file_hroster & ip0 & _ & Hs)]; [destruct Hin|].
  destruct (emitted_seq_In _ _ _ _ _ _ _ Hs _ Hin) as (l_h & _ & Hem).
  destruct Hem as (hdb & _ & _ & pdb_curr & _ & _ & _ & _ & _ & _ & _ & _ & ->).
  simpl. unfold make_id. apply replace_removes.
  destruct (SLASH_cases system) as [-> | ->]; discriminate.
Qed.

Lemma emitted_ids_hold_no_separator_witness :
  char_in (SLASH "Linux") (_id hand_094) = false.
Proof.
  apply (emitted_ids_hold_no_separator "Linux" "holdem/199601" "holdem"
           heads_up [hand_094] hand_094).
  - vm_compute. reflexivity.
  - left. reflexivity.
Defined.

(** ** The player files of a group *)

Lemma keys_add_In (k q : string) (ks : list string) :
  In q (keys_add k ks) <-> q = k \/ In q ks.
Proof.
  unfold keys_add. destruct (mem_string k ks) eqn:E.
  - apply mem_string_In in E. split; [auto|]. intros [->|H]; assumption.
  - rewrite in_app_iff. simpl. intuition.
Qed.

Lemma keys_add_NoDup (k : string) (ks : list string) :
  NoDup ks -> NoDup (keys_add k ks).
Proof.
  intros H. unfold keys_add. destruct (mem_string k ks) eqn:E; [assumption|].
  apply NoDup_app; [assumption|repeat constructor; intros []|].
  intros a Ha [<-|[]]. apply mem_string_In in Ha. congruence.
Qed.

Lemma open_pdb_spec (delimiter : string) (tar_group : tar file)
    (names : list string) :
  forall ip ip0,
    open_pdb delimiter tar_group names ip = Ok ip0 ->
    (NoDup (keys ip) -> NoDup (keys ip0))
    /\ (forall k, In k (keys ip0) <->
          In k (keys ip)
          \/ exists fname,
               In fname names /\ contains delimiter fname = true
               /\ k = last (str_split delimiter fname) "")
    /\ (forall k f, In (k, f) ip0 ->
          In (k, f) ip
          \/ exists fname,
               In fname names /\ contains delimiter fname = true
               /\ k = last (str_split delimiter fname) ""
               /\ extractfile fname tar_group = Ok (Some f)).
Proof.
  induction names as [|fname names IH]; intros ip ip0 H; simpl in H.
  - injection H as <-. split; [auto|]. split.
    + intros k. split; [auto|]. intros [H|(? & [] & _)]. assumption.
    + auto.
  - destruct (contains delimiter fname) eqn:C.
    + destruct (extractfile fname tar_group) as [[f|]|] eqn:E; try discriminate.
      destruct (IH _ _ H) as (I1 & I2 & I3). split; [|split].
      * intros Hnd. apply I1. rewrite keys_dict_set. now apply keys_add_NoDup.
      * intros k. rewrite I2, keys_dict_set, keys_add_In. split.
        -- intros [[Hk|Hk]|(fn & Hin & Hc & Hk)].
           ++ right. exists fname. split; [now left|]. now split.
           ++ now left.
           ++ right. exists fn. split; [now right|]. now split.
        -- intros [Hk|(fn & [Heq|Hin] & Hc & Hk)].
           ++ left. now right.
           ++ subst fn. left. now left.
           ++ right. exists fn. now split.
      * intros k g Hin. destruct (I3 _ _ Hin) as [Hd|(fn & Hfn & Hc & Hk & Hx)].
        -- apply dict_set_In in Hd as [[= -> ->]|Hd]; [|now left].
           right. exists fname. split; [now left|]. now repeat split.
        -- right. exists fn. split; [now right|]. now repeat split.
    + destruct (IH _ _ H) as (I1 & I2 & I3). split; [assumption|split].
      * intros k. rewrite I2. split.
        -- intros [Hk|(fn & Hin & Hc & Hk)]; [now left|].
           right. exists fn. split; [now right|]. now split.
        -- intros [Hk|(fn & [Heq|Hin] & Hc & Hk)].
           ++ now left.
           ++ subst fn. congruence.
           ++ right. exists fn. now split.
      * intros k g Hin. destruct (I3 _ _ Hin) as [Hd|(fn & Hfn & Hc & Hk & Hx)];
          [now left|].
        right. exists fn. split; [now right|]. now repeat split.
Qed.

(** X18. The player files a group is merged from are keyed, each key
    once, by exactly the names that follow the last [pdb/pdb.] in the
    member names holding that delimiter, and the file under a key is the
    content of such a member. *)
Theorem player_files_follow_member_names
    (system : string) (tar_group : tar file) (ip0 : dict file) :
  open_pdb ("pdb" ++ SLASH_str system ++ "pdb.") tar_group
           (getnames tar_group) [] = Ok ip0 ->
  NoDup (keys ip0)
  /\ (forall k, In k (keys ip0) <->
        exists fname,
          In fname (getnames tar_group)
          /\ contains ("pdb" ++ SLASH_str system ++ "pdb.") fname = true
          /\ k = last (str_split ("pdb" ++ SLASH_str system ++ "pdb.") fname) "")
  /\ (forall k f, In (k, f) ip0 ->
        exists fname,
          In fname (getnames tar_group)
          /\ k = last (str_split ("pdb" ++ SLASH_str system ++ "pdb.") fname) ""
          /\ extractfile fname tar_group = Ok (Some f)).
Proof.
  intros H. destruct (open_pdb_spec _ _ _ _ _ H) as (I1 & I2 & I3).
  split; [apply I1; constructor|]. split.
  - intros k. rewrite I2. split; [intros [[]|Hk]; exact Hk|auto].
  - intros k f Hin. destruct (I3 _ _ Hin) as [[]|(fn & ? & _ & ? & ?)].
    exists fn. now repeat split.
Qed.

Lemma player_files_follow_member_names_witness :
  exists ip0,
    open_pdb ("pdb" ++ SLASH_str "Linux" ++ "pdb.") short_player_file
             (getnames short_player_file) [] = Ok ip0
    /\ keys ip0 = ["Jak"; "ace"; "num"]%string
    /\ NoDup (keys ip0).
Proof.
  destruct (open_pdb ("pdb" ++ SLASH_str "Linux" ++ "pdb.") short_player_file
                     (getnames short_player_file) []) as [ip0|] eqn:E;
    [|vm_compute in E; discriminate].
  exists ip0. split; [reflexivity|].
  destruct (player_files_follow_member_names "Linux" short_player_file ip0 E)
    as (H1 & _ & _).
  split; [|exact H1].
  vm_compute in E. injection E as <-. reflexivity.
Defined.

(** ** The run over all groups *)

(** X19. When every group of the archive returns, the run yields the
    groups' hands one group after the other, in the order of the member
    names, and ends without an exception. *)
Theorem run_concatenates_groups
    (system : string) (tar_in : tar (option (tar file)))
    (names : list string) (groups : list (list Hand)) :
  Forall2 (fun name hs => _extract_single_group system name tar_in = Ok hs)
          names groups ->
  imap_hands system names tar_in = (concat groups, None).
Proof.
  induction 1 as [|name hs names groups Hn _ IH]; simpl; [reflexivity|].
  now rewrite Hn, IH.
Qed.

(** X20. When a group raises, the run ends with that exception: the
    hands of the groups before it have been yielded, those of the groups
    after it never are. *)
Theorem failing_group_ends_run
    (system : string) (tar_in : tar (option (tar file)))
    (before : list string) (groups : list (list Hand))
    (name : string) (e : exn) (after : list string) :
  Forall2 (fun name hs => _extract_single_group system name tar_in = Ok hs)
          before groups ->
  _extract_single_group system name tar_in = Raise e ->
  imap_hands system (before ++ name :: after) tar_in = (concat groups, Some e).
Proof.
  intros Hb He. induction Hb as [|n hs before groups Hn _ IH]; simpl.
  - now rewrite He.
  - now rewrite Hn, IH.
Qed.

Lemma run_concatenates_groups_witness :
  imap_hands "Linux" ["IRCdata"; "IRCdata/holdem.199601.tgz"]
             (top_level two_hands)
  = (concat [[]; [hand_094; hand_127]], None).
Proof.
  apply (run_concatenates_groups "Linux" (top_level two_hands)).
  repeat constructor; vm_compute; reflexivity.
Defined.

Lemma failing_group_ends_run_witness :
  imap_hands "Linux"
             (["IRCdata/holdem.199601.tgz"]
              ++ "holdem.199601.tgz" :: ["IRCdata/holdem.199602.tgz"])
             mixed_archive
  = (concat [[hand_094]], Some UnboundLocalError).
Proof.
  apply (failing_group_ends_run "Linux" mixed_archive).
  - repeat constructor; vm_compute; reflexivity.
  - vm_compute. reflexivity.
Defined.

(** ** The output file *)

Lemma dict_get_set_same {V : Type} (k : string) (v : V) (d : dict V) :
  dict_get k (dict_set k v d) = Some v.
Proof.
  induction d as [|[k' v'] d IH]; simpl.
  - now rewrite String.eqb_refl.
  - destruct (String.eqb k k') eqn:E; simpl.
    + now rewrite String.eqb_refl.
    + now rewrite E.
Qed.

(** X21. A run that computes, from an archive in which no group raises,
    yields the hands of the archive and leaves them in the output file;
    any later iteration with that output file yields the same hands in
    the same order, changes no file, and looks neither at the input file
    nor at the number of workers. *)
Theorem compute_then_replay
    (system : string) (self later : PokerHandsExtractor) (fs : dict node)
    (path out : string) (tar_in : tar (option (tar file))) (hs : list Hand) :
  fname_in self = Some path ->
  fname_out self = Some out -> truthy (Some out) = true ->
  isfile out fs = false ->
  dict_get path fs = Some (Archive tar_in) ->
  imap_hands system (getnames tar_in) tar_in = (hs, None) ->
  fname_out later = Some out ->
  PokerHandsExtractor_iter system self fs
  = (hs, None, dict_set out (JsonHands hs) fs)
  /\ PokerHandsExtractor_iter system later (dict_set out (JsonHands hs) fs)
     = (hs, None, dict_set out (JsonHands hs) fs).
Proof.
  intros Hin Hout Ht Hno Hp Hi Hl. unfold PokerHandsExtractor_iter. split.
  - rewrite Hout, Ht. cbn [text]. rewrite Hno. cbn [andb].
    now rewrite Hin, Hp, Hi.
  - rewrite Hl, Ht. cbn [text]. unfold isfile.
    now rewrite dict_get_set_same.
Qed.

Lemma compute_then_replay_witness :
  PokerHandsExtractor_iter "Linux"
    {| fname_in := Some "IRCdata.tgz"; fname_out := Some "hands.json";
       n_jobs := Some 12 |}
    [("IRCdata.tgz", Archive (top_level two_hands))]
  = ([hand_094; hand_127], None,
     dict_set "hands.json" (JsonHands [hand_094; hand_127])
              [("IRCdata.tgz", Archive (top_level two_hands))])
  /\ PokerHandsExtractor_iter "Linux"
       {| fname_in := None; fname_out := Some "hands.json"; n_jobs := Some 1 |}
       (dict_set "hands.json" (JsonHands [hand_094; hand_127])
                 [("IRCdata.tgz", Archive (top_level two_hands))])
     = ([hand_094; hand_127], None,
        dict_set "hands.json" (JsonHands [hand_094; hand_127])
                 [("IRCdata.tgz", Archive (top_level two_hands))]).
Proof.
  apply (compute_then_replay "Linux" _ _ _ "IRCdata.tgz" "hands.json"
           (top_level two_hands)); reflexivity.
Defined.

(** X22. An iteration never changes a file other than its output file,
    and changes no file at all when it ends with an exception, whatever
    it had yielded before. *)
Theorem iteration_writes_only_its_output
    (system : string) (self : PokerHandsExtractor) (fs : dict node) :
  let '(yielded, r, fs') := PokerHandsExtractor_iter system self fs in
  (r <> None -> fs' = fs)
  /\ forall path, path <> text (fname_out self) ->
       dict_get path fs' = dict_get path fs.
Proof.
  unfold PokerHandsExtractor_iter.
  destruct (truthy (fname_out self) && isfile (text (fname_out self)) fs).
  - destruct (dict_get (text (fname_out self)) fs) as [[stored| |]|];
      now split.
  - destruct (fname_in self) as [path|]; [|now split].
    destruct (dict_get path fs) as [[stored|tar_in|]|]; try now split.
    destruct (imap_hands system (getnames tar_in) tar_in) as [yielded [e|]];
      [now split|].
    split; [congruence|]. intros p Hp.
    destruct (truthy (fname_out self)); [|reflexivity].
    now apply dict_get_set_other.
Qed.

(** The extractor the browser makes: no input file, one worker. *)
Lemma browser_extractor (cpu_count : option Z) (name : string) :
  endswith name ".json" = true ->
  PokerHandsExtractor_init cpu_count None (Some name) 1
  = Done {| fname_in := None; fname_out := Some name; n_jobs := Some 1 |}.
Proof.
  intros H. unfold PokerHandsExtractor_init. cbn [truthy andb text].
  now rewrite H, andb_false_r.
Qed.

(** X23. Browsing a file that does not exist ends with [AttributeError]
    before anything is shown: the browser's extractor has no input file
    to compute from, and the attribute the computation reads first was
    never set. *)
Theorem browsing_a_missing_file_fails
    (system : string) (cpu_count : option Z) (name : string)
    (self : PokerHandsBrowser) (game_type : option string) (fs : dict node) :
  PokerHandsBrowser_init name = Done self ->
  truthy game_type = false
  \/ mem_string (text game_type) VALID_GAME_TYPES = true ->
  isfile name fs = false ->
  PokerHandsBrowser_run system cpu_count self game_type fs
  = ([], Some AttributeError).
Proof.
  unfold PokerHandsBrowser_init.
  destruct (endswith name ".json") eqn:E; [|discriminate].
  intros [= <-] Hg Hno. unfold PokerHandsBrowser_run. cbn [fname].
  assert (negb (negb (truthy game_type)
                || mem_string (text game_type) VALID_GAME_TYPES) = false) as ->.
  { destruct Hg as [-> | ->]; [reflexivity|]. now rewrite orb_true_r. }
  rewrite (browser_extractor _ _ E). unfold PokerHandsExtractor_iter.
  cbn [fname_out fname_in text]. rewrite Hno, andb_false_r. reflexivity.
Qed.

Lemma browsing_a_missing_file_fails_witness :
  PokerHandsBrowser_run "Linux" (Some 8) {| fname := "hands.json" |} None
                        [("IRCdata.tgz", Archive (top_level two_hands))]
  = ([], Some AttributeError).
Proof.
  apply (browsing_a_missing_file_fails "Linux" (Some 8) "hands.json");
    [reflexivity|left; reflexivity|reflexivity].
Defined.

(** ** The browser *)

Lemma prefix_app_l (p s t : string) :
  prefix p s = true -> prefix p (s ++ t) = true.
Proof.
  revert s. induction p as [|c p IH]; intros s H;
    [now destruct (s ++ t)%string|].
  destruct s as [|c' s]; [discriminate|]. simpl in *.
  destruct (ascii_dec c c'); [now apply IH|discriminate].
Qed.

(** X24. The game type filter of the browser is a prefix test on the
    identifier: asked for a game type, the browser shows the hands of
    every group whose game type starts with it, so that asking for
    [holdem] also shows [holdem1], [holdem2], [holdem3], [holdemii] and
    [holdempot]. *)
Theorem filter_is_a_prefix_test
    (system game_type game rest : string) (ts : Z) (hand : Hand) :
  _id hand = make_id system (game ++ rest) ts ->
  char_in (SLASH system) game = false ->
  prefix game_type game = true ->
  filtered_out (Some game_type) hand = false.
Proof.
  intros Hid Hg Hp. unfold filtered_out. cbn [text].
  rewrite Hid. unfold make_id.
  rewrite !string_app_assoc, replace_app, (replace_absent _ _ game) by assumption.
  rewrite (prefix_app_l _ _ _ Hp). apply andb_false_r.
Qed.

Lemma filter_is_a_prefix_test_witness :
  filtered_out (Some "holdem")
    {| _id := make_id "Linux" ("holdempot" ++ "/199601") 820830094;
       board := []; dealer := 0; game := "holdempot"; hand_num := 0;
       num_players := 0; players := []; pots := [] |}
  = false.
Proof.
  apply (filter_is_a_prefix_test "Linux" "holdem" "holdempot" "/199601"
           820830094); reflexivity.
Defined.

Lemma browse_hand_counter (c : Z) (hand : Hand) (b : block) :
  browse_hand c hand = Ok b -> shown_counter b = c.
Proof.
  unfold browse_hand. destruct (nth_error _ 1); [|discriminate].
  destruct (negb _); [discriminate|]. now intros [= <-].
Qed.

Lemma browse_app (game_type : option string) (before after : list Hand) :
  forall c,
    browse game_type c (before ++ after)
    = match browse game_type c before with
      | (bs, Some e) => (bs, Some e)
      | (bs, None) =>
          let '(bs', r) :=
            browse game_type (c + Z.of_nat (length bs)) after in
          (bs ++ bs', r)
      end.
Proof.
  induction before as [|hand before IH]; intros c; simpl.
  - rewrite Z.add_0_r. now destruct (browse game_type c after).
  - destruct (filtered_out game_type hand); [apply IH|].
    destruct (browse_hand c hand) as [b|e]; [|reflexivity].
    rewrite IH. destruct (browse game_type (c + 1) before) as [bs [e|]];
      [reflexivity|].
    cbn [length]. rewrite Nat2Z.inj_succ.
    replace (c + Z.succ (Z.of_nat (length bs))) with (c + 1 + Z.of_nat (length bs))
      by lia.
    now destruct (browse game_type (c + 1 + Z.of_nat (length bs)) after).
Qed.

(** X25. The number shown after [hand#] is the running count of the
    blocks printed so far, starting at zero: hands the filter leaves out
    do not count, and the number is not the hand's own [hand_num]. *)
Theorem browse_counts_the_blocks
    (game_type : option string) (hs : list Hand) :
  forall c bs r,
    browse game_type c hs = (bs, r) ->
    map shown_counter bs
    = map (fun i => c + Z.of_nat i) (seq 0 (length bs)).
Proof.
  induction hs as [|hand hs IH]; intros c bs r H; simpl in H.
  - now injection H as <- _.
  - destruct (filtered_out game_type hand); [exact (IH _ _ _ H)|].
    destruct (browse_hand c hand) as [b|e] eqn:B.
    + destruct (browse game_type (c + 1) hs) as [bs' r'] eqn:E.
      injection H as <- _. cbn [map length seq].
      rewrite (browse_hand_counter _ _ _ B), (IH _ _ _ E).
      rewrite Z.add_0_r. f_equal. rewrite <- seq_shift, map_map.
      apply map_ext. intros i. lia.
    + now injection H as <- _.
Qed.

Lemma browse_counts_the_blocks_witness :
  map shown_counter (fst (browse (Some "holdem") 0 [hand_094; hand_127]))
  = map (fun i => 0 + Z.of_nat i)
        (seq 0 (length (fst (browse (Some "holdem") 0 [hand_094; hand_127])))).
Proof.
  destruct (browse (Some "holdem") 0 [hand_094; hand_127]) as [bs r] eqn:E.
  exact (browse_counts_the_blocks _ _ _ _ _ E).
Defined.

(** X26. The browser ends with [AssertionError] at the first hand it
    does not filter out whose [players] has not as many entries as
    [num_players] says; the blocks of the hands before stay printed, the
    hands after are not looked at. The extractor can yield such a hand. *)
Theorem count_mismatch_stops_the_browser
    (game_type : option string) (c : Z) (before : list Hand) (hand : Hand)
    (after : list Hand) (bs : list block) (time : string) :
  browse game_type c before = (bs, None) ->
  filtered_out game_type hand = false ->
  nth_error (split1 "_" "" (_id hand)) 1 = Some time ->
  Z.of_nat (length (players hand)) <> num_players hand ->
  browse game_type c (before ++ hand :: after) = (bs, Some AssertionError).
Proof.
  intros Hb Hf Ht Hn. rewrite browse_app, Hb. simpl. rewrite Hf.
  unfold browse_hand. rewrite Ht. apply Z.eqb_neq in Hn. rewrite Hn. simpl.
  now rewrite app_nil_r.
Qed.

Lemma count_mismatch_stops_the_browser_witness :
  exists bs,
    browse None 0 ([hand_094] ++ hand_short_roster :: [hand_127])
    = (bs, Some AssertionError)
    /\ length bs = 1%nat.
Proof.
  eexists. split.
  - eapply (count_mismatch_stops_the_browser None 0 [hand_094]
              hand_short_roster [hand_127]).
    + vm_compute. reflexivity.
    + reflexivity.
    + vm_compute. reflexivity.
    + vm_compute. discriminate.
  - reflexivity.
Defined.

Lemma split1_two (c : ascii) (s : string) :
  forall cur,
    char_in c s = true -> exists a b, split1 c cur s = [a; b].
Proof.
  induction s as [|c' s IH]; intros cur H; simpl in *; [discriminate|].
  destruct (Ascii.eqb c' c) eqn:E; [eauto|].
  rewrite Ascii.eqb_sym, E in H. simpl in H. exact (IH _ H).
Qed.

(** X27. For a hand whose identifier is [game_tail] with no underscore
    in [game], and whose [players] has as many entries as [num_players]
    says, the browser prints a block: the time shown is [tail] (period,
    underscore, timestamp for an identifier of the extractor), the board
    is the hand's, and the pots are shown as pairs of player count and
    size. *)
Theorem block_of_a_hand
    (c : Z) (hand : Hand) (game tail : string) :
  _id hand = (game ++ "_" ++ tail)%string ->
  char_in "_" game = false ->
  Z.of_nat (length (players hand)) = num_players hand ->
  exists b,
    browse_hand c hand = Ok b
    /\ shown_time b = tail
    /\ shown_counter b = c
    /\ shown_board b = board hand
    /\ shown_pots b = map (fun p => (pot_num_players p, pot_size p)) (pots hand).
Proof.
  intros Hid Hg Hn. unfold browse_hand. rewrite Hid.
  change ("_" ++ tail)%string with (String "_" tail).
  rewrite split1_first by assumption. cbn [nth_error].
  apply Z.eqb_eq in Hn. rewrite Hn. cbn [negb].
  eexists. repeat split.
Qed.

Lemma block_of_a_hand_witness :
  exists b,
    browse_hand 27 hand_094 = Ok b
    /\ shown_time b = "199601_820830094"%string
    /\ shown_counter b = 27
    /\ shown_board b = ["Qc"; "4s"; "6s"; "5d"; "4d"]%string
    /\ shown_pots b = [(2, 20); (2, 40); (2, 80); (2, 80)].
Proof.
  apply (block_of_a_hand 27 hand_094 "holdem" "199601_820830094");
    reflexivity.
Defined.

(** X28. The browser never fails to find the time in the identifier of a
    hand the extractor emitted: the separator before the timestamp has
    become an underscore, so the split at the first underscore has a
    second part. *)
Theorem emitted_hands_have_a_time
    (system folder_group game_type : string) (tar_group : tar file)
    (hs : list Hand) (hand : Hand) :
  extract_and_merge system folder_group game_type tar_group = Ok hs ->
  In hand hs ->
  exists time, nth_error (split1 "_" "" (_id hand)) 1 = Some time.
Proof.
  intros H Hin.
  destruct (extract_and_merge_spec _ _ _ _ _ H)
    as [->|(file_hdb & file_hroster & ip0 & _ & Hs)]; [destruct Hin|].
  destruct (emitted_seq_In _ _ _ _ _ _ _ Hs _ Hin) as (l_h & _ & Hem).
  destruct Hem as (hdb & _ & _ & pdb_curr & _ & _ & _ & _ & _ & _ & _ & _ & ->).
  cbn [_id make_hand]. unfold make_id.
  destruct (split1_two "_" (replace (SLASH system) "_"
              (folder_group ++ SLASH_str system ++ str (hdb_timestamp hdb))) "")
    as (a & b & ->); [|now exists b].
  rewrite replace_app, char_in_app. unfold SLASH_str. cbn [append replace char_in].
  rewrite Ascii.eqb_refl. cbn [Ascii.eqb Bool.eqb orb]. apply orb_true_r.
Qed.

Lemma emitted_hands_have_a_time_witness :
  exists time, nth_error (split1 "_" "" (_id hand_127)) 1 = Some time.
Proof.
  apply (emitted_hands_have_a_time "Linux" "holdem/199601" "holdem" two_hands
           [hand_094; hand_127] hand_127).
  - vm_compute. reflexivity.
  - right. left. reflexivity.
Defined.

(** ** The order of display *)

Lemma insert_by_perm {A : Type} (key : A -> Z) (x : A) (l : list A) :
  Permutation (insert_by key x l) (x :: l).
Proof.
  induction l as [|y l IH]; simpl; [reflexivity|].
  destruct (key x <? key y); [reflexivity|].
  rewrite IH. apply perm_swap.
Qed.

Lemma sorted_perm_acc {A : Type} (key : A -> Z) (l : list A) :
  forall acc,
    Permutation (fold_left (fun acc x => insert_by key x acc) l acc) (acc ++ l).
Proof.
  induction l as [|x l IH]; intros acc; simpl.
  - now rewrite app_nil_r.
  - rewrite IH, insert_by_perm. apply Permutation_middle.
Qed.

Lemma insert_by_sorted {A : Type} (key : A -> Z) (x : A) (l : list A) :
  StronglySorted (fun a b => key a <= key b) l ->
  StronglySorted (fun a b => key a <= key b) (insert_by key x l).
Proof.
  induction 1 as [|y l Hs IH Hy]; simpl; [repeat constructor|].
  destruct (key x <? key y) eqn:E.
  - constructor; [now constructor|]. constructor; [lia|].
    eapply Forall_impl; [|exact Hy]. intros a Ha. simpl in Ha. lia.
  - constructor; [assumption|].
    apply (Permutation_Forall (Permutation_sym (insert_by_perm key x l))).
    constructor; [lia|assumption].
Qed.

Lemma sorted_sorted_acc {A : Type} (key : A -> Z) (l : list A) :
  forall acc,
    StronglySorted (fun a b => key a <= key b) acc ->
    StronglySorted (fun a b => key a <= key b)
                   (fold_left (fun acc x => insert_by key x acc) l acc).
Proof.
  induction l as [|x l IH]; intros acc H; simpl; [assumption|].
  apply IH. now apply insert_by_sorted.
Qed.

Lemma dict_get_NoDup {V : Type} (d : dict V) (k : string) (v : V) :
  NoDup (keys d) -> In (k, v) d -> dict_get k d = Some v.
Proof.
  unfold keys. induction d as [|[k' v'] d IH]; simpl; [intros _ []|].
  intros Hnd [[= -> ->]|Hin].
  - now rewrite String.eqb_refl.
  - inversion Hnd as [|? ? Hk Hnd']; subst.
    destruct (String.eqb k k') eqn:E; [|now apply IH].
    apply String.eqb_eq in E. subst k'. destruct Hk.
    now apply (in_map fst d (k, v)).
Qed.

Lemma flat_map_entries (players d : dict Player) :
  (forall k v, In (k, v) d -> dict_get k players = Some v) ->
  flat_map (entry_of players) (keys d) = d.
Proof.
  induction d as [|[k v] d IH]; intros H; simpl; [reflexivity|].
  unfold entry_of at 1. rewrite (H k v (or_introl eq_refl)). simpl.
  f_equal. apply IH. intros k' v' Hin. apply H. now right.
Qed.

Lemma flat_map_entries_sorted (players : dict Player) (names : list string) :
  StronglySorted (fun a b => position_of players a <= position_of players b)
                 names ->
  StronglySorted (fun p q => position (snd p) <= position (snd q))
                 (flat_map (entry_of players) names).
Proof.
  induction 1 as [|name names Hs IH Hn]; simpl; [constructor|].
  unfold entry_of at 1. destruct (dict_get name players) as [v|] eqn:G;
    [|exact IH].
  simpl. constructor; [exact IH|].
  apply Forall_forall. intros [k w] Hin. apply in_flat_map in Hin as (n & Hn' & He).
  unfold entry_of in He. destruct (dict_get n players) as [w'|] eqn:G';
    [|destruct He].
  destruct He as [[= <- <-]|[]]. rewrite Forall_forall in Hn.
  specialize (Hn _ Hn'). unfold position_of in Hn. now rewrite G, G' in Hn.
Qed.

(** X29. In a printed block the players of the hand appear each once, in
    the order of their positions, lowest first (the names of a hand being
    all different, as the keys of a dictionary are). *)
Theorem players_shown_by_position (c : Z) (hand : Hand) (b : block) :
  browse_hand c hand = Ok b ->
  NoDup (keys (players hand)) ->
  Permutation (shown_players b) (players hand)
  /\ StronglySorted (fun p q => position (snd p) <= position (snd q))
                    (shown_players b).
Proof.
  unfold browse_hand. destruct (nth_error _ 1); [|discriminate].
  destruct (negb _); [discriminate|]. intros [= <-] Hnd. cbn [shown_players].
  split.
  - apply Permutation_trans
      with (flat_map (entry_of (players hand)) (keys (players hand))).
    + apply Permutation_flat_map.
      exact (sorted_perm_acc _ (keys (players hand)) []).
    + rewrite flat_map_entries; [reflexivity|].
      intros k v Hin. now apply dict_get_NoDup.
  - apply flat_map_entries_sorted. apply sorted_sorted_acc. constructor.
Qed.

Lemma players_shown_by_position_witness :
  exists b,
    browse_hand 1 hand_127 = Ok b
    /\ map fst (shown_players b) = ["num"; "Jak"]%string
    /\ StronglySorted (fun p q => position (snd p) <= position (snd q))
                      (shown_players b).
Proof.
  destruct (browse_hand 1 hand_127) as [b|] eqn:E;
    [|vm_compute in E; discriminate].
  exists b. split; [reflexivity|].
  destruct (players_shown_by_position 1 hand_127 b E) as [_ H2].
  - repeat constructor; simpl; intuition discriminate.
  - split; [|exact H2]. vm_compute in E. injection E as <-. reflexivity.
Defined.
